(** * RaspiCamera: framed H.264 streaming between a Raspberry Pi and its viewers

    A shallow embedding of the sender (the modified raspivid: encoder buffer
    callbacks, [SendToAndroid], [DetectMotion], [receive_commands], the crop
    rectangle, recording to a file), of the Android receiver
    ([DecoderThread] with its command methods, [TcpIpReader]) and of the
    Raspberry Pi receiver ([read_into_buffer_and_empty]), with the
    properties of the framing protocol and of the control channel proved
    about them. *)

From Stdlib Require Import ZArith String Ascii List Lia Bool.
From Stdlib.Strings Require Import Byte.
From Stdlib Require Import DecimalString DecimalZ.
Import ListNotations.
Local Open Scope Z_scope.

(** ** Machine integers

    C and Java integers are carried as [Z]; every conversion the sources
    perform is written out with its wrap-around. *)
Module CInt.

Definition to_unsigned (w x : Z) : Z := x mod 2 ^ w.
Definition to_signed (w x : Z) : Z := (x + 2 ^ (w - 1)) mod 2 ^ w - 2 ^ (w - 1).

Definition uint8 := to_unsigned 8.
Definition uint16 := to_unsigned 16.
Definition uint32 := to_unsigned 32.
Definition int8 := to_signed 8.
Definition int32 := to_signed 32.

Definition INT_MAX : Z := 2147483647.
Definition INT_MIN : Z := -2147483648.

End CInt.

(** ** Bytes *)

Definition u8 (b : byte) : Z := Z.of_N (Byte.to_N b).

Definition byte_of_Z (z : Z) : byte :=
  match Byte.of_N (Z.to_N (z mod 256)) with
  | Some b => b
  | None => x00
  end.

(** The four bytes of a [uint32_t] as they lie in the memory of the sender,
    a little-endian ARM core: [SendToAndroid (fd, &length, 4)] puts them on
    the wire in this order. *)
Definition uint32_bytes (n : Z) : list byte :=
  [ byte_of_Z n; byte_of_Z (Z.shiftr n 8);
    byte_of_Z (Z.shiftr n 16); byte_of_Z (Z.shiftr n 24) ].

(** ** The sender process *)

(** MMAL_BUFFER_HEADER_T: [data] holds the [length] valid bytes of the
    buffer, [flags] is the 32-bit flag word. *)
Record MMAL_BUFFER_HEADER_T := mkBuffer {
  data : list byte;
  flags : Z
}.

Definition buffer_length (b : MMAL_BUFFER_HEADER_T) : Z :=
  Z.of_nat (List.length (data b)).

(** What the kernel answers to one [send] call. *)
Inductive SendResult :=
| SendAll                (* every byte is taken *)
| SendSome (n : nat)     (* at most [n] bytes are taken *)
| SendFail.              (* -1 *)

(** Calls made to the camera and encoder components. *)
Inductive CameraCall :=
| set_ISO (iso : Z)
| set_shutter_speed (ss : Z)
| annotate (text : string)
| zoom_in_zoom_out (direction : ascii)
| encode_inline_vectors (on : Z).

(** MMAL_RECT_T, the crop rectangle of the camera in 1/65536 of the sensor *)
Record MMAL_RECT_T := mkRect {
  rect_x : Z;
  rect_y : Z;
  rect_width : Z;
  rect_height : Z
}.

Record Process := mkProcess {
  wire : list byte;                 (* bytes the socket has taken, in order *)
  sock : list SendResult;           (* answers to the coming send calls;
                                       when exhausted every send is taken whole *)
  p_buf_partial_begin : option MMAL_BUFFER_HEADER_T;
  b1_config_sent : Z;               (* static char of the android_motion callback *)
  gMotionAlarm : Z;
  runTimeShowStat : Z;
  i64FramesCnt : Z;
  mbx : Z;
  mby : Z;
  inline_vectors : Z;               (* MMAL_PARAMETER_VIDEO_ENCODE_INLINE_VECTORS *)
  camera : list CameraCall;         (* calls made so far, oldest first *)
  crop : MMAL_RECT_T                (* MMAL_PARAMETER_INPUT_CROP of the camera *)
}.

Definition set_wire (v : list byte) (p : Process) : Process :=
  mkProcess v (sock p) (p_buf_partial_begin p) (b1_config_sent p)
    (gMotionAlarm p) (runTimeShowStat p) (i64FramesCnt p) (mbx p) (mby p)
    (inline_vectors p) (camera p) (crop p).
Definition set_sock (v : list SendResult) (p : Process) : Process :=
  mkProcess (wire p) v (p_buf_partial_begin p) (b1_config_sent p)
    (gMotionAlarm p) (runTimeShowStat p) (i64FramesCnt p) (mbx p) (mby p)
    (inline_vectors p) (camera p) (crop p).
Definition set_partial (v : option MMAL_BUFFER_HEADER_T) (p : Process) : Process :=
  mkProcess (wire p) (sock p) v (b1_config_sent p)
    (gMotionAlarm p) (runTimeShowStat p) (i64FramesCnt p) (mbx p) (mby p)
    (inline_vectors p) (camera p) (crop p).
Definition set_config_sent (v : Z) (p : Process) : Process :=
  mkProcess (wire p) (sock p) (p_buf_partial_begin p) v
    (gMotionAlarm p) (runTimeShowStat p) (i64FramesCnt p) (mbx p) (mby p)
    (inline_vectors p) (camera p) (crop p).
Definition set_alarm (v : Z) (p : Process) : Process :=
  mkProcess (wire p) (sock p) (p_buf_partial_begin p) (b1_config_sent p)
    v (runTimeShowStat p) (i64FramesCnt p) (mbx p) (mby p)
    (inline_vectors p) (camera p) (crop p).
Definition set_stat (v : Z) (p : Process) : Process :=
  mkProcess (wire p) (sock p) (p_buf_partial_begin p) (b1_config_sent p)
    (gMotionAlarm p) v (i64FramesCnt p) (mbx p) (mby p)
    (inline_vectors p) (camera p) (crop p).
Definition set_frames (v : Z) (p : Process) : Process :=
  mkProcess (wire p) (sock p) (p_buf_partial_begin p) (b1_config_sent p)
    (gMotionAlarm p) (runTimeShowStat p) v (mbx p) (mby p)
    (inline_vectors p) (camera p) (crop p).
Definition set_vectors (v : Z) (p : Process) : Process :=
  mkProcess (wire p) (sock p) (p_buf_partial_begin p) (b1_config_sent p)
    (gMotionAlarm p) (runTimeShowStat p) (i64FramesCnt p) (mbx p) (mby p)
    v (camera p) (crop p).
Definition call_camera (c : CameraCall) (p : Process) : Process :=
  mkProcess (wire p) (sock p) (p_buf_partial_begin p) (b1_config_sent p)
    (gMotionAlarm p) (runTimeShowStat p) (i64FramesCnt p) (mbx p) (mby p)
    (inline_vectors p) (camera p ++ [c]) (crop p).
Definition set_crop (v : MMAL_RECT_T) (p : Process) : Process :=
  mkProcess (wire p) (sock p) (p_buf_partial_begin p) (b1_config_sent p)
    (gMotionAlarm p) (runTimeShowStat p) (i64FramesCnt p) (mbx p) (mby p)
    (inline_vectors p) (camera p) v.

(** A callback either returns, leaving the process running, or ends it
    through [exit]. *)
Inductive Outcome :=
| Running (p : Process)
| Exited (code : Z) (p : Process).

Definition Action := Process -> Outcome.

Definition and_then (a b : Action) : Action :=
  fun p => match a p with
           | Running p' => b p'
           | Exited c p' => Exited c p'
           end.

Notation "a ;; b" := (and_then a b) (at level 61, right associativity).

Definition skip : Action := Running.
Definition exit (code : Z) : Action := Exited code.
Definition update (f : Process -> Process) : Action := fun p => Running (f p).

(** [send (fd, buf, len, MSG_NOSIGNAL)]: the value returned and the bytes
    that went out. *)
Definition send (buf : list byte) (p : Process) : Z * Process :=
  match sock p with
  | [] => (Z.of_nat (List.length buf), set_wire (wire p ++ buf) p)
  | SendAll :: rest =>
      (Z.of_nat (List.length buf), set_sock rest (set_wire (wire p ++ buf) p))
  | SendSome n :: rest =>
      let k := Nat.min n (List.length buf) in
      (Z.of_nat k, set_sock rest (set_wire (wire p ++ firstn k buf) p))
  | SendFail :: rest => (-1, set_sock rest p)
  end.

(** [if (len != send (...)) exit (__LINE__);]  The comparison is made in the
    unsigned 32-bit type of the sender, where -1 reads 4294967295. *)
Definition send_or_exit (line : Z) (buf : list byte) : Action :=
  fun p =>
    let '(r, p') := send buf p in
    if CInt.uint32 (Z.of_nat (List.length buf)) =? CInt.uint32 r
    then Running p'
    else Exited line p'.

Definition SendToAndroid (buf : list byte) : Action := send_or_exit 1259 buf.

(** ANDROID_DATA_TYPES *)
Definition CurrentResolution : Z := 0.
Definition RegularFrame : Z := 1.
Definition MotionInFrame : Z := 2.
Definition MotionAlarm : Z := 3.

(** handle_frame_end: the frame counter, and the statistics overlay when it
    is switched on.  The overlay text is built from the system clock and is
    not modelled; the call is recorded with an empty text. *)
Definition handle_frame_end : Action :=
  fun p =>
    let p1 := set_frames (i64FramesCnt p + 1) p in
    if runTimeShowStat p1 =? 0 then Running p1
    else Running (call_camera (annotate EmptyString) p1).

(** ** Encoder buffer callbacks *)

(** The flag bits of MMAL_BUFFER_HEADER_T are declared in mmal_buffer.h, a
    header of the vendor library that is not among the sources.  The
    callbacks only test them against the flag word, so they are parameters
    of the model. *)
Class BufferFlags := mkFlags {
  MMAL_BUFFER_HEADER_FLAG_FRAME_END : Z;
  MMAL_BUFFER_HEADER_FLAG_CONFIG : Z;
  MMAL_BUFFER_HEADER_FLAG_CODECSIDEINFO : Z
}.

(** [buffer->flags & FLAG] used as a condition *)
Definition has_flag (buffer : MMAL_BUFFER_HEADER_T) (flag : Z) : bool :=
  negb (Z.land (flags buffer) flag =? 0).

(** INLINE_MOTION_VECTOR, four bytes per macroblock *)
Record INLINE_MOTION_VECTOR := mkVector {
  x_vector : Z;   (* signed char *)
  y_vector : Z;   (* signed char *)
  sad : Z         (* short *)
}.

(** [imv[i]] where [imv] is the buffer's data read as an array of
    INLINE_MOTION_VECTOR; [None] when cell [i] is not inside the data. *)
Definition imv_at (bytes : list byte) (i : Z) : option INLINE_MOTION_VECTOR :=
  if (0 <=? i) && (4 * i + 3 <? Z.of_nat (List.length bytes)) then
    let b := fun k => u8 (nth (Z.to_nat (4 * i + k)) bytes x00) in
    Some (mkVector (CInt.int8 (b 0)) (CInt.int8 (b 1))
                   (CInt.to_signed 16 (b 2 + 256 * b 3)))
  else None.

Definition MAX (a b : Z) : Z := if a >? b then a else b.

(** [x+(pstate->mbx+1)*j] *)
Definition cell_index (mbx x j : Z) : Z := x + (mbx + 1) * j.

(** [(unsigned char)sqrt(vx*vx+vy*vy)].  The argument is an integer below
    2^15; the correctly rounded double square root of such an integer has
    the integer square root as its integer part, which [Z.sqrt] gives. *)
Definition vector_strength (vx vy : Z) : Z :=
  CInt.uint8 (Z.sqrt (vx * vx + vy * vy)).

(** The inner loop of DetectMotion: [for(x=0; x<pstate->mbx; x++)], with
    [xs] the values [x] still to visit. *)
Fixpoint scan_row (imv : list byte) (mbx j : Z) (xs : list nat) (max_vxvy : Z)
  : option Z :=
  match xs with
  | [] => Some max_vxvy
  | x :: xs' =>
      match imv_at imv (cell_index mbx (Z.of_nat x) j) with
      | None => None
      | Some cell =>
          let vx := CInt.int8 (- x_vector cell) in
          let vy := y_vector cell in
          scan_row imv mbx j xs' (MAX max_vxvy (vector_strength vx vy))
      end
  end.

(** The outer loop: [for(j=0; j<pstate->mby; j++)] *)
Fixpoint scan_rows (imv : list byte) (mbx : Z) (js : list nat) (max_vxvy : Z)
  : option Z :=
  match js with
  | [] => Some max_vxvy
  | j :: js' =>
      match scan_row imv mbx (Z.of_nat j) (seq 0 (Z.to_nat mbx)) max_vxvy with
      | None => None
      | Some m => scan_rows imv mbx js' m
      end
  end.

(** DetectMotion returns [max_vxvy] after the two loops; the statements
    after that [return] are never reached.  [None]: a cell outside the
    buffer was read. *)
Definition DetectMotion (imv : list byte) (mbx mby : Z) : option Z :=
  scan_rows imv mbx (seq 0 (Z.to_nat mby)) 0.

(** main: the macroblock grid of the image, kept in two [unsigned short] *)
Definition macroblocks (width height : Z) : Z * Z :=
  let mbx := CInt.uint16 (Z.quot width 16) in
  let mby := CInt.uint16 (Z.quot height 16) in
  let mbx := if Z.rem width 16 =? 0 then mbx else CInt.uint16 (mbx + 1) in
  let mby := if Z.rem height 16 =? 0 then mby else CInt.uint16 (mby + 1) in
  (mbx, mby).

(** A callback may also read outside its buffer, which C leaves undefined;
    [Callback] adds that case to the two of [Outcome]. *)
Inductive Callback :=
| Done (o : Outcome)
| OutOfBuffer (p : Process).

Section Callbacks.
Context {F : BufferFlags}.

(** The pool bookkeeping of the callbacks (mem_lock, mem_unlock, release,
    sending a fresh buffer to the port) has no effect on the wire and is
    left out; everything else follows the source line by line. *)

Definition encoder_buffer_callback_android_dimon
  (buffer : MMAL_BUFFER_HEADER_T) : Action :=
  fun p =>
    if buffer_length buffer =? 0 then Running p
    else if has_flag buffer MMAL_BUFFER_HEADER_FLAG_CONFIG then
      (SendToAndroid (uint32_bytes (buffer_length buffer)) ;;
       SendToAndroid (data buffer)) p
    else if has_flag buffer MMAL_BUFFER_HEADER_FLAG_CODECSIDEINFO then
      Running p
    else if flags buffer =? 0 then
      match p_buf_partial_begin p with
      | Some _ => exit 12 p
      | None => Running (set_partial (Some buffer) p)
      end
    else if has_flag buffer MMAL_BUFFER_HEADER_FLAG_FRAME_END then
      match p_buf_partial_begin p with
      | Some partial_begin =>
          let all_length :=
            CInt.uint32 (buffer_length partial_begin + buffer_length buffer) in
          (SendToAndroid (uint32_bytes all_length) ;;
           SendToAndroid (data partial_begin) ;;
           SendToAndroid (data buffer) ;;
           update (set_partial None) ;;
           handle_frame_end) p
      | None =>
          (SendToAndroid (uint32_bytes (buffer_length buffer)) ;;
           SendToAndroid (data buffer) ;;
           handle_frame_end) p
      end
    else Running p.

Definition encoder_buffer_callback_android
  (buffer : MMAL_BUFFER_HEADER_T) : Action :=
  fun p =>
    if buffer_length buffer =? 0 then Running p
    else if has_flag buffer MMAL_BUFFER_HEADER_FLAG_CONFIG then
      (SendToAndroid (uint32_bytes (buffer_length buffer)) ;;
       SendToAndroid (data buffer)) p
    else if has_flag buffer MMAL_BUFFER_HEADER_FLAG_CODECSIDEINFO then
      Running p
    else if flags buffer =? 0 then
      match p_buf_partial_begin p with
      | Some _ => exit 12 p
      | None => Running (set_partial (Some buffer) p)
      end
    else if has_flag buffer MMAL_BUFFER_HEADER_FLAG_FRAME_END then
      match p_buf_partial_begin p with
      | Some partial_begin =>
          let all_length :=
            CInt.uint32 (buffer_length partial_begin + buffer_length buffer) in
          (SendToAndroid (uint32_bytes all_length) ;;
           SendToAndroid (data partial_begin) ;;
           SendToAndroid (data buffer) ;;
           update (set_partial None) ;;
           handle_frame_end) p
      | None =>
          (SendToAndroid (uint32_bytes (buffer_length buffer)) ;;
           SendToAndroid (data buffer) ;;
           handle_frame_end) p
      end
    else Running p.

(** The motion branch of the android_motion callback: the tag, the
    strength found by DetectMotion, and the alarm tag. *)
Definition send_motion (buffer : MMAL_BUFFER_HEADER_T) (p : Process) : Callback :=
  match SendToAndroid [byte_of_Z MotionInFrame] p with
  | Exited c p1 => Done (Exited c p1)
  | Running p1 =>
      match DetectMotion (data buffer) (mbx p1) (mby p1) with
      | None => OutOfBuffer p1
      | Some mot =>
          Done ((SendToAndroid [byte_of_Z mot] ;;
                 (fun p2 =>
                    if negb (gMotionAlarm p2 =? 0) && (mot >? gMotionAlarm p2)
                    then SendToAndroid [byte_of_Z MotionAlarm] p2
                    else Running p2)) p1)
      end
  end.

Definition encoder_buffer_callback_android_motion
  (buffer : MMAL_BUFFER_HEADER_T) (p : Process) : Callback :=
  if buffer_length buffer =? 0 then Done (Running p)
  else if (b1_config_sent p <? 2)
          && has_flag buffer MMAL_BUFFER_HEADER_FLAG_CONFIG then
    Done ((update (fun q => set_config_sent (b1_config_sent q + 1) q) ;;
           SendToAndroid (uint32_bytes (buffer_length buffer)) ;;
           SendToAndroid (data buffer)) p)
  else if has_flag buffer MMAL_BUFFER_HEADER_FLAG_CODECSIDEINFO then
    send_motion buffer p
  else if flags buffer =? 0 then
    match p_buf_partial_begin p with
    | Some _ => Done (exit 12 p)
    | None => Done (Running (set_partial (Some buffer) p))
    end
  else if has_flag buffer MMAL_BUFFER_HEADER_FLAG_FRAME_END then
    match p_buf_partial_begin p with
    | Some partial_begin =>
        let all_length :=
          CInt.uint32 (buffer_length partial_begin + buffer_length buffer) in
        Done ((SendToAndroid [byte_of_Z RegularFrame] ;;
               SendToAndroid (uint32_bytes all_length) ;;
               SendToAndroid (data partial_begin) ;;
               SendToAndroid (data buffer) ;;
               update (set_partial None) ;;
               handle_frame_end) p)
    | None =>
        Done ((SendToAndroid [byte_of_Z RegularFrame] ;;
               SendToAndroid (uint32_bytes (buffer_length buffer)) ;;
               SendToAndroid (data buffer) ;;
               handle_frame_end) p)
    end
  else Done (Running p).

Definition encoder_buffer_callback_raw_tcp
  (buffer : MMAL_BUFFER_HEADER_T) : Action :=
  fun p =>
    if buffer_length buffer =? 0 then Running p
    else if has_flag buffer MMAL_BUFFER_HEADER_FLAG_CODECSIDEINFO then
      Running p
    else
      (send_or_exit 1647 (data buffer) ;;
       (if has_flag buffer MMAL_BUFFER_HEADER_FLAG_FRAME_END
        then handle_frame_end else skip)) p.

(** encoder_buffer_callback_empty only counts frames. *)
Definition encoder_buffer_callback_empty
  (buffer : MMAL_BUFFER_HEADER_T) : Action :=
  fun p =>
    if buffer_length buffer =? 0 then Running p
    else if has_flag buffer MMAL_BUFFER_HEADER_FLAG_CODECSIDEINFO then
      Running p
    else if has_flag buffer MMAL_BUFFER_HEADER_FLAG_FRAME_END then
      handle_frame_end p
    else Running p.

(** The encoder calls the callback once per buffer, in order, as long as
    the process lives. *)
Fixpoint feed (callback : MMAL_BUFFER_HEADER_T -> Action)
  (buffers : list MMAL_BUFFER_HEADER_T) : Action :=
  match buffers with
  | [] => skip
  | b :: rest => callback b ;; feed callback rest
  end.

End Callbacks.

(** ** The control channel *)

(** my_raspicamcontrol_zoom_in_zoom_out: the new crop rectangle.  The
    arithmetic is that of C [int] on values far from its limits. *)
Definition zoom_out_axis (pos size : Z) : Z * Z :=
  let zoom_increment_16P16 := Z.quot 65536 10 in
  if pos + size + zoom_increment_16P16 <? 65536 then
    (pos - Z.quot zoom_increment_16P16 2, size + zoom_increment_16P16)
  else
    let pos' := pos - Z.quot zoom_increment_16P16 2 in
    (pos', 65536 - pos').

Definition move_crop (direction : ascii) (r : MMAL_RECT_T) : MMAL_RECT_T :=
  let iMoveStep := 500 in
  let zoom_increment_16P16 := Z.quot 65536 10 in
  if Ascii.eqb direction "l" then
    let x := rect_x r - iMoveStep in
    mkRect (if x <? 0 then 0 else x) (rect_y r) (rect_width r) (rect_height r)
  else if Ascii.eqb direction "r" then
    let iMoveStep :=
      if rect_x r + iMoveStep + rect_width r >? 65536
      then 65536 - (rect_x r + rect_width r) else iMoveStep in
    mkRect (rect_x r + iMoveStep) (rect_y r) (rect_width r) (rect_height r)
  else if Ascii.eqb direction "u" then
    let y := rect_y r - iMoveStep in
    mkRect (rect_x r) (if y <? 0 then 0 else y) (rect_width r) (rect_height r)
  else if Ascii.eqb direction "d" then
    let iMoveStep :=
      if rect_y r + iMoveStep + rect_height r >? 65536
      then 65536 - (rect_y r + rect_height r) else iMoveStep in
    mkRect (rect_x r) (rect_y r + iMoveStep) (rect_width r) (rect_height r)
  else if Ascii.eqb direction "i" then
    mkRect (rect_x r + Z.quot zoom_increment_16P16 2)
           (rect_y r + Z.quot zoom_increment_16P16 2)
           (rect_width r - zoom_increment_16P16)
           (rect_height r - zoom_increment_16P16)
  else if Ascii.eqb direction "R" then
    mkRect 0 0 65536 65536
  else if Ascii.eqb direction "o" then
    let '(x, w) := zoom_out_axis (rect_x r) (rect_width r) in
    let '(y, h) := zoom_out_axis (rect_y r) (rect_height r) in
    let '(y, h) := zoom_out_axis y h in
    let y := if y <? 0 then 0 else y in
    let x := if x <? 0 then 0 else x in
    let y := if y >? 65536 then 65536 else y in
    let x := if x >? 65536 then 65536 else x in
    mkRect x y w h
  else r.

Definition my_raspicamcontrol_zoom_in_zoom_out (direction : ascii)
  (p : Process) : Process :=
  call_camera (zoom_in_zoom_out direction) (set_crop (move_crop direction (crop p)) p).

(** SwitchMotionVectorsOnFly: nothing is done when the encoder already is
    in the wanted state; otherwise the port is stopped, the parameter set
    and the port started again.  The encoder keeps the parameter as a
    boolean, 0 or 1. *)
Definition SwitchMotionVectorsOnFly (bTurnOn : Z) (p : Process) : Process :=
  if inline_vectors p =? bTurnOn then p
  else call_camera (encode_inline_vectors bTurnOn)
         (set_vectors (if bTurnOn =? 0 then 0 else 1) p).

Definition isspace (c : ascii) : bool :=
  let n := nat_of_ascii c in
  (Nat.eqb n 32 || (Nat.leb 9 n && Nat.leb n 13))%bool.

Definition isdigit (c : ascii) : bool :=
  let n := nat_of_ascii c in (Nat.leb 48 n && Nat.leb n 57)%bool.

Definition digit_value (c : ascii) : Z := Z.of_nat (nat_of_ascii c) - 48.

Fixpoint skip_space (s : string) : string :=
  match s with
  | String c rest => if isspace c then skip_space rest else s
  | EmptyString => s
  end.

Fixpoint scan_digits (s : string) (acc : Z) : Z :=
  match s with
  | String c rest =>
      if isdigit c then scan_digits rest (10 * acc + digit_value c) else acc
  | EmptyString => acc
  end.

Definition starts_with_digit (s : string) : bool :=
  match s with
  | String c _ => isdigit c
  | EmptyString => false
  end.

(** A value outside [int] is stored as the nearest limit, as the C library
    of the sender (glibc, through strtol) does. *)
Definition clamp_int (v : Z) : Z := Z.max CInt.INT_MIN (Z.min CInt.INT_MAX v).

(** The [%d] conversion of sscanf: white space, an optional sign, digits. *)
Definition scan_d (s : string) : option Z :=
  match skip_space s with
  | String c rest =>
      if Ascii.eqb c "-" then
        if starts_with_digit rest
        then Some (clamp_int (- scan_digits rest 0)) else None
      else if Ascii.eqb c "+" then
        if starts_with_digit rest
        then Some (clamp_int (scan_digits rest 0)) else None
      else if isdigit c then Some (clamp_int (scan_digits (String c rest) 0))
      else None
  | EmptyString => None
  end.

Fixpoint drop_prefix (key line : string) : option string :=
  match key, line with
  | EmptyString, _ => Some line
  | String a key', String b line' =>
      if Ascii.eqb a b then drop_prefix key' line' else None
  | String _ _, EmptyString => None
  end.

(** [sscanf (line, "<key>%d\n", &v)]: [Some v] when it returns 1. *)
Definition sscanf_d (key line : string) : option Z :=
  match drop_prefix key line with
  | Some rest => scan_d rest
  | None => None
  end.

(** [!strncmp (key, line, strlen (key))] *)
Definition strncmp_eq (key line : string) : bool := prefix key line.

(** [line[i]]; past the end of the line stands its terminating zero. *)
Definition char_at (i : nat) (line : string) : ascii :=
  match String.get i line with
  | Some c => c
  | None => zero
  end.

(** The body of the loop of receive_commands, for one line. *)
Definition command (line : string) (p : Process) : Process :=
  if strncmp_eq "iso=" line then
    match sscanf_d "iso=" line with
    | Some iPar => call_camera (set_ISO iPar) p
    | None => p
    end
  else if strncmp_eq "ss=" line then
    match sscanf_d "ss=" line with
    | Some iPar => call_camera (set_shutter_speed iPar) p
    | None => p
    end
  else if strncmp_eq "stat=" line then
    let p1 := match sscanf_d "stat=" line with
              | Some v => set_stat v p
              | None => p
              end in
    if runTimeShowStat p1 =? 0 then call_camera (annotate EmptyString) p1 else p1
  else if strncmp_eq "motion=" line then
    if gMotionAlarm p =? 0 then
      match sscanf_d "motion=" line with
      | Some iPar => SwitchMotionVectorsOnFly iPar p
      | None => p
      end
    else p
  else if strncmp_eq "move=" line then
    my_raspicamcontrol_zoom_in_zoom_out (char_at 5 line) p
  else if strncmp_eq "mot_alarm=" line then
    match sscanf_d "mot_alarm=" line with
    | Some v =>
        let p1 := set_alarm v p in
        SwitchMotionVectorsOnFly (if gMotionAlarm p1 =? 0 then 0 else 1) p1
    | None => p
    end
  else p.

(** getline: what the socket delivered, cut after every newline.  The last
    piece has no newline when the peer closed in the middle of a line. *)
Fixpoint getlines (text : string) : list string :=
  match text with
  | EmptyString => []
  | String c rest =>
      if Ascii.eqb c "010" then String c EmptyString :: getlines rest
      else match getlines rest with
           | [] => [String c EmptyString]
           | l :: ls => String c l :: ls
           end
  end.

(** receive_commands on the text the peer sends before it closes. *)
Definition run_commands (lines : list string) (p : Process) : Process :=
  fold_left (fun q line => command line q) lines p.

Definition receive_commands (text : string) (p : Process) : Process :=
  run_commands (getlines text) p.

(** ** The Android receiver *)

(** A Java [byte[]]: its length and its cells. *)
Record jbytes := mkBytes {
  jlength : Z;
  jget : Z -> byte
}.

Definition new_bytes (n : Z) : jbytes := mkBytes n (fun _ => x00).

(** Store [src] into the array from cell [off] on. *)
Definition store (src : list byte) (off : Z) (a : jbytes) : jbytes :=
  mkBytes (jlength a)
    (fun i => if (off <=? i) && (i <? off + Z.of_nat (List.length src))
              then nth (Z.to_nat (i - off)) src x00
              else jget a i).

(** The cells [off], ..., [off + len - 1] *)
Definition cells (a : jbytes) (off len : Z) : list byte :=
  map (fun k => jget a (off + Z.of_nat k)) (seq 0 (Z.to_nat len)).

Inductive StreamEnd :=
| EndOfStream      (* the peer closed: read gives -1 *)
| IOFailure.       (* time-out or reset: read throws IOException *)

(** The input stream of the socket: the pieces in which the bytes arrive,
    what follows them, and the two points on which implementations of
    [InputStream.read (b, off, len)] differ from one another. *)
Record InputStream := mkStream {
  chunks : list (list byte);
  ending : StreamEnd;
  eof_seen : bool;            (* a read has already given -1 *)
  eof_before_bounds : bool;   (* once at the end, -1 is given before the
                                 bounds are checked (OpenJDK's
                                 SocketInputStream); otherwise the bounds
                                 come first (java.io.InputStream, Android's
                                 PlainSocketImpl) *)
  asked : list Z              (* the lengths asked for so far, oldest first *)
}.

Inductive Throwable :=
| IOException
| IndexOutOfBoundsException
| BufferOverflowException
| Exception (message : string).

Inductive Completion (A : Type) :=
| Returns (a : A)
| Throws (e : Throwable)
| Spins.                      (* the loop has not ended within the fuel *)
Arguments Returns {A} a.
Arguments Throws {A} e.
Arguments Spins {A}.

Definition note_request (len : Z) (s : InputStream) : InputStream :=
  mkStream (chunks s) (ending s) (eof_seen s) (eof_before_bounds s)
           (asked s ++ [len]).

(** [inputStream.read (buffer, off, len)] *)
Definition read (buffer : jbytes) (off len : Z) (s0 : InputStream)
  : Completion Z * jbytes * InputStream :=
  let s := note_request len s0 in
  if eof_before_bounds s && eof_seen s then (Returns (-1), buffer, s)
  else if (len <=? 0) || (off <? 0) || (len >? jlength buffer - off) then
    if len =? 0 then (Returns 0, buffer, s)
    else (Throws IndexOutOfBoundsException, buffer, s)
  else
    match chunks s with
    | c :: rest =>
        let k := Nat.min (Z.to_nat len) (List.length c) in
        let left := skipn k c in
        (Returns (Z.of_nat k), store (firstn k c) off buffer,
         mkStream (match left with [] => rest | _ => left :: rest end)
                  (ending s) (eof_seen s) (eof_before_bounds s) (asked s))
    | [] =>
        match ending s with
        | EndOfStream =>
            (Returns (-1), buffer,
             mkStream [] (ending s) true (eof_before_bounds s) (asked s))
        | IOFailure => (Throws IOException, buffer, s)
        end
    end.

Module DecoderThread.

Definition TCPIP_BUFFER_SIZE : Z := 2000000.

(** byteArrayToInt: Java promotes each byte, sign-extended, to [int]. *)
Definition jbyte (b : byte) : Z := CInt.int8 (u8 b).

Definition byteArrayToInt (b : jbytes) : Z :=
  CInt.int32
    (Z.lor (Z.lor (Z.lor (Z.land (jbyte (jget b 0)) 255)
                         (Z.shiftl (Z.land (jbyte (jget b 1)) 255) 8))
                  (Z.shiftl (Z.land (jbyte (jget b 2)) 255) 16))
           (Z.shiftl (Z.land (jbyte (jget b 3)) 255) 24)).

(** The loop of read_exact: [while (iToRead > 0)], every exception caught
    and answered with [false]. *)
Fixpoint read_exact_loop (fuel : nat) (buffer : jbytes) (iToRead offset : Z)
  (s : InputStream) : Completion bool * jbytes * InputStream :=
  match fuel with
  | O => (Spins, buffer, s)
  | S fuel' =>
      if iToRead >? 0 then
        match read buffer offset iToRead s with
        | (Returns r, buffer', s') =>
            if r <? 1 then (Returns false, buffer', s')
            else read_exact_loop fuel' buffer'
                   (CInt.int32 (iToRead - r)) (CInt.int32 (offset + r)) s'
        | (_, buffer', s') => (Returns false, buffer', s')
        end
      else (Returns true, buffer, s)
  end.

(** read_exact.  Every turn of the loop takes at least one byte, so
    [cnt] turns and the closing test are all it can make. *)
Definition read_exact (buffer : jbytes) (cnt : Z) (inputStream : option InputStream)
  : Completion bool * jbytes * option InputStream :=
  match inputStream with
  | None => (Returns false, buffer, None)
  | Some s =>
      let '(r, buffer', s') :=
        read_exact_loop (S (Z.to_nat cnt)) buffer cnt 0 s in
      (r, buffer', Some s')
  end.

(** The flags of queueInputBuffer *)
Inductive QueueFlag := BUFFER_FLAG_CODEC_CONFIG | NO_FLAG.

Record Queued := mkQueued {
  unit_bytes : list byte;
  presentationTimeUs : Z;
  unit_flag : QueueFlag
}.

(** The thread's state.  The MediaCodec is the platform's: of it the model
    keeps the answers to dequeueInputBuffer, the capacity of its input
    buffers and the units queued into it. *)
Record Decoder := mkDecoder {
  inputStream : option InputStream;
  buffer : jbytes;
  input_ids : list Z;        (* answers of dequeueInputBuffer; 0 when exhausted *)
  input_capacity : Z;
  queued : list Queued;      (* oldest first *)
  presentationTime : Z;
  g_iFrames_cnt : Z;
  message : option string    (* the last text given to setMessage *)
}.

(** How a part of [run] ends. *)
Inductive Step :=
| Goes (d : Decoder)                      (* on to the next statement *)
| ReturnsEarly (d : Decoder)              (* [return] *)
| Caught (e : Throwable) (d : Decoder).   (* thrown, caught at the end of run *)

Definition with_io (b : jbytes) (s : option InputStream) (d : Decoder) : Decoder :=
  mkDecoder s b (input_ids d) (input_capacity d) (queued d)
            (presentationTime d) (g_iFrames_cnt d) (message d).

Definition dequeueInputBuffer (d : Decoder) : Z * Decoder :=
  match input_ids d with
  | [] => (0, d)
  | i :: rest =>
      (i, mkDecoder (inputStream d) (buffer d) rest (input_capacity d)
            (queued d) (presentationTime d) (g_iFrames_cnt d) (message d))
  end.

Definition setMessage (m : string) (d : Decoder) : Decoder :=
  mkDecoder (inputStream d) (buffer d) (input_ids d) (input_capacity d)
            (queued d) (presentationTime d) (g_iFrames_cnt d) (Some m).

(** [inputBuffer.put (buffer, 0, len)] followed by queueInputBuffer and
    [presentationTime += 666666].  ByteBuffer.put checks its bounds and
    the room left before it copies. *)
Definition put_and_queue (len : Z) (flag : QueueFlag) (d : Decoder) : Step :=
  if (len <? 0) || (len >? jlength (buffer d)) then
    Caught IndexOutOfBoundsException d
  else if len >? input_capacity d then Caught BufferOverflowException d
  else
    Goes (mkDecoder (inputStream d) (buffer d) (input_ids d) (input_capacity d)
            (queued d ++ [mkQueued (cells (buffer d) 0 len) (presentationTime d) flag])
            (CInt.to_signed 64 (presentationTime d + 666666))
            (g_iFrames_cnt d) (message d)).

(** One turn of the loop that reads SPS and PPS. *)
Definition read_config (d : Decoder) : Step :=
  match read_exact (buffer d) 4 (inputStream d) with
  | (Returns true, b1, s1) =>
      let d1 := with_io b1 s1 d in
      let sps_or_pps_len := byteArrayToInt (buffer d1) in
      match read_exact (buffer d1) sps_or_pps_len (inputStream d1) with
      | (Returns true, b2, s2) =>
          let d2 := with_io b2 s2 d1 in
          let '(inputBufferId, d3) := dequeueInputBuffer d2 in
          if inputBufferId >=? 0 then
            put_and_queue sps_or_pps_len BUFFER_FLAG_CODEC_CONFIG d3
          else ReturnsEarly (setMessage "codec.dequeueInputBuffer" d3)
      | (_, b2, s2) => Caught (Exception "read_exact") (with_io b2 s2 d1)
      end
  | (_, b1, s1) => Caught (Exception "read_exact") (with_io b1 s1 d)
  end.

Definition count_frame (d : Decoder) : Decoder :=
  mkDecoder (inputStream d) (buffer d) (input_ids d) (input_capacity d)
            (queued d) (presentationTime d)
            (CInt.int32 (g_iFrames_cnt d + 1)) (message d).

(** One turn of the loop that reads the frames. *)
Definition read_frame (d : Decoder) : Step :=
  match read_exact (buffer d) 4 (inputStream d) with
  | (Returns true, b1, s1) =>
      let d1 := with_io b1 s1 d in
      let iFrameLen := byteArrayToInt (buffer d1) in
      if iFrameLen >? TCPIP_BUFFER_SIZE then
        ReturnsEarly (setMessage "iFrameLen" d1)
      else
        let '(inputBufferId, d2) := dequeueInputBuffer d1 in
        if inputBufferId >=? 0 then
          match read_exact (buffer d2) iFrameLen (inputStream d2) with
          | (Returns true, b3, s3) =>
              match put_and_queue iFrameLen NO_FLAG (with_io b3 s3 d2) with
              | Goes d4 => Goes (count_frame d4)
              | other => other
              end
          | (_, b3, s3) => Caught (Exception "read_exact") (with_io b3 s3 d2)
          end
        else ReturnsEarly (setMessage "codec.dequeueInputBuffer" d2)
  | (_, b1, s1) => Caught (Exception "read_exact") (with_io b1 s1 d)
  end.

(** [while (!Thread.interrupted())]: [turns] is the number of turns made
    before the thread is interrupted. *)
Fixpoint read_frames (turns : nat) (d : Decoder) : Step :=
  match turns with
  | O => Goes d
  | S turns' =>
      match read_frame d with
      | Goes d' => read_frames turns' d'
      | other => other
      end
  end.

(** run, from the connected socket on: the buffer is allocated, SPS and PPS
    are read, then the frames. *)
Definition run (turns : nat) (d0 : Decoder) : Step :=
  let d := with_io (new_bytes TCPIP_BUFFER_SIZE) (inputStream d0) d0 in
  match read_config d with
  | Goes d1 =>
      match read_config d1 with
      | Goes d2 => read_frames turns (setMessage EmptyString d2)
      | other => other
      end
  | other => other
  end.

End DecoderThread.

Module TcpIpReader.

(** read_exact of TcpIpReader: the result of [read] is not looked at, and
    only IOException is caught. *)
Fixpoint read_exact_loop (fuel : nat) (buffer : jbytes) (iToRead offset : Z)
  (s : InputStream) : Completion bool * jbytes * InputStream :=
  match fuel with
  | O => (Spins, buffer, s)
  | S fuel' =>
      if iToRead >? 0 then
        match read buffer offset iToRead s with
        | (Returns r, buffer', s') =>
            read_exact_loop fuel' buffer'
              (CInt.int32 (iToRead - r)) (CInt.int32 (offset + r)) s'
        | (Throws IOException, buffer', s') => (Returns false, buffer', s')
        | (Throws e, buffer', s') => (Throws e, buffer', s')
        | (Spins, buffer', s') => (Spins, buffer', s')
        end
      else (Returns true, buffer, s)
  end.

Definition read_exact (fuel : nat) (buffer : jbytes) (cnt : Z)
  (inputStream : option InputStream)
  : Completion bool * jbytes * option InputStream :=
  match inputStream with
  | None => (Returns false, buffer, None)
  | Some s =>
      let '(r, buffer', s') := read_exact_loop fuel buffer cnt 0 s in
      (r, buffer', Some s')
  end.

(** read: [inputStream.read (buffer)], 0 without a stream or on IOException *)
Definition read_some (buffer : jbytes) (inputStream : option InputStream)
  : Completion Z * jbytes * option InputStream :=
  match inputStream with
  | None => (Returns 0, buffer, None)
  | Some s =>
      match read buffer 0 (jlength buffer) s with
      | (Throws IOException, b, s') => (Returns 0, b, Some s')
      | (r, b, s') => (r, b, Some s')
      end
  end.

End TcpIpReader.

(** ** The Raspberry Pi receiver (video.c) *)

Module RpiClient.

Inductive RecvEnd :=
| PeerClosed     (* recv gives 0 *)
| RecvError.     (* recv gives -1: time-out or reset *)

(** The socket and what has been handed to the decoder: for every buffer
    emptied, its nFilledLen and the bytes recv put into it. *)
Record Client := mkClient {
  incoming : list (list byte);
  closing : RecvEnd;
  emptied : list (Z * list byte)
}.

(** [recv (sockfd, pBuffer, nAllocLen, 0)] *)
Definition recv (nAllocLen : Z) (c : Client) : Z * list byte * Client :=
  match incoming c with
  | piece :: rest =>
      let k := Nat.min (Z.to_nat nAllocLen) (List.length piece) in
      (Z.of_nat k, firstn k piece,
       mkClient (match skipn k piece with
                 | [] => rest
                 | _ :: _ => skipn k piece :: rest
                 end)
                (closing c) (emptied c))
  | [] =>
      match closing c with
      | PeerClosed => (0, [], c)
      | RecvError => (-1, [], c)
      end
  end.

Inductive Result :=
| Goes (c : Client)
| Exits (code : Z) (c : Client).

(** read_into_buffer_and_empty.  nFilledLen is an OMX_U32 of the OpenMAX
    header OMX_Core.h, an unsigned 32-bit number, and takes the value of
    recv converted to that type. *)
Definition read_into_buffer_and_empty (nAllocLen : Z) (c : Client) : Result :=
  let '(r, bytes, c1) := recv nAllocLen c in
  let nFilledLen := CInt.uint32 r in
  if nFilledLen <=? 0 then Exits 1 c1
  else Goes (mkClient (incoming c1) (closing c1)
               (emptied c1 ++ [(nFilledLen, bytes)])).

(** The main loop, [while (1)], for [turns] turns; every input buffer of
    the decoder has room for [nAllocLen] bytes. *)
Fixpoint main_loop (turns : nat) (nAllocLen : Z) (c : Client) : Result :=
  match turns with
  | O => Goes c
  | S turns' =>
      match read_into_buffer_and_empty nAllocLen c with
      | Goes c' => main_loop turns' nAllocLen c'
      | Exits code c' => Exits code c'
      end
  end.

End RpiClient.

(** ** Recording to a file *)

Module Recorder.

(** The state encoder_buffer_callback works on: the process, the file,
    the fields of PORT_USERDATA it uses and its static variables.
    [buf_prev] holds the first [buf_len] bytes of the array of 256000
    bytes of that name; fwrite is taken to write all it is given, its
    result is not looked at by the callback. *)
Record State := mkState {
  pstate : Process;
  file_handle : list byte;
  bHeaderSaved : bool;
  lastFrameMotion : Z;      (* unsigned char *)
  lastFrameKeyFr : Z;       (* unsigned char *)
  buf_prev : list byte;
  i64FramesSkip : Z
}.

Definition buf_len (s : State) : Z := Z.of_nat (List.length (buf_prev s)).

Definition fwrite (bytes : list byte) (s : State) : State :=
  mkState (pstate s) (file_handle s ++ bytes) (bHeaderSaved s)
    (lastFrameMotion s) (lastFrameKeyFr s) (buf_prev s) (i64FramesSkip s).
Definition set_saved (v : bool) (s : State) : State :=
  mkState (pstate s) (file_handle s) v
    (lastFrameMotion s) (lastFrameKeyFr s) (buf_prev s) (i64FramesSkip s).
Definition set_motion (v : Z) (s : State) : State :=
  mkState (pstate s) (file_handle s) (bHeaderSaved s)
    v (lastFrameKeyFr s) (buf_prev s) (i64FramesSkip s).
Definition set_key (v : Z) (s : State) : State :=
  mkState (pstate s) (file_handle s) (bHeaderSaved s)
    (lastFrameMotion s) v (buf_prev s) (i64FramesSkip s).
Definition set_buf (v : list byte) (s : State) : State :=
  mkState (pstate s) (file_handle s) (bHeaderSaved s)
    (lastFrameMotion s) (lastFrameKeyFr s) v (i64FramesSkip s).
Definition set_skip (v : Z) (s : State) : State :=
  mkState (pstate s) (file_handle s) (bHeaderSaved s)
    (lastFrameMotion s) (lastFrameKeyFr s) (buf_prev s) v.
Definition set_pstate (v : Process) (s : State) : State :=
  mkState v (file_handle s) (bHeaderSaved s)
    (lastFrameMotion s) (lastFrameKeyFr s) (buf_prev s) (i64FramesSkip s).

(** The callback returns, ends the process through [exit], or leaves the
    memory it may use: memcpy past the end of [buf_prev], or DetectMotion
    past the end of the buffer. *)
Inductive Result :=
| Goes (s : State)
| Exits (code : Z) (s : State)
| OutOfBounds (s : State).

Section Callback.
Context {F : BufferFlags}.
(** MMAL_BUFFER_HEADER_FLAG_KEYFRAME of mmal_buffer.h *)
Variable MMAL_BUFFER_HEADER_FLAG_KEYFRAME : Z.

Definition frame_end (s : State) : State :=
  match handle_frame_end (pstate s) with
  | Running p' => set_pstate p' s
  | Exited _ p' => set_pstate p' s
  end.

(** The branch for H264 data. *)
Definition h264_data (buffer : MMAL_BUFFER_HEADER_T) (s : State) : Result :=
  let s :=
    if (lastFrameMotion s =? 0)
       && has_flag buffer MMAL_BUFFER_HEADER_FLAG_FRAME_END
    then set_buf [] s else s in
  let s :=
    set_key (CInt.uint8 (Z.land (flags buffer) MMAL_BUFFER_HEADER_FLAG_KEYFRAME))
      s in
  let s :=
    if negb (lastFrameMotion s =? 0) && negb (buf_len s =? 0)
    then set_buf [] (fwrite (buf_prev s) s)
    else set_skip (i64FramesSkip s + 1) s in
  let stored :=
    if has_flag buffer MMAL_BUFFER_HEADER_FLAG_KEYFRAME then
      Goes (set_buf [] (fwrite (data buffer) s))
    else if buf_len s >=? 256000 then Exits 123 s
    else if buf_len s + buffer_length buffer >? 256000 then OutOfBounds s
    else Goes (set_buf (buf_prev s ++ data buffer) s) in
  match stored with
  | Goes s' =>
      if has_flag buffer MMAL_BUFFER_HEADER_FLAG_FRAME_END
      then Goes (frame_end s') else Goes s'
  | Exits code s' => Exits code s'
  | OutOfBounds s' => OutOfBounds s'
  end.

Definition encoder_buffer_callback (buffer : MMAL_BUFFER_HEADER_T) (s : State)
  : Result :=
  if buffer_length buffer =? 0 then Goes s
  else
    let s :=
      if has_flag buffer MMAL_BUFFER_HEADER_FLAG_CONFIG && negb (bHeaderSaved s)
      then
        let s := if has_flag buffer MMAL_BUFFER_HEADER_FLAG_FRAME_END
                 then set_saved true s else s in
        fwrite (data buffer) s
      else s in
    if has_flag buffer MMAL_BUFFER_HEADER_FLAG_CONFIG then Goes s
    else if has_flag buffer MMAL_BUFFER_HEADER_FLAG_CODECSIDEINFO then
      if lastFrameKeyFr s =? 0 then
        match DetectMotion (data buffer) (mbx (pstate s)) (mby (pstate s)) with
        | Some motion => Goes (set_motion motion s)
        | None => OutOfBounds s
        end
      else Goes (set_motion 0 s)
    else h264_data buffer s.

(** The callback, once per buffer and in order. *)
Fixpoint record (buffers : list MMAL_BUFFER_HEADER_T) (s : State) : Result :=
  match buffers with
  | [] => Goes s
  | b :: rest =>
      match encoder_buffer_callback b s with
      | Goes s' => record rest s'
      | other => other
      end
  end.

End Callback.

End Recorder.

(** ** The control channel, Android side *)

Module Viewer.

(** The socket of the decoder thread as the command methods see it: whether
    it is connected, and the text its PrintWriter has been given. *)
Record Link := mkLink {
  isConnected : bool;      (* socket != null && socket.isConnected() *)
  sockPrintWriter : string
}.

(** [String.format ("%d", i)]: the decimal text of an int, in a locale
    that writes numbers with the ASCII digits. *)
Definition format_d (i : Z) : string := NilZero.string_of_int (Z.to_int i).

(** [sockPrintWriter.println (s)]; the line separator of Android is the
    newline character. *)
Definition println (s : string) (l : Link) : Link :=
  mkLink (isConnected l) (sockPrintWriter l ++ s ++ String "010" EmptyString).

Definition SetISO (iISO : Z) (l : Link) : Link :=
  if isConnected l then println ("iso=" ++ format_d iISO) l else l.

Definition SetSS (iSS : Z) (l : Link) : Link :=
  if isConnected l then println ("ss=" ++ format_d iSS) l else l.

Definition ZoomIN (l : Link) : Link :=
  if isConnected l then println "move=i" l else l.

Definition ZoomOUT (l : Link) : Link :=
  if isConnected l then println "move=o" l else l.

Definition SetMotion (i : Z) (l : Link) : Link :=
  if isConnected l then println ("motion=" ++ format_d i) l else l.

(** [ch] is a character of the ASCII range, which the writer sends as one
    byte. *)
Definition Move (ch : ascii) (l : Link) : Link :=
  if isConnected l then println ("move=" ++ String ch EmptyString) l else l.

End Viewer.

(** ** Notions used in the statements *)

(** The flag bits as mmal_buffer.h of the Raspberry Pi userland gives
    them, for running the model on concrete buffers: FRAME_END is bit 2,
    KEYFRAME bit 3, CONFIG bit 5 and CODECSIDEINFO bit 7. *)
Definition mmal_flags : BufferFlags := mkFlags 4 32 128.
Definition KEYFRAME_bit : Z := 8.

(** The process as main leaves it when the first buffer arrives: nothing
    sent, no partial frame, the whole sensor in view. *)
Definition start (width height : Z) : Process :=
  mkProcess [] [] None 0 0 0 0
    (fst (macroblocks width height)) (snd (macroblocks width height))
    0 [] (mkRect 0 0 65536 65536).


(** The socket takes every coming send whole. *)
Definition healthy (p : Process) : Prop :=
  Forall (fun r => r = SendAll) (sock p).

(** The process after a send that was taken whole. *)
Definition sent (buf : list byte) (p : Process) : Process :=
  set_sock (tl (sock p)) (set_wire (wire p ++ buf) p).

(** raw_tcp: what one buffer adds to the wire. *)
Definition raw_payload {F : BufferFlags} (b : MMAL_BUFFER_HEADER_T) : list byte :=
  if has_flag b MMAL_BUFFER_HEADER_FLAG_CODECSIDEINFO then [] else data b.

(** The stream will deliver the bytes [bs], in pieces of any positive
    size, before it ends. *)
Definition arrives (s : InputStream) (bs : list byte) : Prop :=
  concat (chunks s) = bs
  /\ Forall (fun c => c <> []) (chunks s)
  /\ eof_seen s = false.


(** The decimal text of an integer, as the peer prints it with "%d". *)
Definition decimal (n : Z) : string := NilZero.string_of_int (Z.to_int n).

Definition newline : string := String "010" EmptyString.

(** The value of a row of decimal digits read after [acc]. *)
Fixpoint uint_value (d : Decimal.uint) (acc : Z) : Z :=
  match d with
  | Decimal.Nil => acc
  | Decimal.D0 l => uint_value l (10 * acc + 0)
  | Decimal.D1 l => uint_value l (10 * acc + 1)
  | Decimal.D2 l => uint_value l (10 * acc + 2)
  | Decimal.D3 l => uint_value l (10 * acc + 3)
  | Decimal.D4 l => uint_value l (10 * acc + 4)
  | Decimal.D5 l => uint_value l (10 * acc + 5)
  | Decimal.D6 l => uint_value l (10 * acc + 6)
  | Decimal.D7 l => uint_value l (10 * acc + 7)
  | Decimal.D8 l => uint_value l (10 * acc + 8)
  | Decimal.D9 l => uint_value l (10 * acc + 9)
  end.


(** A frame as the android profile puts it on the wire. *)
Definition encode_frame (payload : list byte) : list byte :=
  uint32_bytes (Z.of_nat (List.length payload)) ++ payload.

(** The process a callback leaves behind, running or not. *)
Definition final (o : Outcome) : Process :=
  match o with
  | Running p => p
  | Exited _ p => p
  end.

(** The android_motion callback, once per buffer and in order. *)
Fixpoint feed_motion {F : BufferFlags} (buffers : list MMAL_BUFFER_HEADER_T)
  (p : Process) : Callback :=
  match buffers with
  | [] => Done (Running p)
  | b :: rest =>
      match encoder_buffer_callback_android_motion b p with
      | Done (Running p') => feed_motion rest p'
      | other => other
      end
  end.

(** Units with the presentation times the decoder thread gives them. *)
Fixpoint stamped (pts : Z) (flag : DecoderThread.QueueFlag)
  (payloads : list (list byte)) : list DecoderThread.Queued :=
  match payloads with
  | [] => []
  | f :: rest =>
      DecoderThread.mkQueued f pts flag :: stamped (pts + 666666) flag rest
  end.

(** The codec has an input buffer free at every call, with room for [n]
    bytes. *)
Definition codec_ready (d : DecoderThread.Decoder) (n : Z) : Prop :=
  Forall (fun i => 0 <= i) (DecoderThread.input_ids d)
  /\ n <= DecoderThread.input_capacity d.

(** Every unit has between 1 and [n] bytes. *)
Definition sized (n : Z) (payloads : list (list byte)) : Prop :=
  Forall (fun f => (0 < List.length f)%nat /\ Z.of_nat (List.length f) <= n)
         payloads.

(** The crop rectangle lies on the sensor. *)
Definition on_sensor (r : MMAL_RECT_T) : Prop :=
  0 <= rect_x r /\ 0 <= rect_y r
  /\ 0 <= rect_width r /\ 0 <= rect_height r
  /\ rect_x r + rect_width r <= 65536
  /\ rect_y r + rect_height r <= 65536.

(** While the motion alarm is armed the encoder delivers motion vectors. *)
Definition alarm_has_vectors (p : Process) : Prop :=
  gMotionAlarm p <> 0 -> inline_vectors p = 1.

(** A decoder thread just connected to a stream, with a codec whose input
    buffers hold [capacity] bytes. *)
Definition connected (s : InputStream) (capacity : Z) : DecoderThread.Decoder :=
  DecoderThread.mkDecoder (Some s) (new_bytes 0) [] capacity [] 0 0 None.

(** A stream that delivers the given pieces and then ends. *)
Definition stream_of (pieces : list (list byte)) : InputStream :=
  mkStream pieces EndOfStream false false [].

Fixpoint no_newline (s : string) : bool :=
  match s with
  | EmptyString => true
  | String c rest => negb (Ascii.eqb c "010") && no_newline rest
  end.

(** The lines put one after the other. *)
Definition join (lines : list string) : string :=
  fold_right append EmptyString lines.

(** A buffer at which the frame counter goes up when nothing is to be
    put together: not empty, no side information, and the end of a frame. *)
Definition ends_frame {F : BufferFlags} (b : MMAL_BUFFER_HEADER_T) : bool :=
  negb (buffer_length b =? 0)
  && negb (has_flag b MMAL_BUFFER_HEADER_FLAG_CODECSIDEINFO)
  && has_flag b MMAL_BUFFER_HEADER_FLAG_FRAME_END.

(** The number of buffers that satisfy [f]. *)
Definition count {A : Type} (f : A -> bool) (l : list A) : Z :=
  Z.of_nat (List.length (filter f l)).

(** A call of one of the command methods of the viewer. *)
Inductive ViewerCall :=
| CallSetISO (iISO : Z)
| CallSetSS (iSS : Z)
| CallZoomIN
| CallZoomOUT
| CallSetMotion (i : Z)
| CallMove (ch : ascii).

Definition perform (c : ViewerCall) : Viewer.Link -> Viewer.Link :=
  match c with
  | CallSetISO i => Viewer.SetISO i
  | CallSetSS i => Viewer.SetSS i
  | CallZoomIN => Viewer.ZoomIN
  | CallZoomOUT => Viewer.ZoomOUT
  | CallSetMotion i => Viewer.SetMotion i
  | CallMove ch => Viewer.Move ch
  end.

(** The argument of the call is a Java int. *)
Definition java_int (c : ViewerCall) : Prop :=
  match c with
  | CallSetISO i | CallSetSS i | CallSetMotion i =>
      CInt.INT_MIN <= i <= CInt.INT_MAX
  | _ => True
  end.

(** What the call is meant to do on the Raspberry Pi. *)
Definition effect (c : ViewerCall) (p : Process) : Process :=
  match c with
  | CallSetISO i => call_camera (set_ISO i) p
  | CallSetSS i => call_camera (set_shutter_speed i) p
  | CallZoomIN => my_raspicamcontrol_zoom_in_zoom_out "i" p
  | CallZoomOUT => my_raspicamcontrol_zoom_in_zoom_out "o" p
  | CallSetMotion i =>
      if gMotionAlarm p =? 0 then SwitchMotionVectorsOnFly i p else p
  | CallMove ch => my_raspicamcontrol_zoom_in_zoom_out ch p
  end.

(** A buffer of H264 data that is no key frame and no configuration:
    some bytes, at most as many as buf_prev holds. *)
Definition plain_data {F : BufferFlags} (KEYFRAME : Z)
  (b : MMAL_BUFFER_HEADER_T) : Prop :=
  data b <> []
  /\ buffer_length b <= 256000
  /\ has_flag b MMAL_BUFFER_HEADER_FLAG_CONFIG = false
  /\ has_flag b MMAL_BUFFER_HEADER_FLAG_CODECSIDEINFO = false
  /\ has_flag b KEYFRAME = false.
(** * Properties *)

(** ** Bytes and machine integers *)

Lemma u8_range (b : byte) : 0 <= u8 b < 256.
Proof.
  unfold u8. pose proof (Byte.to_N_bounded b). lia.
Qed.

Lemma u8_byte_of_Z (z : Z) : u8 (byte_of_Z z) = z mod 256.
Proof.
  unfold byte_of_Z, u8.
  assert (Hr : 0 <= z mod 256 < 256) by (apply Z.mod_pos_bound; lia).
  destruct (Byte.of_N (Z.to_N (z mod 256))) as [b|] eqn:E.
  - apply Byte.to_of_N in E. rewrite E. rewrite Z2N.id; lia.
  - apply Byte.of_N_None_iff in E. lia.
Qed.

Lemma byte_of_Z_u8 (b : byte) : byte_of_Z (u8 b) = b.
Proof.
  unfold byte_of_Z. rewrite Z.mod_small by apply u8_range.
  unfold u8. rewrite N2Z.id, Byte.of_to_N. reflexivity.
Qed.

Lemma uint32_bytes_wrap (n : Z) :
  uint32_bytes (CInt.uint32 n) = uint32_bytes n.
Proof.
  unfold uint32_bytes, CInt.uint32, CInt.to_unsigned.
  assert (H : forall k, 0 <= k <= 24 ->
            byte_of_Z (Z.shiftr (n mod 2 ^ 32) k) = byte_of_Z (Z.shiftr n k)).
  { intros k Hk. unfold byte_of_Z.
    replace (Z.shiftr (n mod 2 ^ 32) k mod 256) with (Z.shiftr n k mod 256);
      [reflexivity|].
    change 256 with (2 ^ 8).
    apply Z.bits_inj'. intros i Hi.
    destruct (Z_lt_ge_dec i 8) as [Hlt|Hge].
    - rewrite !Z.mod_pow2_bits_low by lia.
      rewrite !Z.shiftr_spec by lia.
      rewrite Z.mod_pow2_bits_low by lia. reflexivity.
    - rewrite !Z.mod_pow2_bits_high by lia. reflexivity. }
  rewrite <- (Z.shiftr_0_r (n mod 2 ^ 32)), <- (Z.shiftr_0_r n) at 1.
  rewrite !H by lia. rewrite Z.shiftr_0_r. reflexivity.
Qed.

(** ** Sending *)

Lemma uint32_eqb_refl (n : Z) : (CInt.uint32 n =? CInt.uint32 n) = true.
Proof. apply Z.eqb_refl. Qed.

Lemma send_or_exit_healthy (line : Z) (buf : list byte) (p : Process) :
  healthy p -> send_or_exit line buf p = Running (sent buf p).
Proof.
  unfold healthy, send_or_exit, send, sent. intros H.
  destruct p as [w s pb c g r i x y v cam cr]; simpl in *.
  destruct s as [|a s'].
  - simpl. rewrite Z.eqb_refl. reflexivity.
  - inversion H; subst. simpl. rewrite Z.eqb_refl. reflexivity.
Qed.

Lemma sent_healthy (buf : list byte) (p : Process) :
  healthy p -> healthy (sent buf p).
Proof.
  unfold healthy, sent. destruct p as [w s pb c g r i x y v cam cr]; simpl.
  intros H. destruct s; simpl; [constructor | inversion H; assumption].
Qed.

Lemma SendToAndroid_healthy (buf : list byte) (p : Process) :
  healthy p -> SendToAndroid buf p = Running (sent buf p).
Proof. apply send_or_exit_healthy. Qed.

Create HintDb sender.
#[local] Hint Resolve sent_healthy : sender.

Lemma handle_frame_end_runs (p : Process) :
  exists p', handle_frame_end p = Running p'
    /\ wire p' = wire p /\ sock p' = sock p
    /\ p_buf_partial_begin p' = p_buf_partial_begin p
    /\ i64FramesCnt p' = i64FramesCnt p + 1
    /\ gMotionAlarm p' = gMotionAlarm p
    /\ b1_config_sent p' = b1_config_sent p.
Proof.
  unfold handle_frame_end.
  destruct p as [w s pb c g r i x y v cam cr]; simpl.
  destruct (r =? 0); eexists; split; try reflexivity; simpl; auto 10.
Qed.

Ltac send_step :=
  match goal with
  | |- context [SendToAndroid ?b ?p] =>
      rewrite (SendToAndroid_healthy b p) by auto with sender
  | |- context [send_or_exit ?l ?b ?p] =>
      rewrite (send_or_exit_healthy l b p) by auto with sender
  end.

Lemma wire_sent (buf : list byte) (p : Process) :
  wire (sent buf p) = wire p ++ buf.
Proof. reflexivity. Qed.

Lemma partial_sent (buf : list byte) (p : Process) :
  p_buf_partial_begin (sent buf p) = p_buf_partial_begin p.
Proof. reflexivity. Qed.

Lemma buffer_length_zero (b : MMAL_BUFFER_HEADER_T) :
  (buffer_length b =? 0) = true <-> data b = [].
Proof.
  unfold buffer_length. rewrite Z.eqb_eq. destruct (data b); simpl.
  - tauto.
  - split; [lia | discriminate].
Qed.

Lemma buffer_length_nonzero (b : MMAL_BUFFER_HEADER_T) :
  data b <> [] -> (buffer_length b =? 0) = false.
Proof.
  intros H. destruct (buffer_length b =? 0) eqn:E; [|reflexivity].
  apply buffer_length_zero in E. contradiction.
Qed.


Lemma has_flag_nonzero (b : MMAL_BUFFER_HEADER_T) (flag : Z) :
  has_flag b flag = true -> (flags b =? 0) = false.
Proof.
  unfold has_flag. intros H. destruct (flags b =? 0) eqn:E; [|reflexivity].
  apply Z.eqb_eq in E. rewrite E in H. simpl in H. discriminate.
Qed.

Section SenderProperties.
Context {F : BufferFlags}.

Lemma android_dimon_same :
  encoder_buffer_callback_android_dimon = encoder_buffer_callback_android.
Proof. reflexivity. Qed.

(** A buffer that is the whole frame: length and payload go out. *)
Lemma android_whole_frame (b : MMAL_BUFFER_HEADER_T) (p : Process) :
  healthy p -> p_buf_partial_begin p = None -> data b <> [] ->
  has_flag b MMAL_BUFFER_HEADER_FLAG_CONFIG = false ->
  has_flag b MMAL_BUFFER_HEADER_FLAG_CODECSIDEINFO = false ->
  has_flag b MMAL_BUFFER_HEADER_FLAG_FRAME_END = true ->
  exists p', encoder_buffer_callback_android b p = Running p'
    /\ wire p' = wire p ++ uint32_bytes (buffer_length b) ++ data b
    /\ p_buf_partial_begin p' = None
    /\ i64FramesCnt p' = i64FramesCnt p + 1
    /\ healthy p'.
Proof.
  intros Hh Hp Hd Hc Hs He.
  unfold encoder_buffer_callback_android.
  rewrite (buffer_length_nonzero b Hd), Hc, Hs, (has_flag_nonzero b _ He), He, Hp.
  unfold and_then. repeat send_step.
  destruct (handle_frame_end_runs
              (sent (data b) (sent (uint32_bytes (buffer_length b)) p)))
    as (p' & E & Hw & Hk & Hpb & Hi & _).
  exists p'. rewrite E. split; [reflexivity|].
  rewrite Hw, Hpb, Hi. rewrite !wire_sent, !partial_sent, <- app_assoc.
  repeat split; auto.
  unfold healthy. rewrite Hk. apply sent_healthy, sent_healthy, Hh.
Qed.





Lemma raw_tcp_one (b : MMAL_BUFFER_HEADER_T) (p : Process) :
  healthy p ->
  exists p', encoder_buffer_callback_raw_tcp b p = Running p'
    /\ wire p' = wire p ++ raw_payload b /\ healthy p'.
Proof.
  intros Hh. unfold encoder_buffer_callback_raw_tcp, raw_payload.
  destruct (buffer_length b =? 0) eqn:E0.
  - apply buffer_length_zero in E0. exists p. rewrite E0.
    destruct (has_flag b _); rewrite app_nil_r; auto.
  - destruct (has_flag b MMAL_BUFFER_HEADER_FLAG_CODECSIDEINFO).
    + exists p. rewrite app_nil_r. auto.
    + unfold and_then. send_step.
      destruct (has_flag b MMAL_BUFFER_HEADER_FLAG_FRAME_END).
      * destruct (handle_frame_end_runs (sent (data b) p))
          as (p' & E & Hw & Hk & _).
        exists p'. rewrite E, Hw. repeat split; auto.
        unfold healthy. rewrite Hk. apply sent_healthy, Hh.
      * exists (sent (data b) p). unfold skip. auto with sender.
Qed.

(** C6 (as amended).  In raw_tcp mode, with a socket that takes every send
    whole, the sender puts on the wire neither a kind tag nor a length: it
    sends the data of every buffer that is not side information, verbatim
    and one after the other. *)
Theorem raw_tcp_sends_the_payload_alone :
  forall (buffers : list MMAL_BUFFER_HEADER_T) (p : Process),
    healthy p ->
    exists p', feed encoder_buffer_callback_raw_tcp buffers p = Running p'
      /\ wire p' = wire p ++ concat (map raw_payload buffers)
      /\ healthy p'.
Proof.
  induction buffers as [|b rest IH]; intros p Hh.
  - exists p. simpl. rewrite app_nil_r. auto.
  - simpl. unfold and_then.
    destruct (raw_tcp_one b p Hh) as (p1 & E1 & Hw1 & Hh1).
    rewrite E1. destruct (IH p1 Hh1) as (p' & E & Hw & Hh').
    exists p'. rewrite E, Hw, Hw1, <- app_assoc. auto.
Qed.

End SenderProperties.

(** *** Concrete runs of the sender *)

Lemma start_healthy (w h : Z) : healthy (start w h).
Proof. constructor. Defined.





Lemma raw_tcp_sends_the_payload_alone_witness :
  exists p',
    feed (encoder_buffer_callback_raw_tcp (F := mmal_flags))
      [mkBuffer [x2a] 4; mkBuffer [x2b; x2c] 0] (start 1920 1080) = Running p'
    /\ wire p' = wire (start 1920 1080)
         ++ concat (map (raw_payload (F := mmal_flags))
                      [mkBuffer [x2a] 4; mkBuffer [x2b; x2c] 0])
    /\ healthy p'.
Proof.
  apply (raw_tcp_sends_the_payload_alone (F := mmal_flags)
           [mkBuffer [x2a] 4; mkBuffer [x2b; x2c] 0] (start 1920 1080)).
  apply start_healthy.
Defined.

(** C6 as stated fails: for a complete frame of one byte the raw_tcp
    callback sends that byte and no length before it. *)
Lemma raw_tcp_sends_no_length :
  exists p',
    encoder_buffer_callback_raw_tcp (F := mmal_flags) (mkBuffer [x2a] 4)
      (start 1920 1080) = Running p'
    /\ wire p' = [x2a]
    /\ wire p' <> uint32_bytes 1 ++ [x2a].
Proof.
  eexists. split; [reflexivity|]. simpl. split; [reflexivity | discriminate].
Qed.

(** ** The receiver *)

Lemma int32_small (x : Z) : 0 <= x <= CInt.INT_MAX -> CInt.int32 x = x.
Proof.
  unfold CInt.int32, CInt.to_signed, CInt.INT_MAX. intros H.
  change (2 ^ (32 - 1)) with 2147483648. change (2 ^ 32) with 4294967296.
  rewrite Z.mod_small; lia.
Qed.

Lemma jbyte_unsigned (b : byte) : Z.land (DecoderThread.jbyte b) 255 = u8 b.
Proof. destruct b; reflexivity. Qed.

Lemma byte_field_bit (n j i : Z) :
  0 <= j -> 0 <= i ->
  Z.testbit (Z.shiftl (Z.shiftr n j mod 2 ^ 8) j) i
  = (j <=? i) && (i <? j + 8) && Z.testbit n i.
Proof.
  intros Hj Hi. rewrite Z.shiftl_spec by lia.
  destruct (j <=? i) eqn:E1; cbn [andb].
  - apply Z.leb_le in E1. destruct (i <? j + 8) eqn:E2; cbn [andb].
    + apply Z.ltb_lt in E2. rewrite Z.mod_pow2_bits_low by lia.
      rewrite Z.shiftr_spec by lia. f_equal. lia.
    + apply Z.ltb_ge in E2. apply Z.mod_pow2_bits_high. lia.
  - apply Z.leb_gt in E1. apply Z.testbit_neg_r. lia.
Qed.

Lemma four_bytes_value (n : Z) :
  Z.lor (Z.lor (Z.lor (n mod 2 ^ 8)
                      (Z.shiftl (Z.shiftr n 8 mod 2 ^ 8) 8))
               (Z.shiftl (Z.shiftr n 16 mod 2 ^ 8) 16))
        (Z.shiftl (Z.shiftr n 24 mod 2 ^ 8) 24)
  = n mod 2 ^ 32.
Proof.
  apply Z.bits_inj'. intros i Hi.
  rewrite !Z.lor_spec.
  rewrite !byte_field_bit by lia.
  assert (H0 : Z.testbit (n mod 2 ^ 8) i = (i <? 8) && Z.testbit n i).
  { destruct (i <? 8) eqn:E; cbn [andb].
    - apply Z.ltb_lt in E. apply Z.mod_pow2_bits_low. lia.
    - apply Z.ltb_ge in E. apply Z.mod_pow2_bits_high. lia. }
  assert (H32 : Z.testbit (n mod 2 ^ 32) i = (i <? 32) && Z.testbit n i).
  { destruct (i <? 32) eqn:E; cbn [andb].
    - apply Z.ltb_lt in E. apply Z.mod_pow2_bits_low. lia.
    - apply Z.ltb_ge in E. apply Z.mod_pow2_bits_high. lia. }
  rewrite H0, H32.
  destruct (Z.testbit n i); rewrite ?andb_false_r, ?andb_true_r; [|reflexivity].
  destruct (i <? 8) eqn:A; destruct (8 <=? i) eqn:B8; destruct (i <? 8 + 8) eqn:C;
    destruct (16 <=? i) eqn:D; destruct (i <? 16 + 8) eqn:E;
    destruct (24 <=? i) eqn:G; destruct (i <? 24 + 8) eqn:H;
    destruct (i <? 32) eqn:I; cbn [andb orb]; try reflexivity; exfalso;
    repeat match goal with
           | X : (_ <? _) = true |- _ => apply Z.ltb_lt in X
           | X : (_ <? _) = false |- _ => apply Z.ltb_ge in X
           | X : (_ <=? _) = true |- _ => apply Z.leb_le in X
           | X : (_ <=? _) = false |- _ => apply Z.leb_gt in X
           end; lia.
Qed.

(** byteArrayToInt reads back the four bytes of a [uint32_t], as a signed
    32-bit number. *)
Lemma byteArrayToInt_uint32_bytes (b : jbytes) (n : Z) :
  cells b 0 4 = uint32_bytes n ->
  DecoderThread.byteArrayToInt b = CInt.int32 (n mod 2 ^ 32).
Proof.
  unfold cells, uint32_bytes. simpl. intros H.
  injection H as H0 H1 H2 H3.
  unfold DecoderThread.byteArrayToInt.
  rewrite !jbyte_unsigned.
  rewrite H0, H1, H2, H3. rewrite !u8_byte_of_Z.
  change 256 with (2 ^ 8).
  rewrite four_bytes_value. reflexivity.
Qed.

(** *** Cells of an array *)

Lemma cells_length (a : jbytes) (off : Z) (n : nat) :
  List.length (cells a off (Z.of_nat n)) = n.
Proof. unfold cells. rewrite length_map, length_seq. apply Nat2Z.id. Qed.

Lemma cells_ext (a b : jbytes) (off len : Z) :
  (forall i, off <= i < off + len -> jget a i = jget b i) ->
  cells a off len = cells b off len.
Proof.
  intros H. unfold cells. apply map_ext_in. intros k Hk.
  apply in_seq in Hk. apply H. lia.
Qed.

Lemma map_seq_from {A : Type} (f : nat -> A) (start len : nat) :
  map f (seq start len) = map (fun j => f (start + j)%nat) (seq 0 len).
Proof.
  revert start f. induction len as [|len IH]; intros start f; simpl.
  - reflexivity.
  - f_equal; [f_equal; lia|].
    rewrite (IH (S start)), (IH 1%nat). apply map_ext. intros j.
    f_equal. lia.
Qed.

Lemma cells_split (a : jbytes) (off : Z) (k n : nat) :
  (k <= n)%nat ->
  cells a off (Z.of_nat n)
  = cells a off (Z.of_nat k) ++ cells a (off + Z.of_nat k) (Z.of_nat (n - k)).
Proof.
  intros H. unfold cells. rewrite !Nat2Z.id.
  replace n with (k + (n - k))%nat at 1 by lia.
  rewrite seq_app, map_app. f_equal. simpl.
  rewrite map_seq_from. apply map_ext. intros j. f_equal. lia.
Qed.

Lemma nth_seq_id (src : list byte) :
  map (fun k => nth k src x00) (seq 0 (List.length src)) = src.
Proof.
  induction src as [|x src IH]; simpl; [reflexivity|].
  f_equal. rewrite map_seq_from. simpl. exact IH.
Qed.

Lemma cells_store (src : list byte) (off : Z) (a : jbytes) :
  cells (store src off a) off (Z.of_nat (List.length src)) = src.
Proof.
  unfold cells, store. simpl. rewrite Nat2Z.id.
  transitivity (map (fun k => nth k src x00) (seq 0 (List.length src)));
    [|apply nth_seq_id].
  apply map_ext_in. intros k Hk. apply in_seq in Hk.
  replace ((off <=? off + Z.of_nat k)
           && (off + Z.of_nat k <? off + Z.of_nat (List.length src)))
    with true.
  - f_equal. lia.
  - symmetry. apply andb_true_iff. split.
    + apply Z.leb_le. lia.
    + apply Z.ltb_lt. lia.
Qed.

Lemma store_outside (src : list byte) (off : Z) (a : jbytes) (i : Z) :
  i < off \/ off + Z.of_nat (List.length src) <= i ->
  jget (store src off a) i = jget a i.
Proof.
  intros H. unfold store. simpl.
  destruct (off <=? i) eqn:E1; simpl; [|reflexivity].
  destruct (i <? off + Z.of_nat (List.length src)) eqn:E2; [|reflexivity].
  apply Z.leb_le in E1. apply Z.ltb_lt in E2. lia.
Qed.

Lemma firstn_add {A : Type} (a b : nat) (l : list A) :
  firstn (a + b) l = firstn a l ++ firstn b (skipn a l).
Proof.
  revert l. induction a as [|a IH]; intros l; simpl.
  - reflexivity.
  - destruct l as [|x l]; simpl.
    + rewrite firstn_nil. reflexivity.
    + rewrite IH. reflexivity.
Qed.

Lemma skipn_add {A : Type} (a b : nat) (l : list A) :
  skipn (a + b) l = skipn b (skipn a l).
Proof.
  revert l. induction a as [|a IH]; intros l; simpl.
  - reflexivity.
  - destruct l as [|x l]; simpl.
    + rewrite skipn_nil. reflexivity.
    + apply IH.
Qed.

(** One read from a stream that has a piece at hand. *)
Lemma read_piece (buffer : jbytes) (off len : Z) (s : InputStream)
  (c : list byte) (rest : list (list byte)) :
  chunks s = c :: rest -> eof_seen s = false ->
  0 < len -> 0 <= off -> len <= jlength buffer - off ->
  read buffer off len s
  = (Returns (Z.of_nat (Nat.min (Z.to_nat len) (List.length c))),
     store (firstn (Nat.min (Z.to_nat len) (List.length c)) c) off buffer,
     mkStream
       (match skipn (Nat.min (Z.to_nat len) (List.length c)) c with
        | [] => rest
        | _ => skipn (Nat.min (Z.to_nat len) (List.length c)) c :: rest
        end)
       (ending s) (eof_seen s) (eof_before_bounds s) (asked s ++ [len])).
Proof.
  intros Hc He Hl Ho Hb. unfold read, note_request. simpl.
  rewrite He, andb_false_r, Hc.
  replace (len <=? 0) with false by (symmetry; apply Z.leb_gt; lia).
  replace (off <? 0) with false by (symmetry; apply Z.ltb_ge; lia).
  replace (len >? jlength buffer - off) with false
    by (symmetry; rewrite Z.gtb_ltb; apply Z.ltb_ge; lia).
  simpl. reflexivity.
Qed.

Lemma arrives_step (s : InputStream) (bs c : list byte)
  (rest : list (list byte)) (k : nat) (l : list Z) :
  arrives s bs -> chunks s = c :: rest -> (k <= List.length c)%nat ->
  arrives
    (mkStream (match skipn k c with [] => rest | _ => skipn k c :: rest end)
       (ending s) (eof_seen s) (eof_before_bounds s) l)
    (skipn k bs).
Proof.
  intros (Hb & Hne & He) Hc Hk. rewrite Hc in Hb, Hne. simpl in Hb.
  inversion Hne as [|? ? Hcne Hrest]; subst.
  unfold arrives. simpl. repeat split; auto.
  - rewrite skipn_app. replace (k - List.length c)%nat with 0%nat by lia.
    simpl. destruct (skipn k c) eqn:E; reflexivity.
  - destruct (skipn k c) eqn:E; [assumption|].
    constructor; [discriminate | assumption].
Qed.

(** The loop of read_exact on a stream that delivers enough bytes: it
    returns [true] with exactly the next [n] bytes in the buffer. *)
Lemma read_exact_loop_arrives :
  forall (fuel n : nat) (buffer : jbytes) (off : Z) (s : InputStream)
         (bs : list byte),
    arrives s bs -> (n <= List.length bs)%nat -> (n < fuel)%nat ->
    0 <= off -> off + Z.of_nat n <= jlength buffer ->
    jlength buffer <= CInt.INT_MAX ->
    exists buffer' s',
      DecoderThread.read_exact_loop fuel buffer (Z.of_nat n) off s
        = (Returns true, buffer', s')
      /\ jlength buffer' = jlength buffer
      /\ cells buffer' off (Z.of_nat n) = firstn n bs
      /\ (forall i, i < off \/ off + Z.of_nat n <= i ->
                    jget buffer' i = jget buffer i)
      /\ arrives s' (skipn n bs)
      /\ ending s' = ending s
      /\ eof_before_bounds s' = eof_before_bounds s
      /\ exists l, asked s' = asked s ++ l
                   /\ Forall (fun x => 0 < x <= Z.of_nat n) l.
Proof.
  induction fuel as [|fuel IH]; intros n buffer off s bs Ha Hn Hf Ho Hb Hm;
    [lia|].
  destruct n as [|m].
  - exists buffer, s. simpl.
    split; [reflexivity|]. split; [reflexivity|]. split; [reflexivity|].
    split; [reflexivity|]. split; [exact Ha|].
    split; [reflexivity|]. split; [reflexivity|].
    exists []. rewrite app_nil_r. auto.
  - cbn [DecoderThread.read_exact_loop].
    replace (Z.of_nat (S m) >? 0) with true
      by (symmetry; rewrite Z.gtb_ltb; apply Z.ltb_lt; lia).
    destruct (chunks s) as [|c rest] eqn:Hc.
    { destruct Ha as (Hcat & _). rewrite Hc in Hcat. simpl in Hcat.
      subst bs. simpl in Hn. lia. }
    assert (Hcne : c <> []).
    { destruct Ha as (_ & Hne & _). rewrite Hc in Hne.
      inversion Hne; assumption. }
    rewrite (read_piece buffer off (Z.of_nat (S m)) s c rest Hc)
      by (try apply Ha; lia).
    rewrite Nat2Z.id.
    set (k := Nat.min (S m) (List.length c)).
    assert (Hk1 : (1 <= k)%nat).
    { unfold k. destruct c; [contradiction|simpl; lia]. }
    assert (Hk2 : (k <= S m)%nat) by (unfold k; lia).
    assert (Hk3 : (k <= List.length c)%nat) by (unfold k; lia).
    replace (Z.of_nat k <? 1) with false by (symmetry; apply Z.ltb_ge; lia).
    unfold CInt.INT_MAX in Hm.
    rewrite (int32_small (Z.of_nat (S m) - Z.of_nat k))
      by (unfold CInt.INT_MAX; lia).
    rewrite (int32_small (off + Z.of_nat k)) by (unfold CInt.INT_MAX; lia).
    replace (Z.of_nat (S m) - Z.of_nat k) with (Z.of_nat (S m - k)) by lia.
    pose proof (arrives_step s bs c rest k (asked s ++ [Z.of_nat (S m)])
                  Ha Hc Hk3) as Ha1.
    assert (Hbs : (k <= List.length bs)%nat) by lia.
    destruct (IH (S m - k)%nat (store (firstn k c) off buffer)
                (off + Z.of_nat k) _ (skipn k bs) Ha1)
      as (b' & s' & E & Hlen & Hcells & Hout & Harr & Hend & Hebb & l & Hl & HF).
    { rewrite length_skipn. lia. }
    { lia. }
    { lia. }
    { unfold store. cbn [jlength]. lia. }
    { unfold store. cbn [jlength]. unfold CInt.INT_MAX. lia. }
    exists b', s'. rewrite E. split; [reflexivity|].
    split; [exact Hlen|].
    split.
    { rewrite (cells_split b' off k (S m)) by lia.
      replace (S m) with (k + (S m - k))%nat at 2 by lia.
      rewrite firstn_add. f_equal; [|exact Hcells].
      assert (Hfc : firstn k bs = firstn k c).
      { destruct Ha as (Hcat & _). rewrite Hc in Hcat. simpl in Hcat.
        subst bs. rewrite firstn_app.
        replace (k - List.length c)%nat with 0%nat by lia.
        simpl. apply app_nil_r. }
      rewrite Hfc.
      transitivity (cells (store (firstn k c) off buffer) off (Z.of_nat k)).
      - apply cells_ext. intros i Hi. apply Hout. lia.
      - pose proof (cells_store (firstn k c) off buffer) as Hs.
        rewrite length_firstn in Hs.
        replace (Nat.min k (List.length c)) with k in Hs by lia.
        exact Hs. }
    split.
    { intros i Hi. rewrite Hout by lia. apply store_outside.
      rewrite length_firstn. lia. }
    split.
    { replace (S m) with (k + (S m - k))%nat by lia.
      rewrite skipn_add. exact Harr. }
    split; [exact Hend|]. split; [exact Hebb|].
    exists (Z.of_nat (S m) :: l). split.
    { rewrite Hl. simpl. rewrite <- app_assoc. reflexivity. }
    constructor; [lia|].
    eapply Forall_impl; [|exact HF]. intros x Hx. cbv beta in Hx. lia.
Qed.

Lemma read_exact_arrives (buffer : jbytes) (cnt : Z) (s : InputStream)
  (bs : list byte) :
  arrives s bs -> 0 <= cnt <= Z.of_nat (List.length bs) ->
  cnt <= jlength buffer -> jlength buffer <= CInt.INT_MAX ->
  exists buffer' s',
    DecoderThread.read_exact buffer cnt (Some s)
      = (Returns true, buffer', Some s')
    /\ jlength buffer' = jlength buffer
    /\ cells buffer' 0 cnt = firstn (Z.to_nat cnt) bs
    /\ arrives s' (skipn (Z.to_nat cnt) bs)
    /\ exists l, asked s' = asked s ++ l /\ Forall (fun x => 0 < x <= cnt) l.
Proof.
  intros Ha Hc Hb Hm. unfold DecoderThread.read_exact.
  destruct (read_exact_loop_arrives (S (Z.to_nat cnt)) (Z.to_nat cnt)
              buffer 0 s bs Ha)
    as (b' & s' & E & Hlen & Hcells & _ & Harr & _ & _ & l & Hl & HF);
    try lia.
  rewrite Z2Nat.id in * by lia.
  exists b', s'. rewrite E. repeat split; auto; try apply Harr.
  exists l. auto.
Qed.

Lemma firstn_length_app {A : Type} (a b : list A) :
  firstn (List.length a) (a ++ b) = a.
Proof.
  rewrite firstn_app, Nat.sub_diag, firstn_all. simpl. apply app_nil_r.
Qed.

Lemma skipn_length_app {A : Type} (a b : list A) :
  skipn (List.length a) (a ++ b) = b.
Proof.
  rewrite skipn_app, Nat.sub_diag, skipn_all. reflexivity.
Qed.

Ltac decoder_fields :=
  cbv beta iota zeta delta
    [DecoderThread.with_io DecoderThread.dequeueInputBuffer
     DecoderThread.inputStream DecoderThread.buffer DecoderThread.input_ids
     DecoderThread.input_capacity DecoderThread.queued
     DecoderThread.presentationTime DecoderThread.g_iFrames_cnt
     DecoderThread.message].

(** One turn of the frame loop on a stream that delivers the four length
    bytes of a frame and then its payload: the payload is queued into the
    codec, whole and unchanged. *)
Lemma read_frame_decodes (d : DecoderThread.Decoder) (s : InputStream)
  (payload rest : list byte) :
  (0 < List.length payload)%nat ->
  Z.of_nat (List.length payload) <= DecoderThread.TCPIP_BUFFER_SIZE ->
  DecoderThread.inputStream d = Some s ->
  arrives s ((uint32_bytes (Z.of_nat (List.length payload)) ++ payload) ++ rest) ->
  jlength (DecoderThread.buffer d) = DecoderThread.TCPIP_BUFFER_SIZE ->
  0 <= hd 0 (DecoderThread.input_ids d) ->
  Z.of_nat (List.length payload) <= DecoderThread.input_capacity d ->
  exists d' s',
    DecoderThread.read_frame d = DecoderThread.Goes d'
    /\ DecoderThread.queued d'
       = DecoderThread.queued d
         ++ [DecoderThread.mkQueued payload (DecoderThread.presentationTime d)
               DecoderThread.NO_FLAG]
    /\ DecoderThread.inputStream d' = Some s'
    /\ arrives s' rest
    /\ jlength (DecoderThread.buffer d') = DecoderThread.TCPIP_BUFFER_SIZE
    /\ DecoderThread.input_ids d' = tl (DecoderThread.input_ids d)
    /\ DecoderThread.input_capacity d' = DecoderThread.input_capacity d
    /\ DecoderThread.presentationTime d'
       = CInt.to_signed 64 (DecoderThread.presentationTime d + 666666)
    /\ DecoderThread.g_iFrames_cnt d'
       = CInt.int32 (DecoderThread.g_iFrames_cnt d + 1).
Proof.
  intros Hpos Hmax Hs Ha Hlen Hid Hcap.
  destruct d as [ist buf ids cap q pts cnt msg].
  cbn [DecoderThread.inputStream DecoderThread.buffer DecoderThread.input_ids
       DecoderThread.input_capacity DecoderThread.queued
       DecoderThread.presentationTime] in *.
  subst ist.
  unfold DecoderThread.TCPIP_BUFFER_SIZE in *.
  set (L := Z.of_nat (List.length payload)) in *.
  rewrite <- app_assoc in Ha.
  destruct (read_exact_arrives buf 4 s _ Ha)
    as (b1 & s1 & E1 & Hl1 & Hc1 & Ha1 & _).
  { rewrite length_app. simpl. lia. }
  { lia. }
  { unfold CInt.INT_MAX. lia. }
  change (Z.to_nat 4) with (List.length (uint32_bytes L)) in Hc1, Ha1.
  rewrite firstn_length_app in Hc1. rewrite skipn_length_app in Ha1.
  destruct (read_exact_arrives b1 L s1 _ Ha1)
    as (b3 & s3 & E3 & Hl3 & Hc3 & Ha3 & _).
  { rewrite length_app. unfold L. lia. }
  { lia. }
  { unfold CInt.INT_MAX. lia. }
  unfold L in Hc3, Ha3. rewrite Nat2Z.id in Hc3, Ha3. fold L in Hc3.
  rewrite firstn_length_app in Hc3. rewrite skipn_length_app in Ha3.
  unfold DecoderThread.read_frame.
  decoder_fields. rewrite E1. decoder_fields.
  rewrite (byteArrayToInt_uint32_bytes b1 L Hc1).
  rewrite Z.mod_small by (unfold L; lia).
  rewrite int32_small by (unfold CInt.INT_MAX, L; lia).
  unfold DecoderThread.TCPIP_BUFFER_SIZE.
  replace (L >? 2000000) with false
    by (symmetry; rewrite Z.gtb_ltb; apply Z.ltb_ge; lia).
  assert (Hput : forall ids',
    DecoderThread.put_and_queue L DecoderThread.NO_FLAG
      (DecoderThread.mkDecoder (Some s3) b3 ids' cap q pts cnt msg)
    = DecoderThread.Goes
        (DecoderThread.mkDecoder (Some s3) b3 ids' cap
           (q ++ [DecoderThread.mkQueued payload pts DecoderThread.NO_FLAG])
           (CInt.to_signed 64 (pts + 666666)) cnt msg)).
  { intros ids'. unfold DecoderThread.put_and_queue. decoder_fields.
    replace (L <? 0) with false by (symmetry; apply Z.ltb_ge; lia).
    replace (L >? jlength b3) with false
      by (symmetry; rewrite Z.gtb_ltb; apply Z.ltb_ge; lia).
    replace (L >? cap) with false
      by (symmetry; rewrite Z.gtb_ltb; apply Z.ltb_ge; lia).
    cbn [orb]. rewrite Hc3. reflexivity. }
  destruct ids as [|i ids]; decoder_fields.
  - change (0 >=? 0) with true. cbv iota.
    rewrite E3. decoder_fields. rewrite Hput.
    eexists; exists s3. split; [reflexivity|].
    unfold DecoderThread.count_frame. decoder_fields. cbn [tl].
    repeat split; auto; try apply Ha3; lia.
  - simpl in Hid.
    replace (i >=? 0) with true
      by (symmetry; rewrite Z.geb_leb; apply Z.leb_le; lia).
    cbv iota. rewrite E3. decoder_fields. rewrite Hput.
    eexists; exists s3. split; [reflexivity|].
    unfold DecoderThread.count_frame. decoder_fields. cbn [tl].
    repeat split; auto; try apply Ha3; lia.
Qed.

(** C1.  Round trip in the android profile.  For every payload of length
    0 < L <= 2000000 the android callback, given the payload as a complete
    frame, puts the four bytes of L and then the payload on the wire; and
    the decoder thread, reading these bytes from its stream in pieces of
    any size, hands exactly the payload to the codec. *)
Theorem frame_round_trip {F : BufferFlags} :
  forall (payload : list byte) (fl : Z) (p : Process),
    (0 < List.length payload)%nat ->
    Z.of_nat (List.length payload) <= DecoderThread.TCPIP_BUFFER_SIZE ->
    healthy p ->
    p_buf_partial_begin p = None ->
    has_flag (mkBuffer payload fl) MMAL_BUFFER_HEADER_FLAG_CONFIG = false ->
    has_flag (mkBuffer payload fl) MMAL_BUFFER_HEADER_FLAG_CODECSIDEINFO = false ->
    has_flag (mkBuffer payload fl) MMAL_BUFFER_HEADER_FLAG_FRAME_END = true ->
    exists encoded p',
      encoder_buffer_callback_android (mkBuffer payload fl) p = Running p'
      /\ wire p' = wire p ++ encoded
      /\ encoded = uint32_bytes (Z.of_nat (List.length payload)) ++ payload
      /\ forall (d : DecoderThread.Decoder) (s : InputStream) (rest : list byte),
           DecoderThread.inputStream d = Some s ->
           arrives s (encoded ++ rest) ->
           jlength (DecoderThread.buffer d) = DecoderThread.TCPIP_BUFFER_SIZE ->
           0 <= hd 0 (DecoderThread.input_ids d) ->
           Z.of_nat (List.length payload) <= DecoderThread.input_capacity d ->
           exists d' s',
             DecoderThread.read_frame d = DecoderThread.Goes d'
             /\ DecoderThread.queued d'
                = DecoderThread.queued d
                  ++ [DecoderThread.mkQueued payload
                        (DecoderThread.presentationTime d) DecoderThread.NO_FLAG]
             /\ DecoderThread.inputStream d' = Some s'
             /\ arrives s' rest.
Proof.
  intros payload fl p Hpos Hmax Hh Hp Hc Hs He.
  assert (Hd : data (mkBuffer payload fl) <> []).
  { simpl. destruct payload; [simpl in Hpos; lia | discriminate]. }
  destruct (android_whole_frame (mkBuffer payload fl) p Hh Hp Hd Hc Hs He)
    as (p' & E & Hw & _).
  exists (uint32_bytes (Z.of_nat (List.length payload)) ++ payload), p'.
  split; [exact E|]. split; [exact Hw|]. split; [reflexivity|].
  intros d s rest Hst Ha Hlen Hid Hcap.
  destruct (read_frame_decodes d s payload rest Hpos Hmax Hst Ha Hlen Hid Hcap)
    as (d' & s' & E' & Hq & Hs' & Ha' & _).
  exists d', s'. auto.
Qed.

Lemma frame_round_trip_witness :
  let payload := [x61; x62; x63] in
  let s := mkStream [[x03; x00]; [x00; x00; x61]; [x62; x63]]
             EndOfStream false false [] in
  let d := DecoderThread.mkDecoder (Some s)
             (new_bytes DecoderThread.TCPIP_BUFFER_SIZE) [] 1000000 [] 0 0 None in
  exists p' d',
    encoder_buffer_callback_android (F := mmal_flags) (mkBuffer payload 4)
      (start 1920 1080) = Running p'
    /\ wire p' = [x03; x00; x00; x00; x61; x62; x63]
    /\ DecoderThread.read_frame d = DecoderThread.Goes d'
    /\ DecoderThread.queued d'
       = [DecoderThread.mkQueued payload 0 DecoderThread.NO_FLAG].
Proof.
  intros payload s d.
  destruct (frame_round_trip (F := mmal_flags) payload 4 (start 1920 1080))
    as (encoded & p' & E & Hw & Henc & Hrecv).
  - simpl. lia.
  - unfold DecoderThread.TCPIP_BUFFER_SIZE. simpl. lia.
  - apply start_healthy.
  - reflexivity.
  - reflexivity.
  - reflexivity.
  - reflexivity.
  - destruct (Hrecv d s []) as (d' & s' & E' & Hq & _).
    + reflexivity.
    + subst encoded. repeat split.
      repeat constructor; discriminate.
    + reflexivity.
    + simpl. lia.
    + simpl. lia.
    + exists p', d'. subst encoded. auto.
Defined.



(** On a stream that ends or fails before [n] bytes have come, the loop
    answers [false]. *)
Lemma read_exact_loop_short :
  forall (fuel n : nat) (buffer : jbytes) (off : Z) (s : InputStream)
         (bs : list byte),
    arrives s bs -> (List.length bs < n)%nat -> (n < fuel)%nat ->
    0 <= off -> off + Z.of_nat n <= jlength buffer ->
    jlength buffer <= CInt.INT_MAX ->
    exists buffer' s',
      DecoderThread.read_exact_loop fuel buffer (Z.of_nat n) off s
      = (Returns false, buffer', s').
Proof.
  induction fuel as [|fuel IH]; intros n buffer off s bs Ha Hn Hf Ho Hb Hm;
    [lia|].
  cbn [DecoderThread.read_exact_loop].
  replace (Z.of_nat n >? 0) with true
    by (symmetry; rewrite Z.gtb_ltb; apply Z.ltb_lt; lia).
  destruct (chunks s) as [|c rest] eqn:Hc.
  - unfold read, note_request. cbn [eof_before_bounds eof_seen chunks ending].
    destruct Ha as (_ & _ & He). rewrite He, andb_false_r, Hc.
    replace (Z.of_nat n <=? 0) with false by (symmetry; apply Z.leb_gt; lia).
    replace (off <? 0) with false by (symmetry; apply Z.ltb_ge; lia).
    replace (Z.of_nat n >? jlength buffer - off) with false
      by (symmetry; rewrite Z.gtb_ltb; apply Z.ltb_ge; lia).
    cbn [orb]. destruct (ending s); [change (-1 <? 1) with true|]; cbv iota; eauto.
  - assert (Hcne : c <> []).
    { destruct Ha as (_ & Hne & _). rewrite Hc in Hne.
      inversion Hne; assumption. }
    assert (Hcl : (List.length c <= List.length bs)%nat).
    { destruct Ha as (Hcat & _). rewrite Hc in Hcat. simpl in Hcat.
      subst bs. rewrite length_app. lia. }
    rewrite (read_piece buffer off (Z.of_nat n) s c rest Hc)
      by (try apply Ha; lia).
    rewrite Nat2Z.id.
    set (k := Nat.min n (List.length c)).
    assert (Hk : k = List.length c) by (unfold k; lia).
    assert (Hk1 : (1 <= k)%nat).
    { rewrite Hk. destruct c; [contradiction|simpl; lia]. }
    replace (Z.of_nat k <? 1) with false by (symmetry; apply Z.ltb_ge; lia).
    unfold CInt.INT_MAX in Hm.
    rewrite (int32_small (Z.of_nat n - Z.of_nat k))
      by (unfold CInt.INT_MAX; lia).
    rewrite (int32_small (off + Z.of_nat k)) by (unfold CInt.INT_MAX; lia).
    replace (Z.of_nat n - Z.of_nat k) with (Z.of_nat (n - k)) by lia.
    assert (Hk3 : (k <= List.length c)%nat) by lia.
    pose proof (arrives_step s bs c rest k (asked s ++ [Z.of_nat n])
                  Ha Hc Hk3) as Ha1.
    apply (IH (n - k)%nat _ _ _ (skipn k bs) Ha1).
    + rewrite length_skipn. lia.
    + lia.
    + lia.
    + unfold store. cbn [jlength]. lia.
    + unfold store. cbn [jlength]. unfold CInt.INT_MAX. lia.
Qed.

Lemma read_exact_short (buffer : jbytes) (cnt : Z) (s : InputStream)
  (bs : list byte) :
  arrives s bs -> Z.of_nat (List.length bs) < cnt ->
  cnt <= jlength buffer -> jlength buffer <= CInt.INT_MAX ->
  exists buffer' s',
    DecoderThread.read_exact buffer cnt (Some s) = (Returns false, buffer', s').
Proof.
  intros Ha Hc Hb Hm. unfold DecoderThread.read_exact.
  destruct (read_exact_loop_short (S (Z.to_nat cnt)) (Z.to_nat cnt)
              buffer 0 s bs Ha) as (b' & s' & E); try lia.
  rewrite Z2Nat.id in E by lia. rewrite E. eauto.
Qed.









(** *** TcpIpReader *)

(** Once the stream has answered -1 and goes on doing so, the loop of
    TcpIpReader.read_exact counts upwards; it can only spin or return true. *)
Lemma TcpIpReader_loop_at_end :
  forall (fuel : nat) (buffer : jbytes) (iToRead off : Z) (s : InputStream),
    eof_seen s = true -> eof_before_bounds s = true ->
    exists s',
      (TcpIpReader.read_exact_loop fuel buffer iToRead off s = (Spins, buffer, s')
       \/ TcpIpReader.read_exact_loop fuel buffer iToRead off s
          = (Returns true, buffer, s'))
      /\ chunks s' = chunks s.
Proof.
  induction fuel as [|fuel IH]; intros buffer iToRead off s He Hb.
  - exists s. simpl. auto.
  - cbn [TcpIpReader.read_exact_loop].
    destruct (iToRead >? 0); [|exists s; auto].
    unfold read. cbn [note_request eof_seen eof_before_bounds].
    rewrite He, Hb. cbn [andb].
    destruct (IH buffer (CInt.int32 (iToRead - -1)) (CInt.int32 (off + -1))
                (note_request iToRead s) He Hb) as (s' & H & Hc).
    exists s'. split; [exact H|]. rewrite Hc. reflexivity.
Qed.

(** After 2^31 - iToRead answers of -1 the counter wraps round to a
    negative number and the loop returns true. *)
Lemma TcpIpReader_loop_wraps :
  forall (k fuel : nat) (buffer : jbytes) (iToRead off : Z) (s : InputStream),
    eof_seen s = true -> eof_before_bounds s = true ->
    0 < iToRead -> iToRead + Z.of_nat k = 2 ^ 31 - 1 -> (S k < fuel)%nat ->
    exists s',
      TcpIpReader.read_exact_loop fuel buffer iToRead off s
      = (Returns true, buffer, s')
      /\ chunks s' = chunks s.
Proof.
  induction k as [|k IH]; intros fuel buffer iToRead off s He Hb Hi Hk Hf;
    (destruct fuel as [|fuel]; [lia|]);
    cbn [TcpIpReader.read_exact_loop];
    (replace (iToRead >? 0) with true
      by (symmetry; rewrite Z.gtb_ltb; apply Z.ltb_lt; lia));
    unfold read; cbn [note_request eof_seen eof_before_bounds];
    rewrite He, Hb; cbn [andb].
  - replace iToRead with (2 ^ 31 - 1) by lia.
    change (CInt.int32 (2 ^ 31 - 1 - -1)) with (-2147483648).
    destruct fuel as [|fuel]; [lia|].
    cbn [TcpIpReader.read_exact_loop]. change (-2147483648 >? 0) with false.
    cbv iota. eexists. split; reflexivity.
  - rewrite (int32_small (iToRead - -1)) by (unfold CInt.INT_MAX; lia).
    destruct (IH fuel buffer (iToRead - -1) (CInt.int32 (off + -1))
                (note_request iToRead s) He Hb) as (s' & H & Hc); try lia.
    exists s'. split; [exact H|]. rewrite Hc. reflexivity.
Qed.

Lemma TcpIpReader_first_end (fuel : nat) (buffer : jbytes) (cnt : Z)
  (b : bool) :
  0 < cnt <= jlength buffer ->
  TcpIpReader.read_exact_loop (S fuel) buffer cnt 0
    (mkStream [] EndOfStream false b [])
  = TcpIpReader.read_exact_loop fuel buffer
      (CInt.int32 (cnt - -1)) (CInt.int32 (0 + -1))
      (mkStream [] EndOfStream true b [cnt]).
Proof.
  intros H. cbn [TcpIpReader.read_exact_loop].
  replace (cnt >? 0) with true
    by (symmetry; rewrite Z.gtb_ltb; apply Z.ltb_lt; lia).
  unfold read.
  cbn [note_request eof_seen eof_before_bounds chunks ending asked app].
  rewrite andb_false_r.
  replace (cnt <=? 0) with false by (symmetry; apply Z.leb_gt; lia).
  replace (cnt >? jlength buffer - 0) with false
    by (symmetry; rewrite Z.gtb_ltb; apply Z.ltb_ge; lia).
  reflexivity.
Qed.

(** C10, the code at a failing input: a stream that is at its end when 4
    bytes are asked for.  TcpIpReader.read_exact subtracts the -1 it gets
    from the count and from the offset.  Where the stream checks its
    bounds first, the next read throws IndexOutOfBoundsException, which
    read_exact does not catch.  Where the stream keeps answering -1,
    read_exact never returns false: it goes round 2^31 - 4 times and then
    returns true, with no byte read. *)
Theorem TcpIpReader_read_exact_at_end_of_stream :
  let bounds_first := mkStream [] EndOfStream false false [] in
  let eof_first := mkStream [] EndOfStream false true [] in
  (forall fuel,
      fst (fst (TcpIpReader.read_exact (S (S fuel)) (new_bytes 8) 4
                  (Some bounds_first)))
      = Throws IndexOutOfBoundsException)
  /\ (forall fuel,
        fst (fst (TcpIpReader.read_exact fuel (new_bytes 8) 4 (Some eof_first)))
        <> Returns false)
  /\ (exists s',
        TcpIpReader.read_exact (Z.to_nat (2 ^ 31)) (new_bytes 8) 4 (Some eof_first)
        = (Returns true, new_bytes 8, Some s')
        /\ chunks s' = []).
Proof.
  intros bounds_first eof_first. split; [|split].
  - intros fuel. reflexivity.
  - intros fuel. unfold TcpIpReader.read_exact, eof_first.
    destruct fuel as [|fuel]; [simpl; discriminate|].
    rewrite TcpIpReader_first_end by (simpl; lia).
    destruct (TcpIpReader_loop_at_end fuel (new_bytes 8)
                (CInt.int32 (4 - -1)) (CInt.int32 (0 + -1))
                (mkStream [] EndOfStream true true [4]) eq_refl eq_refl)
      as (s' & [H|H] & _); rewrite H; simpl; discriminate.
  - unfold TcpIpReader.read_exact, eof_first.
    replace (Z.to_nat (2 ^ 31)) with (S (Z.to_nat (2 ^ 31 - 1))) by lia.
    rewrite TcpIpReader_first_end by (simpl; lia).
    change (CInt.int32 (4 - -1)) with 5.
    destruct (TcpIpReader_loop_wraps (Z.to_nat (2 ^ 31 - 6))
                (Z.to_nat (2 ^ 31 - 1)) (new_bytes 8) 5 (CInt.int32 (0 + -1))
                (mkStream [] EndOfStream true true [4]) eq_refl eq_refl)
      as (s' & H & Hc); try lia.
    rewrite H. exists s'. auto.
Qed.

(** ** Motion vectors *)















(** ** The control channel *)

Lemma scan_digits_uint (d : Decimal.uint) :
  forall (rest : string) (acc : Z),
    scan_digits (NilEmpty.string_of_uint d ++ rest) acc
    = scan_digits rest (uint_value d acc).
Proof.
  induction d; intros rest acc; simpl; try reflexivity;
    unfold digit_value; simpl; rewrite IHd; reflexivity.
Qed.

Lemma uint_value_acc (d : Decimal.uint) :
  forall acc : positive,
    Z.pos (Pos.of_uint_acc d acc) = uint_value d (Z.pos acc).
Proof.
  induction d; intros acc; cbn [Pos.of_uint_acc uint_value];
    try reflexivity; rewrite IHd; f_equal; lia.
Qed.

Lemma uint_value_of_uint (d : Decimal.uint) :
  Z.of_uint d = uint_value d 0.
Proof.
  unfold Z.of_uint.
  induction d; simpl; try reflexivity; try exact IHd;
    rewrite uint_value_acc; reflexivity.
Qed.

Lemma scan_digits_stop (rest : string) (acc : Z) :
  starts_with_digit rest = false -> scan_digits rest acc = acc.
Proof.
  destruct rest as [|c rest]; simpl; [reflexivity|].
  intros H. rewrite H. reflexivity.
Qed.

(** The digits of a number are read back as the number. *)
Lemma scan_digits_decimal (d : Decimal.uint) (rest : string) :
  starts_with_digit rest = false ->
  starts_with_digit (NilZero.string_of_uint d ++ rest) = true
  /\ scan_digits (NilZero.string_of_uint d ++ rest) 0 = Z.of_uint d
  /\ exists c tail, (NilZero.string_of_uint d ++ rest)%string = String c tail
       /\ isdigit c = true.
Proof.
  intros Hrest. rewrite uint_value_of_uint.
  destruct d; unfold NilZero.string_of_uint;
    (split; [reflexivity|]);
    (split; [| simpl; eexists; eexists; split; reflexivity]).
  - simpl. unfold digit_value. simpl. apply scan_digits_stop, Hrest.
  - rewrite scan_digits_uint. apply scan_digits_stop, Hrest.
  - rewrite scan_digits_uint. apply scan_digits_stop, Hrest.
  - rewrite scan_digits_uint. apply scan_digits_stop, Hrest.
  - rewrite scan_digits_uint. apply scan_digits_stop, Hrest.
  - rewrite scan_digits_uint. apply scan_digits_stop, Hrest.
  - rewrite scan_digits_uint. apply scan_digits_stop, Hrest.
  - rewrite scan_digits_uint. apply scan_digits_stop, Hrest.
  - rewrite scan_digits_uint. apply scan_digits_stop, Hrest.
  - rewrite scan_digits_uint. apply scan_digits_stop, Hrest.
  - rewrite scan_digits_uint. apply scan_digits_stop, Hrest.
Qed.

Lemma isdigit_not_space (c : ascii) : isdigit c = true -> isspace c = false.
Proof.
  unfold isdigit, isspace. intros H.
  apply andb_true_iff in H. destruct H as (H1 & H2).
  apply Nat.leb_le in H1. apply Nat.leb_le in H2.
  apply orb_false_iff. split.
  - apply Nat.eqb_neq. lia.
  - apply andb_false_iff. right. apply Nat.leb_gt. lia.
Qed.

Lemma isdigit_not_sign (c : ascii) :
  isdigit c = true -> Ascii.eqb c "-" = false /\ Ascii.eqb c "+" = false.
Proof.
  unfold isdigit. intros H.
  apply andb_true_iff in H. destruct H as (H1 & H2).
  apply Nat.leb_le in H1. apply Nat.leb_le in H2.
  split; apply Ascii.eqb_neq; intros ->.
  - change (nat_of_ascii "-") with 45%nat in H1. lia.
  - change (nat_of_ascii "+") with 43%nat in H1. lia.
Qed.

Lemma clamp_int_id (n : Z) :
  CInt.INT_MIN <= n <= CInt.INT_MAX -> clamp_int n = n.
Proof. unfold clamp_int, CInt.INT_MIN, CInt.INT_MAX. lia. Qed.

(** [%d] reads the decimal text of every [int] back. *)
Lemma scan_d_decimal (n : Z) (rest : string) :
  CInt.INT_MIN <= n <= CInt.INT_MAX ->
  starts_with_digit rest = false ->
  scan_d (decimal n ++ rest) = Some n.
Proof.
  intros Hn Hrest. unfold decimal.
  pose proof (DecimalZ.of_to n) as Hof.
  destruct (Z.to_int n) as [d|d]; simpl in Hof.
  - unfold NilZero.string_of_int.
    destruct (scan_digits_decimal d rest Hrest) as (_ & Hv & c & tail & E & Hc).
    unfold scan_d. rewrite E in *.
    simpl skip_space. rewrite (isdigit_not_space c Hc).
    destruct (isdigit_not_sign c Hc) as (H1 & H2). rewrite H1, H2, Hc.
    rewrite Hv, Hof, clamp_int_id by exact Hn. reflexivity.
  - unfold NilZero.string_of_int.
    destruct (scan_digits_decimal d rest Hrest) as (Hs & Hv & _).
    unfold scan_d. cbn [append skip_space isspace].
    change (isspace "-") with false. cbv iota.
    change (Ascii.eqb "-" "-") with true. cbv iota.
    rewrite Hs, Hv, Hof, clamp_int_id by exact Hn. reflexivity.
Qed.

Lemma prefix_append (key rest : string) : prefix key (key ++ rest) = true.
Proof.
  induction key as [|a key IH]; simpl.
  - destruct rest; reflexivity.
  - destruct (ascii_dec a a) as [_|Hne]; [exact IH|contradiction].
Qed.

Lemma drop_prefix_append (key rest : string) :
  drop_prefix key (key ++ rest) = Some rest.
Proof.
  induction key as [|a key IH]; simpl.
  - destruct rest; reflexivity.
  - rewrite Ascii.eqb_refl. exact IH.
Qed.

Lemma command_iso (n : Z) (p : Process) :
  CInt.INT_MIN <= n <= CInt.INT_MAX ->
  command ("iso=" ++ decimal n ++ newline) p = call_camera (set_ISO n) p.
Proof.
  intros Hn. unfold command, strncmp_eq, sscanf_d.
  rewrite prefix_append, drop_prefix_append.
  rewrite scan_d_decimal by (auto; reflexivity). reflexivity.
Qed.





(** * Further properties of the code *)

(** ** The android callbacks over whole runs *)

Section SenderRuns.
Context {F : BufferFlags}.

Lemma encode_two_halves (a b : list byte) :
  uint32_bytes (CInt.uint32 (Z.of_nat (List.length a) + Z.of_nat (List.length b)))
    ++ a ++ b
  = encode_frame (a ++ b).
Proof.
  unfold encode_frame. rewrite uint32_bytes_wrap, length_app, Nat2Z.inj_add.
  reflexivity.
Qed.

(** One call of the android callback on a healthy socket: the process
    ends with code 12, or zero or one whole frame has gone out. *)
Lemma android_step (b : MMAL_BUFFER_HEADER_T) (p : Process) :
  healthy p ->
  encoder_buffer_callback_android b p = Exited 12 p
  \/ exists p' frames,
       encoder_buffer_callback_android b p = Running p'
       /\ healthy p'
       /\ wire p' = wire p ++ concat (map encode_frame frames)
       /\ i64FramesCnt p <= i64FramesCnt p'.
Proof.
  intros Hh. unfold encoder_buffer_callback_android.
  destruct (buffer_length b =? 0).
  { right. exists p, []. simpl. rewrite app_nil_r. repeat split; auto. lia. }
  destruct (has_flag b MMAL_BUFFER_HEADER_FLAG_CONFIG).
  { right. unfold and_then. repeat send_step.
    eexists; exists [data b]. split; [reflexivity|].
    split; [auto with sender|]. split; [|simpl; lia].
    rewrite !wire_sent. simpl. rewrite app_nil_r, <- app_assoc. reflexivity. }
  destruct (has_flag b MMAL_BUFFER_HEADER_FLAG_CODECSIDEINFO).
  { right. exists p, []. simpl. rewrite app_nil_r. repeat split; auto. lia. }
  destruct (flags b =? 0).
  { destruct (p_buf_partial_begin p) eqn:Hp.
    - left. reflexivity.
    - right. exists (set_partial (Some b) p), []. simpl. rewrite app_nil_r.
      repeat split; auto. lia. }
  destruct (has_flag b MMAL_BUFFER_HEADER_FLAG_FRAME_END).
  2:{ right. exists p, []. simpl. rewrite app_nil_r. repeat split; auto. lia. }
  right. destruct (p_buf_partial_begin p) as [first|] eqn:Hp;
    unfold and_then; repeat send_step; unfold update;
    match goal with
    | |- context [handle_frame_end ?q] =>
        destruct (handle_frame_end_runs q) as (p' & E & Hw & Hk & _ & Hi & _)
    end; rewrite E.
  - exists p', [data first ++ data b]. split; [reflexivity|]. split.
    + unfold healthy. rewrite Hk. simpl.
      change (healthy (sent (data b) (sent (data first)
                (sent (uint32_bytes (CInt.uint32
                   (buffer_length first + buffer_length b))) p)))).
      auto with sender.
    + split; [|rewrite Hi; simpl; lia].
      rewrite Hw. cbn [map concat wire set_partial sent set_sock set_wire].
      rewrite app_nil_r.
      rewrite <- encode_two_halves. unfold buffer_length.
      rewrite <- !app_assoc. reflexivity.
  - exists p', [data b]. split; [reflexivity|]. split.
    + unfold healthy. rewrite Hk.
      change (healthy (sent (data b) (sent (uint32_bytes (buffer_length b)) p))).
      auto with sender.
    + split; [|rewrite Hi; simpl; lia].
      rewrite Hw, !wire_sent. simpl. rewrite app_nil_r, <- app_assoc.
      reflexivity.
Qed.

(** X1.  Whatever buffers the encoder delivers, on a socket that takes
    every send whole the android callback keeps the wire a sequence of
    whole frames, each the four bytes of its length followed by that many
    bytes; the run goes through, or ends with exit code 12. *)
Theorem android_wire_is_framed :
  forall (buffers : list MMAL_BUFFER_HEADER_T) (p : Process),
    healthy p ->
    exists frames,
      wire (final (feed encoder_buffer_callback_android buffers p))
      = wire p ++ concat (map encode_frame frames)
      /\ ((exists p', feed encoder_buffer_callback_android buffers p = Running p')
          \/ exists p', feed encoder_buffer_callback_android buffers p
                        = Exited 12 p').
Proof.
  induction buffers as [|b rest IH]; intros p Hh.
  - exists []. simpl. rewrite app_nil_r. split; [reflexivity|]. left. eauto.
  - simpl. unfold and_then.
    destruct (android_step b p Hh) as [E|(p1 & fr & E & Hh1 & Hw & _)];
      rewrite E.
    + exists []. simpl. rewrite app_nil_r. split; [reflexivity|]. right. eauto.
    + destruct (IH p1 Hh1) as (frames & Hf & Hend).
      exists (fr ++ frames). split; [|exact Hend].
      rewrite Hf, Hw, map_app, concat_app, <- app_assoc. reflexivity.
Qed.


Lemma config_sent_send (line : Z) (buf : list byte) (q : Process) :
  b1_config_sent (final (send_or_exit line buf q)) = b1_config_sent q.
Proof.
  unfold send_or_exit, send.
  destruct q as [w s pb c g r i x y v cam cr]; simpl.
  destruct s as [|[|n|] s']; simpl;
    match goal with |- context [if ?c then _ else _] => destruct c end;
    reflexivity.
Qed.

Lemma config_sent_seq (a b : Action) :
  (forall q, b1_config_sent (final (a q)) = b1_config_sent q) ->
  (forall q, b1_config_sent (final (b q)) = b1_config_sent q) ->
  forall q, b1_config_sent (final ((a ;; b) q)) = b1_config_sent q.
Proof.
  intros Ha Hb q. unfold and_then. specialize (Ha q).
  destruct (a q) as [q1|c q1]; simpl in *; [rewrite Hb|]; exact Ha.
Qed.

Lemma config_sent_frame_end (q : Process) :
  b1_config_sent (final (handle_frame_end q)) = b1_config_sent q.
Proof.
  destruct (handle_frame_end_runs q) as (q' & E & _ & _ & _ & _ & _ & Hc).
  rewrite E. exact Hc.
Qed.

Ltac config_kept :=
  repeat first
    [ apply config_sent_seq; intros
    | apply config_sent_send
    | apply config_sent_frame_end
    | reflexivity ].

(** One call of the android_motion callback counts at most one more
    config buffer, and never beyond two. *)
Lemma motion_config_count (b : MMAL_BUFFER_HEADER_T) (p : Process) :
  0 <= b1_config_sent p <= 2 ->
  match encoder_buffer_callback_android_motion b p with
  | Done o => b1_config_sent p <= b1_config_sent (final o) <= 2
  | OutOfBuffer p' => b1_config_sent p <= b1_config_sent p' <= 2
  end.
Proof.
  intros Hr. unfold encoder_buffer_callback_android_motion.
  destruct (buffer_length b =? 0); [simpl; lia|].
  destruct ((b1_config_sent p <? 2)
            && has_flag b MMAL_BUFFER_HEADER_FLAG_CONFIG) eqn:Ec.
  { apply andb_true_iff in Ec. destruct Ec as (Ec & _).
    apply Z.ltb_lt in Ec.
    assert (H : b1_config_sent
                  (final ((update (fun q => set_config_sent (b1_config_sent q + 1) q) ;;
                           SendToAndroid (uint32_bytes (buffer_length b)) ;;
                           SendToAndroid (data b)) p))
                = b1_config_sent p + 1).
    { unfold and_then at 1. unfold update.
      change (b1_config_sent p + 1)
        with (b1_config_sent (set_config_sent (b1_config_sent p + 1) p)) at 2.
      unfold SendToAndroid. config_kept. }
    rewrite H. lia. }
  destruct (has_flag b MMAL_BUFFER_HEADER_FLAG_CODECSIDEINFO).
  { unfold send_motion, SendToAndroid.
    pose proof (config_sent_send 1259 [byte_of_Z MotionInFrame] p) as H1.
    destruct (send_or_exit 1259 [byte_of_Z MotionInFrame] p) as [p1|c p1];
      simpl in H1; [|simpl; lia].
    destruct (DetectMotion (data b) (mbx p1) (mby p1)) as [mot|]; [|lia].
    assert (H : forall q,
              b1_config_sent
                (final ((send_or_exit 1259 [byte_of_Z mot] ;;
                         (fun p2 =>
                            if negb (gMotionAlarm p2 =? 0) && (mot >? gMotionAlarm p2)
                            then send_or_exit 1259 [byte_of_Z MotionAlarm] p2
                            else Running p2)) q))
              = b1_config_sent q).
    { apply config_sent_seq; intros q.
      - apply config_sent_send.
      - destruct (negb (gMotionAlarm q =? 0) && (mot >? gMotionAlarm q));
          [apply config_sent_send | reflexivity]. }
    rewrite H. lia. }
  destruct (flags b =? 0).
  { destruct (p_buf_partial_begin p); simpl; lia. }
  destruct (has_flag b MMAL_BUFFER_HEADER_FLAG_FRAME_END); [|simpl; lia].
  destruct (p_buf_partial_begin p); unfold SendToAndroid;
    match goal with
    | |- _ <= b1_config_sent (final (?a p)) <= _ =>
        assert (H : forall q, b1_config_sent (final (a q)) = b1_config_sent q)
          by config_kept;
        rewrite H; lia
    end.
Qed.

(** X3.  The android_motion callback takes at most two buffers as
    configuration: over any run, under any behaviour of the socket, its
    counter of config buffers sent never decreases and never passes 2. *)
Theorem motion_config_sent_at_most_twice :
  forall (buffers : list MMAL_BUFFER_HEADER_T) (p : Process),
    0 <= b1_config_sent p <= 2 ->
    match feed_motion buffers p with
    | Done o => b1_config_sent p <= b1_config_sent (final o) <= 2
    | OutOfBuffer p' => b1_config_sent p <= b1_config_sent p' <= 2
    end.
Proof.
  induction buffers as [|b rest IH]; intros p Hr.
  - simpl. lia.
  - cbn [feed_motion]. pose proof (motion_config_count b p Hr) as H1.
    destruct (encoder_buffer_callback_android_motion b p) as [[p1|c p1]|p1];
      simpl in H1.
    + assert (Hr1 : 0 <= b1_config_sent p1 <= 2) by lia.
      specialize (IH p1 Hr1).
      destruct (feed_motion rest p1) as [o|p2]; lia.
    + simpl. lia.
    + lia.
Qed.

(** X4.  In android_motion mode a buffer taken as configuration goes out
    as length and data without a tag and is counted, while a whole frame
    goes out behind the RegularFrame tag; a CONFIG buffer that comes after
    two have been counted is sent as such a tagged frame. *)
Theorem motion_mode_tags_frames :
  forall (b : MMAL_BUFFER_HEADER_T) (p : Process),
    healthy p -> data b <> [] ->
    ((b1_config_sent p <? 2)
       && has_flag b MMAL_BUFFER_HEADER_FLAG_CONFIG = true ->
     exists p',
       encoder_buffer_callback_android_motion b p = Done (Running p')
       /\ wire p' = wire p ++ encode_frame (data b)
       /\ b1_config_sent p' = b1_config_sent p + 1)
    /\ ((b1_config_sent p <? 2)
          && has_flag b MMAL_BUFFER_HEADER_FLAG_CONFIG = false ->
        has_flag b MMAL_BUFFER_HEADER_FLAG_CODECSIDEINFO = false ->
        has_flag b MMAL_BUFFER_HEADER_FLAG_FRAME_END = true ->
        p_buf_partial_begin p = None ->
        exists p',
          encoder_buffer_callback_android_motion b p = Done (Running p')
          /\ wire p' = wire p ++ byte_of_Z RegularFrame :: encode_frame (data b)
          /\ b1_config_sent p' = b1_config_sent p).
Proof.
  intros b p Hh Hd. unfold encoder_buffer_callback_android_motion.
  rewrite (buffer_length_nonzero b Hd). split.
  - intros Hc. rewrite Hc. unfold and_then, update.
    repeat send_step. eexists. split; [reflexivity|].
    rewrite !wire_sent. unfold encode_frame, buffer_length.
    rewrite <- app_assoc. split; reflexivity.
  - intros Hc Hs He Hp.
    rewrite Hc, Hs, (has_flag_nonzero b _ He), He, Hp.
    unfold and_then. repeat send_step.
    match goal with
    | |- context [handle_frame_end ?q] =>
        destruct (handle_frame_end_runs q) as (p' & E & Hw & _ & _ & _ & _ & Hcs)
    end.
    rewrite E. exists p'. split; [reflexivity|].
    rewrite Hw, Hcs, !wire_sent. unfold encode_frame, buffer_length.
    rewrite <- !app_assoc. split; reflexivity.
Qed.

End SenderRuns.

Lemma android_wire_is_framed_witness :
  exists frames,
    wire (final (feed (encoder_buffer_callback_android (F := mmal_flags))
                   [mkBuffer [x67] 36; mkBuffer [x01; x02] 0; mkBuffer [x03] 4]
                   (start 1920 1080)))
    = wire (start 1920 1080) ++ concat (map encode_frame frames)
    /\ ((exists p', feed (encoder_buffer_callback_android (F := mmal_flags))
                     [mkBuffer [x67] 36; mkBuffer [x01; x02] 0; mkBuffer [x03] 4]
                     (start 1920 1080) = Running p')
        \/ exists p', feed (encoder_buffer_callback_android (F := mmal_flags))
                        [mkBuffer [x67] 36; mkBuffer [x01; x02] 0; mkBuffer [x03] 4]
                        (start 1920 1080) = Exited 12 p').
Proof.
  apply (android_wire_is_framed (F := mmal_flags)). apply start_healthy.
Defined.


Lemma motion_config_sent_at_most_twice_witness :
  match feed_motion (F := mmal_flags)
          [mkBuffer [x67] 36; mkBuffer [x68] 36; mkBuffer [x69] 36]
          (start 1920 1080) with
  | Done o => 0 <= b1_config_sent (final o) <= 2
  | OutOfBuffer p' => 0 <= b1_config_sent p' <= 2
  end.
Proof.
  apply (motion_config_sent_at_most_twice (F := mmal_flags)
           [mkBuffer [x67] 36; mkBuffer [x68] 36; mkBuffer [x69] 36]
           (start 1920 1080)).
  simpl. lia.
Defined.

Lemma motion_mode_tags_frames_witness :
  (exists p',
      encoder_buffer_callback_android_motion (F := mmal_flags)
        (mkBuffer [x67] 36) (start 1920 1080) = Done (Running p')
      /\ wire p' = encode_frame [x67]
      /\ b1_config_sent p' = 1)
  /\ (exists p',
        encoder_buffer_callback_android_motion (F := mmal_flags)
          (mkBuffer [x67] 36) (set_config_sent 2 (start 1920 1080))
        = Done (Running p')
        /\ wire p' = byte_of_Z RegularFrame :: encode_frame [x67]
        /\ b1_config_sent p' = 2).
Proof.
  split.
  - apply (motion_mode_tags_frames (F := mmal_flags) (mkBuffer [x67] 36)
             (start 1920 1080)); try discriminate; try reflexivity.
    apply start_healthy.
  - apply (motion_mode_tags_frames (F := mmal_flags) (mkBuffer [x67] 36)
             (set_config_sent 2 (start 1920 1080)));
      try discriminate; try reflexivity.
    constructor.
Defined.

(** ** The decoder thread over whole streams *)

Lemma int64_small (x : Z) :
  - 2 ^ 63 <= x < 2 ^ 63 -> CInt.to_signed 64 x = x.
Proof.
  unfold CInt.to_signed. intros H.
  change (2 ^ (64 - 1)) with (2 ^ 63).
  replace (2 ^ 64) with (2 * 2 ^ 63) by reflexivity.
  rewrite Z.mod_small; lia.
Qed.

Lemma stamped_app (pts : Z) (flag : DecoderThread.QueueFlag)
  (l1 l2 : list (list byte)) :
  stamped pts flag (l1 ++ l2)
  = stamped pts flag l1
    ++ stamped (pts + 666666 * Z.of_nat (List.length l1)) flag l2.
Proof.
  revert pts. induction l1 as [|f l1 IH]; intros pts.
  - simpl. rewrite Z.add_0_r. reflexivity.
  - cbn [stamped app List.length]. rewrite IH. do 3 f_equal. lia.
Qed.

Lemma unit_bytes_stamped (pts : Z) (flag : DecoderThread.QueueFlag)
  (l : list (list byte)) :
  map DecoderThread.unit_bytes (stamped pts flag l) = l.
Proof.
  revert pts. induction l as [|f l IH]; intros pts; cbn [stamped map];
    [reflexivity|]. f_equal. apply IH.
Qed.

(** The frame loop on a stream that delivers a row of frames. *)
Lemma read_frames_decodes :
  forall (payloads : list (list byte)) (d : DecoderThread.Decoder)
         (s : InputStream) (rest : list byte),
    sized DecoderThread.TCPIP_BUFFER_SIZE payloads ->
    DecoderThread.inputStream d = Some s ->
    arrives s (concat (map encode_frame payloads) ++ rest) ->
    jlength (DecoderThread.buffer d) = DecoderThread.TCPIP_BUFFER_SIZE ->
    codec_ready d DecoderThread.TCPIP_BUFFER_SIZE ->
    - 2 ^ 63 <= DecoderThread.presentationTime d ->
    DecoderThread.presentationTime d
      + 666666 * Z.of_nat (List.length payloads) < 2 ^ 63 ->
    exists d' s',
      DecoderThread.read_frames (List.length payloads) d = DecoderThread.Goes d'
      /\ DecoderThread.queued d'
         = DecoderThread.queued d
           ++ stamped (DecoderThread.presentationTime d) DecoderThread.NO_FLAG
                payloads
      /\ DecoderThread.inputStream d' = Some s'
      /\ arrives s' rest
      /\ DecoderThread.presentationTime d'
         = DecoderThread.presentationTime d
           + 666666 * Z.of_nat (List.length payloads).
Proof.
  induction payloads as [|f payloads IH];
    intros d s rest Hsz Hs Ha Hlen (Hids & Hcap) Hlo Hhi.
  - exists d, s. simpl. rewrite app_nil_r, Z.add_0_r. auto.
  - inversion Hsz as [|? ? (Hpos & Hmax) Hsz']; subst.
    cbn [map concat] in Ha. unfold encode_frame at 1 in Ha.
    rewrite <- app_assoc in Ha.
    destruct (read_frame_decodes d s f (concat (map encode_frame payloads) ++ rest)
                Hpos Hmax Hs Ha Hlen)
      as (d1 & s1 & E1 & Hq1 & Hs1 & Ha1 & Hlen1 & Hids1 & Hcap1 & Hpts1 & _).
    { destruct (DecoderThread.input_ids d) as [|i ids]; simpl; [lia|].
      inversion Hids; assumption. }
    { lia. }
    rewrite int64_small in Hpts1
      by (cbn [List.length] in Hhi; lia).
    destruct (IH d1 s1 rest Hsz' Hs1 Ha1 Hlen1)
      as (d' & s' & E & Hq & Hs' & Ha' & Hpts).
    { split; [|lia]. rewrite Hids1.
      destruct (DecoderThread.input_ids d) as [|i ids]; simpl; [constructor|].
      inversion Hids; assumption. }
    { lia. }
    { rewrite Hpts1. cbn [List.length] in Hhi. lia. }
    exists d', s'. cbn [DecoderThread.read_frames List.length]. rewrite E1.
    split; [exact E|]. split.
    { rewrite Hq, Hq1, Hpts1. cbn [stamped]. rewrite <- app_assoc. reflexivity. }
    split; [exact Hs'|]. split; [exact Ha'|].
    rewrite Hpts, Hpts1. lia.
Qed.

(** One turn of the loop that reads SPS and PPS. *)
Lemma read_config_decodes (d : DecoderThread.Decoder) (s : InputStream)
  (payload rest : list byte) :
  (0 < List.length payload)%nat ->
  Z.of_nat (List.length payload) <= DecoderThread.TCPIP_BUFFER_SIZE ->
  DecoderThread.inputStream d = Some s ->
  arrives s (encode_frame payload ++ rest) ->
  jlength (DecoderThread.buffer d) = DecoderThread.TCPIP_BUFFER_SIZE ->
  codec_ready d DecoderThread.TCPIP_BUFFER_SIZE ->
  exists d' s',
    DecoderThread.read_config d = DecoderThread.Goes d'
    /\ DecoderThread.queued d'
       = DecoderThread.queued d
         ++ [DecoderThread.mkQueued payload (DecoderThread.presentationTime d)
               DecoderThread.BUFFER_FLAG_CODEC_CONFIG]
    /\ DecoderThread.inputStream d' = Some s'
    /\ arrives s' rest
    /\ jlength (DecoderThread.buffer d') = DecoderThread.TCPIP_BUFFER_SIZE
    /\ codec_ready d' DecoderThread.TCPIP_BUFFER_SIZE
    /\ DecoderThread.presentationTime d'
       = CInt.to_signed 64 (DecoderThread.presentationTime d + 666666).
Proof.
  intros Hpos Hmax Hs Ha Hlen (Hids & Hcap).
  destruct d as [ist buf ids cap q pts cnt msg].
  cbn [DecoderThread.inputStream DecoderThread.buffer DecoderThread.input_ids
       DecoderThread.input_capacity DecoderThread.queued
       DecoderThread.presentationTime] in *.
  subst ist.
  unfold DecoderThread.TCPIP_BUFFER_SIZE, codec_ready in *.
  unfold encode_frame in Ha.
  set (L := Z.of_nat (List.length payload)) in *.
  rewrite <- app_assoc in Ha.
  destruct (read_exact_arrives buf 4 s _ Ha)
    as (b1 & s1 & E1 & Hl1 & Hc1 & Ha1 & _).
  { rewrite length_app. simpl. lia. }
  { lia. }
  { unfold CInt.INT_MAX. lia. }
  change (Z.to_nat 4) with (List.length (uint32_bytes L)) in Hc1, Ha1.
  rewrite firstn_length_app in Hc1. rewrite skipn_length_app in Ha1.
  destruct (read_exact_arrives b1 L s1 _ Ha1)
    as (b3 & s3 & E3 & Hl3 & Hc3 & Ha3 & _).
  { rewrite length_app. unfold L. lia. }
  { lia. }
  { unfold CInt.INT_MAX. lia. }
  unfold L in Hc3, Ha3. rewrite Nat2Z.id in Hc3, Ha3. fold L in Hc3.
  rewrite firstn_length_app in Hc3. rewrite skipn_length_app in Ha3.
  unfold DecoderThread.read_config.
  decoder_fields. rewrite E1. decoder_fields.
  rewrite (byteArrayToInt_uint32_bytes b1 L Hc1).
  rewrite Z.mod_small by (unfold L; lia).
  rewrite int32_small by (unfold CInt.INT_MAX, L; lia).
  rewrite E3. decoder_fields.
  assert (Hput : forall ids',
    DecoderThread.put_and_queue L DecoderThread.BUFFER_FLAG_CODEC_CONFIG
      (DecoderThread.mkDecoder (Some s3) b3 ids' cap q pts cnt msg)
    = DecoderThread.Goes
        (DecoderThread.mkDecoder (Some s3) b3 ids' cap
           (q ++ [DecoderThread.mkQueued payload pts
                    DecoderThread.BUFFER_FLAG_CODEC_CONFIG])
           (CInt.to_signed 64 (pts + 666666)) cnt msg)).
  { intros ids'. unfold DecoderThread.put_and_queue. decoder_fields.
    replace (L <? 0) with false by (symmetry; apply Z.ltb_ge; lia).
    replace (L >? jlength b3) with false
      by (symmetry; rewrite Z.gtb_ltb; apply Z.ltb_ge; lia).
    replace (L >? cap) with false
      by (symmetry; rewrite Z.gtb_ltb; apply Z.ltb_ge; lia).
    cbn [orb]. rewrite Hc3. reflexivity. }
  destruct ids as [|i ids]; decoder_fields.
  - change (0 >=? 0) with true. cbv iota. rewrite Hput.
    eexists; exists s3. split; [reflexivity|]. decoder_fields.
    repeat split; auto; try apply Ha3; lia.
  - inversion Hids as [|? ? Hi Hids']. clear Hids.
    replace (i >=? 0) with true
      by (symmetry; rewrite Z.geb_leb; apply Z.leb_le; lia).
    cbv iota. rewrite Hput.
    eexists; exists s3. split; [reflexivity|]. decoder_fields.
    repeat split; auto; try apply Ha3; lia.
Qed.

(** [run] on a stream that carries SPS, PPS and frames. *)
Lemma run_decodes_stream_aux :
  forall (sps pps : list byte) (frames : list (list byte))
         (d : DecoderThread.Decoder) (s : InputStream) (rest : list byte),
    sized DecoderThread.TCPIP_BUFFER_SIZE (sps :: pps :: frames) ->
    DecoderThread.inputStream d = Some s ->
    arrives s (encode_frame sps ++ encode_frame pps
               ++ concat (map encode_frame frames) ++ rest) ->
    codec_ready d DecoderThread.TCPIP_BUFFER_SIZE ->
    - 2 ^ 63 <= DecoderThread.presentationTime d ->
    DecoderThread.presentationTime d
      + 666666 * (Z.of_nat (List.length frames) + 2) < 2 ^ 63 ->
    exists d' s',
      DecoderThread.run (List.length frames) d = DecoderThread.Goes d'
      /\ DecoderThread.queued d'
         = DecoderThread.queued d
           ++ stamped (DecoderThread.presentationTime d)
                DecoderThread.BUFFER_FLAG_CODEC_CONFIG [sps; pps]
           ++ stamped (DecoderThread.presentationTime d + 2 * 666666)
                DecoderThread.NO_FLAG frames
      /\ DecoderThread.inputStream d' = Some s'
      /\ arrives s' rest.
Proof.
  intros sps pps frames d s rest Hsz Hs Ha Hready Hlo Hhi.
  inversion Hsz as [|? ? (Hp1 & Hm1) Hsz1]; subst.
  inversion Hsz1 as [|? ? (Hp2 & Hm2) Hsz2]; subst.
  unfold DecoderThread.run.
  set (d0 := DecoderThread.with_io
               (new_bytes DecoderThread.TCPIP_BUFFER_SIZE)
               (DecoderThread.inputStream d) d).
  assert (Hs0 : DecoderThread.inputStream d0 = Some s) by exact Hs.
  destruct (read_config_decodes d0 s sps _ Hp1 Hm1 Hs0 Ha eq_refl Hready)
    as (d1 & s1 & E1 & Hq1 & Hs1 & Ha1 & Hl1 & Hr1 & Hpts1).
  rewrite E1.
  destruct (read_config_decodes d1 s1 pps _ Hp2 Hm2 Hs1 Ha1 Hl1 Hr1)
    as (d2 & s2 & E2 & Hq2 & Hs2 & Ha2 & Hl2 & Hr2 & Hpts2).
  rewrite E2.
  change (DecoderThread.presentationTime d0)
    with (DecoderThread.presentationTime d) in *.
  change (DecoderThread.queued d0) with (DecoderThread.queued d) in *.
  rewrite int64_small in Hpts1 by lia.
  rewrite Hpts1, int64_small in Hpts2 by lia.
  destruct (read_frames_decodes frames
              (DecoderThread.setMessage EmptyString d2) s2 rest Hsz2 Hs2 Ha2
              Hl2 Hr2)
    as (d' & s' & E & Hq & Hs' & Ha' & _).
  { change (DecoderThread.presentationTime
              (DecoderThread.setMessage EmptyString d2))
      with (DecoderThread.presentationTime d2). lia. }
  { change (DecoderThread.presentationTime
              (DecoderThread.setMessage EmptyString d2))
      with (DecoderThread.presentationTime d2). lia. }
  exists d', s'. split; [exact E|]. split; [|auto].
  rewrite Hq.
  change (DecoderThread.queued (DecoderThread.setMessage EmptyString d2))
    with (DecoderThread.queued d2).
  change (DecoderThread.presentationTime
            (DecoderThread.setMessage EmptyString d2))
    with (DecoderThread.presentationTime d2).
  rewrite Hq2, Hq1, Hpts2, Hpts1. cbn [stamped].
  rewrite <- !app_assoc. cbn [app]. do 4 f_equal. lia.
Qed.

(** X5.  The decoder thread on a stream that carries the SPS, the PPS and
    then a row of frames, each behind its four length bytes and none
    longer than the buffer, delivered in pieces of any size: [run] queues
    the SPS and the PPS as codec configuration and then every frame, whole
    and in the order sent, with presentation times 666666 apart. *)
Theorem run_decodes_the_stream :
  forall (sps pps : list byte) (frames : list (list byte))
         (d : DecoderThread.Decoder) (s : InputStream) (rest : list byte),
    sized DecoderThread.TCPIP_BUFFER_SIZE (sps :: pps :: frames) ->
    DecoderThread.inputStream d = Some s ->
    arrives s (encode_frame sps ++ encode_frame pps
               ++ concat (map encode_frame frames) ++ rest) ->
    codec_ready d DecoderThread.TCPIP_BUFFER_SIZE ->
    - 2 ^ 63 <= DecoderThread.presentationTime d ->
    DecoderThread.presentationTime d
      + 666666 * (Z.of_nat (List.length frames) + 2) < 2 ^ 63 ->
    exists d' s',
      DecoderThread.run (List.length frames) d = DecoderThread.Goes d'
      /\ DecoderThread.queued d'
         = DecoderThread.queued d
           ++ stamped (DecoderThread.presentationTime d)
                DecoderThread.BUFFER_FLAG_CODEC_CONFIG [sps; pps]
           ++ stamped (DecoderThread.presentationTime d + 2 * 666666)
                DecoderThread.NO_FLAG frames
      /\ DecoderThread.inputStream d' = Some s'
      /\ arrives s' rest.
Proof. exact run_decodes_stream_aux. Qed.

Section EndToEnd.
Context {F : BufferFlags}.

Lemma android_config (b : MMAL_BUFFER_HEADER_T) (p : Process) :
  healthy p -> data b <> [] ->
  has_flag b MMAL_BUFFER_HEADER_FLAG_CONFIG = true ->
  exists p', encoder_buffer_callback_android b p = Running p'
    /\ wire p' = wire p ++ encode_frame (data b)
    /\ healthy p'
    /\ p_buf_partial_begin p' = p_buf_partial_begin p.
Proof.
  intros Hh Hd Hc. unfold encoder_buffer_callback_android.
  rewrite (buffer_length_nonzero b Hd), Hc. unfold and_then.
  repeat send_step. eexists. split; [reflexivity|].
  rewrite !wire_sent, <- app_assoc. repeat split; auto with sender.
Qed.

Lemma feed_whole_frames (ff : Z) :
  forall (frames : list (list byte)) (p : Process),
    healthy p -> p_buf_partial_begin p = None ->
    Forall (fun f => f <> []) frames ->
    (forall f, has_flag (mkBuffer f ff) MMAL_BUFFER_HEADER_FLAG_CONFIG = false) ->
    (forall f, has_flag (mkBuffer f ff) MMAL_BUFFER_HEADER_FLAG_CODECSIDEINFO = false) ->
    (forall f, has_flag (mkBuffer f ff) MMAL_BUFFER_HEADER_FLAG_FRAME_END = true) ->
    exists p',
      feed encoder_buffer_callback_android
        (map (fun f => mkBuffer f ff) frames) p = Running p'
      /\ wire p' = wire p ++ concat (map encode_frame frames).
Proof.
  induction frames as [|f frames IH]; intros p Hh Hp Hne Hc Hs He.
  - exists p. simpl. rewrite app_nil_r. auto.
  - inversion Hne as [|? ? Hf Hne']; subst.
    destruct (android_whole_frame (mkBuffer f ff) p Hh Hp Hf (Hc f) (Hs f) (He f))
      as (p1 & E1 & Hw1 & Hp1 & _ & Hh1).
    destruct (IH p1 Hh1 Hp1 Hne' Hc Hs He) as (p' & E & Hw).
    exists p'. cbn [map feed]. unfold and_then. rewrite E1.
    split; [exact E|]. rewrite Hw, Hw1. cbn [map concat].
    unfold encode_frame at 3. unfold buffer_length. simpl data.
    rewrite <- !app_assoc. reflexivity.
Qed.

(** X6.  From the sender to the receiver, in the android profile.  When
    the encoder delivers the SPS and the PPS as CONFIG buffers and then a
    row of complete frames, the callback puts them on the wire one after
    the other; and the decoder thread that reads these bytes, in whatever
    pieces they arrive, queues the same units in the same order, byte for
    byte. *)
Theorem android_stream_end_to_end :
  forall (sps pps : list byte) (frames : list (list byte)) (fc ff : Z)
         (p : Process),
    sized DecoderThread.TCPIP_BUFFER_SIZE (sps :: pps :: frames) ->
    healthy p -> p_buf_partial_begin p = None ->
    (forall f, has_flag (mkBuffer f fc) MMAL_BUFFER_HEADER_FLAG_CONFIG = true) ->
    (forall f, has_flag (mkBuffer f ff) MMAL_BUFFER_HEADER_FLAG_CONFIG = false) ->
    (forall f, has_flag (mkBuffer f ff) MMAL_BUFFER_HEADER_FLAG_CODECSIDEINFO = false) ->
    (forall f, has_flag (mkBuffer f ff) MMAL_BUFFER_HEADER_FLAG_FRAME_END = true) ->
    exists bytes p',
      feed encoder_buffer_callback_android
        (mkBuffer sps fc :: mkBuffer pps fc
           :: map (fun f => mkBuffer f ff) frames) p = Running p'
      /\ wire p' = wire p ++ bytes
      /\ forall (d : DecoderThread.Decoder) (s : InputStream) (rest : list byte),
           DecoderThread.inputStream d = Some s ->
           arrives s (bytes ++ rest) ->
           codec_ready d DecoderThread.TCPIP_BUFFER_SIZE ->
           - 2 ^ 63 <= DecoderThread.presentationTime d ->
           DecoderThread.presentationTime d
             + 666666 * (Z.of_nat (List.length frames) + 2) < 2 ^ 63 ->
           exists d',
             DecoderThread.run (List.length frames) d = DecoderThread.Goes d'
             /\ map DecoderThread.unit_bytes (DecoderThread.queued d')
                = map DecoderThread.unit_bytes (DecoderThread.queued d)
                  ++ sps :: pps :: frames.
Proof.
  intros sps pps frames fc ff p Hsz Hh Hp Hfc Hc Hs He.
  assert (Hne : Forall (fun f : list byte => f <> []) (sps :: pps :: frames)).
  { eapply Forall_impl; [|exact Hsz]. intros f (Hpos & _) ->. simpl in Hpos. lia. }
  inversion Hne as [|? ? Hn1 Hne1]; subst.
  inversion Hne1 as [|? ? Hn2 Hne2]; subst.
  destruct (android_config (mkBuffer sps fc) p Hh Hn1 (Hfc sps))
    as (p1 & E1 & Hw1 & Hh1 & Hp1).
  destruct (android_config (mkBuffer pps fc) p1 Hh1 Hn2 (Hfc pps))
    as (p2 & E2 & Hw2 & Hh2 & Hp2).
  rewrite Hp1, Hp in Hp2.
  destruct (feed_whole_frames ff frames p2 Hh2 Hp2 Hne2 Hc Hs He)
    as (p' & E & Hw).
  exists (encode_frame sps ++ encode_frame pps
          ++ concat (map encode_frame frames)), p'.
  split.
  { cbn [feed]. unfold and_then. rewrite E1, E2. exact E. }
  split.
  { rewrite Hw, Hw2, Hw1. simpl data. rewrite <- !app_assoc. reflexivity. }
  intros d s rest Hst Ha Hready Hlo Hhi.
  rewrite <- !app_assoc in Ha.
  destruct (run_decodes_stream_aux sps pps frames d s rest Hsz Hst Ha Hready
              Hlo Hhi) as (d' & s' & E' & Hq & _).
  exists d'. split; [exact E'|].
  rewrite Hq, !map_app, !unit_bytes_stamped. reflexivity.
Qed.

End EndToEnd.

Lemma sized_small :
  sized DecoderThread.TCPIP_BUFFER_SIZE [[x67]; [x68]; [x65; x01]; [x41]].
Proof.
  repeat constructor; unfold DecoderThread.TCPIP_BUFFER_SIZE; simpl; lia.
Defined.

Lemma run_decodes_the_stream_witness :
  let s := stream_of
             [encode_frame [x67] ++ encode_frame [x68];
              concat (map encode_frame [[x65; x01]; [x41]])] in
  exists d' s',
    DecoderThread.run 2 (connected s 2000000) = DecoderThread.Goes d'
    /\ DecoderThread.queued d'
       = [] ++ stamped 0 DecoderThread.BUFFER_FLAG_CODEC_CONFIG [[x67]; [x68]]
         ++ stamped (0 + 2 * 666666) DecoderThread.NO_FLAG [[x65; x01]; [x41]]
    /\ DecoderThread.inputStream d' = Some s'
    /\ arrives s' [].
Proof.
  intro s.
  apply (run_decodes_the_stream [x67] [x68] [[x65; x01]; [x41]]
           (connected s 2000000) s []).
  - apply sized_small.
  - reflexivity.
  - repeat split. repeat constructor; discriminate.
  - split; [constructor | unfold DecoderThread.TCPIP_BUFFER_SIZE; simpl; lia].
  - simpl. lia.
  - simpl. lia.
Defined.

Lemma android_stream_end_to_end_witness :
  exists bytes p',
    feed (encoder_buffer_callback_android (F := mmal_flags))
      (mkBuffer [x67] 36 :: mkBuffer [x68] 36
         :: map (fun f => mkBuffer f 4) [[x65; x01]; [x41]])
      (start 1920 1080) = Running p'
    /\ wire p' = wire (start 1920 1080) ++ bytes
    /\ exists d',
         DecoderThread.run 2 (connected (stream_of [bytes]) 2000000)
           = DecoderThread.Goes d'
         /\ map DecoderThread.unit_bytes (DecoderThread.queued d')
            = [[x67]; [x68]; [x65; x01]; [x41]].
Proof.
  destruct (android_stream_end_to_end (F := mmal_flags) [x67] [x68]
              [[x65; x01]; [x41]] 36 4 (start 1920 1080))
    as (bytes & p' & E & Hw & Hrecv).
  - apply sized_small.
  - apply start_healthy.
  - reflexivity.
  - intros f. reflexivity.
  - intros f. reflexivity.
  - intros f. reflexivity.
  - intros f. reflexivity.
  - exists bytes, p'. split; [exact E|]. split; [exact Hw|].
    apply (Hrecv (connected (stream_of [bytes]) 2000000) (stream_of [bytes]) []).
    + reflexivity.
    + assert (Hb : bytes <> []).
      { intros ->. rewrite app_nil_r in Hw.
        vm_compute in E. inversion E as [Hp]. rewrite <- Hp in Hw.
        discriminate Hw. }
      split; [simpl; reflexivity|]. split; [|reflexivity].
      repeat constructor; exact Hb.
    + split; [constructor | unfold DecoderThread.TCPIP_BUFFER_SIZE; simpl; lia].
    + simpl. lia.
    + simpl. lia.
Defined.

(** ** Lengths the frame loop refuses *)

Lemma int32_high (x : Z) :
  2 ^ 31 <= x < 2 ^ 32 -> CInt.int32 x = x - 2 ^ 32.
Proof.
  unfold CInt.int32, CInt.to_signed. intros H.
  change (2 ^ (32 - 1)) with (2 ^ 31).
  replace (x + 2 ^ 31) with ((x - 2 ^ 31) + 1 * 2 ^ 32) by lia.
  rewrite Z.mod_add by lia. rewrite Z.mod_small; lia.
Qed.

(** X7.  The guard of the frame loop.  When the four length bytes hold,
    as an unsigned number, more than 2000000, the turn ends the loop and
    queues nothing, and after the four length bytes it asks the stream
    for nothing: up to 2^31 - 1 the length is refused by the comparison
    with the buffer size; from 2^31 on it reads as a negative int, passes
    the comparison, and the turn ends at dequeueInputBuffer or on the
    IndexOutOfBoundsException of put. *)
Theorem read_frame_refuses_oversize :
  forall (d : DecoderThread.Decoder) (s : InputStream) (L : Z)
         (rest : list byte),
    DecoderThread.inputStream d = Some s ->
    arrives s (uint32_bytes L ++ rest) ->
    jlength (DecoderThread.buffer d) = DecoderThread.TCPIP_BUFFER_SIZE ->
    DecoderThread.TCPIP_BUFFER_SIZE < L < 2 ^ 32 ->
    exists d' s',
      (DecoderThread.read_frame d = DecoderThread.ReturnsEarly d'
       \/ (2 ^ 31 <= L
           /\ DecoderThread.read_frame d
              = DecoderThread.Caught IndexOutOfBoundsException d'))
      /\ DecoderThread.queued d' = DecoderThread.queued d
      /\ DecoderThread.inputStream d' = Some s'
      /\ arrives s' rest
      /\ exists l, asked s' = asked s ++ l /\ Forall (fun x => 0 < x <= 4) l.
Proof.
  intros d s L rest Hs Ha Hlen HL.
  destruct d as [ist buf ids cap q pts cnt msg].
  cbn [DecoderThread.inputStream DecoderThread.buffer DecoderThread.queued] in *.
  subst ist. unfold DecoderThread.TCPIP_BUFFER_SIZE in *.
  destruct (read_exact_arrives buf 4 s _ Ha)
    as (b1 & s1 & E1 & Hl1 & Hc1 & Ha1 & l & Hasked & Hl).
  { rewrite length_app. simpl. lia. }
  { lia. }
  { unfold CInt.INT_MAX. lia. }
  change (Z.to_nat 4) with (List.length (uint32_bytes L)) in Hc1, Ha1.
  rewrite firstn_length_app in Hc1. rewrite skipn_length_app in Ha1.
  unfold DecoderThread.read_frame. decoder_fields. rewrite E1. decoder_fields.
  rewrite (byteArrayToInt_uint32_bytes b1 L Hc1).
  rewrite Z.mod_small by lia.
  unfold DecoderThread.TCPIP_BUFFER_SIZE.
  destruct (Z_lt_ge_dec L (2 ^ 31)) as [Hlow|Hhigh].
  - rewrite int32_small by (unfold CInt.INT_MAX; lia).
    replace (L >? 2000000) with true
      by (symmetry; rewrite Z.gtb_ltb; apply Z.ltb_lt; lia).
    eexists; exists s1. split; [left; reflexivity|].
    unfold DecoderThread.setMessage. decoder_fields.
    repeat split; auto; try apply Ha1. exists l. auto.
  - rewrite int32_high by lia.
    replace (L - 2 ^ 32 >? 2000000) with false
      by (symmetry; rewrite Z.gtb_ltb; apply Z.ltb_ge; lia).
    assert (Hre : forall st,
              DecoderThread.read_exact b1 (L - 2 ^ 32) (Some st)
              = (Returns true, b1, Some st)).
    { intros st. unfold DecoderThread.read_exact.
      replace (Z.to_nat (L - 2 ^ 32)) with 0%nat by lia.
      cbn [DecoderThread.read_exact_loop].
      replace (L - 2 ^ 32 >? 0) with false
        by (symmetry; rewrite Z.gtb_ltb; apply Z.ltb_ge; lia).
      reflexivity. }
    assert (Hput : forall dd,
              DecoderThread.put_and_queue (L - 2 ^ 32) DecoderThread.NO_FLAG dd
              = DecoderThread.Caught IndexOutOfBoundsException dd).
    { intros dd. unfold DecoderThread.put_and_queue.
      replace (L - 2 ^ 32 <? 0) with true
        by (symmetry; apply Z.ltb_lt; lia).
      reflexivity. }
    destruct ids as [|i ids]; decoder_fields.
    + change (0 >=? 0) with true. cbv iota. rewrite Hre. rewrite Hput.
      eexists; exists s1. split; [right; split; [lia|reflexivity]|].
      decoder_fields. repeat split; auto; try apply Ha1. exists l. auto.
    + destruct (i >=? 0).
      * rewrite Hre. rewrite Hput.
        eexists; exists s1. split; [right; split; [lia|reflexivity]|].
        decoder_fields. repeat split; auto; try apply Ha1. exists l. auto.
      * eexists; exists s1. split; [left; reflexivity|].
        unfold DecoderThread.setMessage. decoder_fields.
        repeat split; auto; try apply Ha1. exists l. auto.
Qed.

Lemma read_frame_refuses_oversize_witness :
  let s := stream_of [[x81; x84; x1e; x00]; [x05]] in
  let d := DecoderThread.with_io (new_bytes DecoderThread.TCPIP_BUFFER_SIZE)
             (Some s) (connected s 2000000) in
  exists d' s',
    (DecoderThread.read_frame d = DecoderThread.ReturnsEarly d'
     \/ (2 ^ 31 <= 2000001
         /\ DecoderThread.read_frame d
            = DecoderThread.Caught IndexOutOfBoundsException d'))
    /\ DecoderThread.queued d' = DecoderThread.queued d
    /\ DecoderThread.inputStream d' = Some s'
    /\ arrives s' [x05]
    /\ exists l, asked s' = asked s ++ l /\ Forall (fun x => 0 < x <= 4) l.
Proof.
  intros s d.
  apply (read_frame_refuses_oversize d s 2000001 [x05]).
  - reflexivity.
  - split; [reflexivity|]. split; [|reflexivity].
    repeat constructor; discriminate.
  - reflexivity.
  - unfold DecoderThread.TCPIP_BUFFER_SIZE. lia.
Defined.

(** ** read_exact on any stream *)





Lemma TcpIpReader_loop_agrees :
  forall (fuel : nat) (buffer : jbytes) (n off : Z) (s : InputStream)
         (b' : jbytes) (s' : InputStream),
    DecoderThread.read_exact_loop fuel buffer n off s = (Returns true, b', s') ->
    TcpIpReader.read_exact_loop fuel buffer n off s = (Returns true, b', s').
Proof.
  induction fuel as [|fuel IH]; intros buffer n off s b' s' H; [discriminate|].
  cbn [DecoderThread.read_exact_loop] in H.
  cbn [TcpIpReader.read_exact_loop].
  destruct (n >? 0); [|exact H].
  destruct (read buffer off n s) as [[[r|e|] b1] s1]; [|discriminate..].
  destruct (r <? 1); [discriminate|]. apply IH, H.
Qed.

(** X9.  On a stream that delivers the bytes asked for, in pieces of any
    size, read_exact of TcpIpReader returns true with exactly these bytes
    in the buffer and leaves the rest of the stream untouched; its missing
    test of the value of read matters only when the stream ends. *)
Theorem TcpIpReader_reads_what_arrives :
  forall (fuel : nat) (buffer : jbytes) (cnt : Z) (s : InputStream)
         (bs : list byte),
    arrives s bs -> 0 <= cnt <= Z.of_nat (List.length bs) ->
    cnt <= jlength buffer -> jlength buffer <= CInt.INT_MAX ->
    (Z.to_nat cnt < fuel)%nat ->
    exists buffer' s',
      TcpIpReader.read_exact fuel buffer cnt (Some s)
        = (Returns true, buffer', Some s')
      /\ cells buffer' 0 cnt = firstn (Z.to_nat cnt) bs
      /\ arrives s' (skipn (Z.to_nat cnt) bs).
Proof.
  intros fuel buffer cnt s bs Ha Hc Hb Hm Hf.
  destruct (read_exact_loop_arrives fuel (Z.to_nat cnt) buffer 0 s bs Ha)
    as (b' & s' & E & _ & Hcells & _ & Harr & _); try lia.
  rewrite Z2Nat.id in E, Hcells by lia.
  unfold TcpIpReader.read_exact.
  rewrite (TcpIpReader_loop_agrees _ _ _ _ _ _ _ E).
  exists b', s'. auto.
Qed.

Lemma TcpIpReader_reads_what_arrives_witness :
  exists buffer' s',
    TcpIpReader.read_exact 10 (new_bytes 8) 3
      (Some (stream_of [[x01]; [x02; x03; x04]]))
    = (Returns true, buffer', Some s')
    /\ cells buffer' 0 3 = firstn (Z.to_nat 3) [x01; x02; x03; x04]
    /\ arrives s' (skipn (Z.to_nat 3) [x01; x02; x03; x04]).
Proof.
  apply (TcpIpReader_reads_what_arrives 10 (new_bytes 8) 3
           (stream_of [[x01]; [x02; x03; x04]]) [x01; x02; x03; x04]).
  - split; [reflexivity|]. split; [|reflexivity].
    repeat constructor; discriminate.
  - simpl. lia.
  - simpl. lia.
  - unfold CInt.INT_MAX. simpl. lia.
  - simpl. lia.
Defined.

(** X10.  byteArrayToInt reads the four bytes of a length in the order the
    sender stores them, as a signed number: a length below 2^31 comes out
    as itself, and one from 2^31 on comes out negative, 2^32 less. *)
Theorem byteArrayToInt_is_signed :
  forall (b : jbytes) (n : Z),
    0 <= n < 2 ^ 32 ->
    DecoderThread.byteArrayToInt (store (uint32_bytes n) 0 b)
    = if n <? 2 ^ 31 then n else n - 2 ^ 32.
Proof.
  intros b n Hn.
  rewrite (byteArrayToInt_uint32_bytes _ n)
    by (exact (cells_store (uint32_bytes n) 0 b)).
  rewrite Z.mod_small by lia.
  destruct (n <? 2 ^ 31) eqn:E.
  - apply Z.ltb_lt in E. apply int32_small. unfold CInt.INT_MAX. lia.
  - apply Z.ltb_ge in E. apply int32_high. lia.
Qed.

Lemma byteArrayToInt_is_signed_witness :
  DecoderThread.byteArrayToInt (store (uint32_bytes 4294967295) 0 (new_bytes 4))
  = if 4294967295 <? 2 ^ 31 then 4294967295 else 4294967295 - 2 ^ 32.
Proof.
  apply (byteArrayToInt_is_signed (new_bytes 4) 4294967295). lia.
Defined.

(** ** The scan of DetectMotion and the buffer *)






(** X12.  The macroblock grid main computes is the image size divided by
    16 and rounded up, for every width and height that the two unsigned
    shorts can hold. *)
Theorem macroblocks_round_up :
  forall width height : Z,
    0 <= width < 16 * 65535 -> 0 <= height < 16 * 65535 ->
    let mbx := fst (macroblocks width height) in
    let mby := snd (macroblocks width height) in
    16 * (mbx - 1) < width <= 16 * mbx
    /\ 16 * (mby - 1) < height <= 16 * mby.
Proof.
  intros width height Hw Hh.
  assert (H : forall v, 0 <= v < 16 * 65535 ->
            let m := if Z.rem v 16 =? 0 then CInt.uint16 (Z.quot v 16)
                     else CInt.uint16 (CInt.uint16 (Z.quot v 16) + 1) in
            16 * (m - 1) < v <= 16 * m).
  { intros v Hv. rewrite Z.rem_mod_nonneg, Z.quot_div_nonneg by lia.
    pose proof (Z.div_mod v 16 ltac:(lia)) as Hdm.
    pose proof (Z.mod_pos_bound v 16 ltac:(lia)) as Hmb.
    assert (Hq : 0 <= v / 16 < 65535).
    { split; [apply Z.div_pos; lia | apply Z.div_lt_upper_bound; lia]. }
    unfold CInt.uint16, CInt.to_unsigned. change (2 ^ 16) with 65536.
    rewrite (Z.mod_small (v / 16)) by lia.
    destruct (v mod 16 =? 0) eqn:E; cbv zeta.
    - apply Z.eqb_eq in E. lia.
    - apply Z.eqb_neq in E. rewrite Z.mod_small by lia. lia. }
  unfold macroblocks. cbn [fst snd]. split; [apply (H width Hw)|apply (H height Hh)].
Qed.

Lemma macroblocks_round_up_witness :
  16 * (fst (macroblocks 1920 1080) - 1) < 1920 <= 16 * fst (macroblocks 1920 1080)
  /\ 16 * (snd (macroblocks 1920 1080) - 1) < 1080
     <= 16 * snd (macroblocks 1920 1080).
Proof.
  apply (macroblocks_round_up 1920 1080); lia.
Defined.

(** ** The command loop *)

(** X13.  getline cuts the text of the control channel into lines without
    losing or adding a character: the lines put together give the text
    back, every line but the last ends with the only newline it has, and
    a last line without a newline is not empty. *)
Theorem getlines_cuts_at_newlines :
  forall text : string,
    join (getlines text) = text
    /\ exists bodies last,
         getlines text = map (fun b => (b ++ newline)%string) bodies ++ last
         /\ Forall (fun b => no_newline b = true) bodies
         /\ (last = []
             \/ exists b, last = [b] /\ b <> EmptyString /\ no_newline b = true).
Proof.
  induction text as [|c text (IHj & bodies & last & IHg & IHb & IHl)].
  - split; [reflexivity|]. exists [], []. simpl. auto.
  - cbn [getlines]. destruct (Ascii.eqb c "010") eqn:Ec.
    + apply Ascii.eqb_eq in Ec. subst c. split.
      * cbn [join fold_right]. fold (join (getlines text)). rewrite IHj.
        reflexivity.
      * exists (EmptyString :: bodies), last. rewrite IHg.
        split; [reflexivity|]. split; [constructor; auto|exact IHl].
    + destruct (getlines text) as [|l ls] eqn:Eg.
      * split.
        -- simpl in IHj. subst text. reflexivity.
        -- exists [], [String c EmptyString]. split; [reflexivity|].
           split; [constructor|]. right. exists (String c EmptyString).
           split; [reflexivity|]. split; [discriminate|].
           simpl. rewrite Ec. reflexivity.
      * split.
        -- cbn [join fold_right] in *. rewrite <- IHj. reflexivity.
        -- destruct bodies as [|b bodies].
           ++ simpl in IHg. destruct IHl as [->|(b & -> & Hb & Hn)];
                [discriminate|].
              inversion IHg; subst.
              exists [], [String c b]. split; [reflexivity|].
              split; [constructor|]. right. exists (String c b).
              split; [reflexivity|]. split; [discriminate|].
              simpl. rewrite Ec. exact Hn.
           ++ simpl in IHg. inversion IHg; subst.
              inversion IHb; subst.
              exists (String c b :: bodies), last.
              split; [reflexivity|]. split; [|exact IHl].
              constructor; [|assumption]. simpl. rewrite Ec. assumption.
Qed.

Lemma command_keeps_alarm_vectors (line : string) (p : Process) :
  alarm_has_vectors p -> alarm_has_vectors (command line p).
Proof.
  unfold alarm_has_vectors, command. intros H.
  destruct (strncmp_eq "iso=" line).
  { destruct (sscanf_d "iso=" line); exact H. }
  destruct (strncmp_eq "ss=" line).
  { destruct (sscanf_d "ss=" line); exact H. }
  destruct (strncmp_eq "stat=" line).
  { destruct (sscanf_d "stat=" line); cbv zeta;
      match goal with |- context [if ?c then _ else _] => destruct c end;
      exact H. }
  destruct (strncmp_eq "motion=" line).
  { destruct (gMotionAlarm p =? 0) eqn:E; [|exact H].
    apply Z.eqb_eq in E.
    destruct (sscanf_d "motion=" line) as [v|]; [|exact H].
    unfold SwitchMotionVectorsOnFly.
    destruct (inline_vectors p =? v); [exact H|].
    simpl. intros Hne. contradiction. }
  destruct (strncmp_eq "move=" line); [exact H|].
  destruct (strncmp_eq "mot_alarm=" line); [|exact H].
  destruct (sscanf_d "mot_alarm=" line) as [v|]; [|exact H].
  cbv zeta. unfold SwitchMotionVectorsOnFly.
  change (gMotionAlarm (set_alarm v p)) with v.
  change (inline_vectors (set_alarm v p)) with (inline_vectors p).
  destruct (v =? 0) eqn:Ev.
  - apply Z.eqb_eq in Ev. subst v.
    destruct (inline_vectors p =? 0); simpl; intros Hne; contradiction.
  - destruct (inline_vectors p =? 1) eqn:E1.
    + apply Z.eqb_eq in E1. simpl. intros _. exact E1.
    + simpl. intros _. reflexivity.
Qed.

(** X14.  Whatever commands arrive, once the encoder delivers motion
    vectors whenever the motion alarm is armed, it goes on doing so: a
    "motion=" line cannot switch the vectors off while the threshold is
    not 0, and a "mot_alarm=" line that arms the alarm switches them on. *)
Theorem alarm_keeps_motion_vectors :
  forall (text : string) (p : Process),
    alarm_has_vectors p -> alarm_has_vectors (receive_commands text p).
Proof.
  intros text p. unfold receive_commands, run_commands.
  generalize (getlines text). intros lines. revert p.
  induction lines as [|line lines IH]; intros p H; [exact H|].
  cbn [fold_left]. apply IH, command_keeps_alarm_vectors, H.
Qed.

Lemma alarm_keeps_motion_vectors_witness :
  alarm_has_vectors
    (receive_commands ("mot_alarm=15" ++ newline ++ "motion=0" ++ newline)
       (start 1920 1080)).
Proof.
  apply (alarm_keeps_motion_vectors
           ("mot_alarm=15" ++ newline ++ "motion=0" ++ newline)
           (start 1920 1080)).
  unfold alarm_has_vectors. simpl. intros H. exfalso. apply H. reflexivity.
Defined.



Lemma motion_prefix_excludes (line : string) :
  strncmp_eq "motion=" line = true ->
  strncmp_eq "iso=" line = false /\ strncmp_eq "ss=" line = false
  /\ strncmp_eq "stat=" line = false.
Proof.
  unfold strncmp_eq. destruct line as [|c line]; [discriminate|].
  cbn [prefix]. destruct (ascii_dec "m" c) as [<-|Hne]; [|discriminate].
  intros _. repeat split.
Qed.

(** X16.  While the motion alarm is armed (threshold not 0) a "motion="
    line is ignored altogether, whatever its value. *)
Theorem motion_command_ignored_while_armed :
  forall (line : string) (p : Process),
    strncmp_eq "motion=" line = true ->
    gMotionAlarm p <> 0 ->
    command line p = p.
Proof.
  intros line p Hm Ha. unfold command.
  destruct (motion_prefix_excludes line Hm) as (H1 & H2 & H3).
  rewrite H1, H2, H3, Hm.
  replace (gMotionAlarm p =? 0) with false
    by (symmetry; apply Z.eqb_neq; exact Ha).
  reflexivity.
Qed.

Lemma motion_command_ignored_while_armed_witness :
  command ("motion=0" ++ newline) (set_alarm 15 (set_vectors 1 (start 1920 1080)))
  = set_alarm 15 (set_vectors 1 (start 1920 1080)).
Proof.
  apply (motion_command_ignored_while_armed ("motion=0" ++ newline)
           (set_alarm 15 (set_vectors 1 (start 1920 1080)))).
  - reflexivity.
  - simpl. discriminate.
Defined.

(** ** The crop rectangle *)

Ltac crop_fields :=
  cbv beta iota zeta
      delta [move_crop zoom_out_axis Ascii.eqb Bool.eqb andb
             rect_x rect_y rect_width rect_height].



(** X18.  Zooming in and then out again restores the horizontal extent of
    the view but not the vertical one: the step that widens the view
    vertically stands twice in the zoom-out branch, so the height ends
    6553 larger than it was and the top edge up to 3276 higher. *)
Theorem zoom_in_then_out :
  forall r : MMAL_RECT_T,
    on_sensor r ->
    rect_x r + rect_width r + 3276 < 65536 ->
    rect_y r + rect_height r + 6553 < 65536 ->
    move_crop "o" (move_crop "i" r)
    = mkRect (rect_x r) (Z.max 0 (rect_y r - 3276))
             (rect_width r) (rect_height r + 6553).
Proof.
  intros [x y w h] (Hx & Hy & Hw & Hh & _ & _) Hxw Hyh. simpl in *.
  crop_fields.
  change (Z.quot 65536 10) with 6553. change (Z.quot 6553 2) with 3276.
  replace (x + 3276 + (w - 6553) + 6553 <? 65536) with true
    by (symmetry; apply Z.ltb_lt; lia).
  replace (y + 3276 + (h - 6553) + 6553 <? 65536) with true
    by (symmetry; apply Z.ltb_lt; lia).
  replace (y + 3276 - 3276 + (h - 6553 + 6553) + 6553 <? 65536) with true
    by (symmetry; apply Z.ltb_lt; lia).
  replace (x + 3276 - 3276 <? 0) with false by (symmetry; apply Z.ltb_ge; lia).
  replace (x + 3276 - 3276 >? 65536) with false
    by (symmetry; rewrite Z.gtb_ltb; apply Z.ltb_ge; lia).
  destruct (y + 3276 - 3276 - 3276 <? 0) eqn:E.
  - apply Z.ltb_lt in E. change (0 >? 65536) with false. cbv iota.
    f_equal; lia.
  - apply Z.ltb_ge in E.
    replace (y + 3276 - 3276 - 3276 >? 65536) with false
      by (symmetry; rewrite Z.gtb_ltb; apply Z.ltb_ge; lia).
    f_equal; lia.
Qed.

Lemma zoom_in_then_out_witness :
  move_crop "o" (move_crop "i" (mkRect 10000 10000 20000 20000))
  = mkRect 10000 (Z.max 0 (10000 - 3276)) 20000 (20000 + 6553).
Proof.
  apply (zoom_in_then_out (mkRect 10000 10000 20000 20000));
    unfold on_sensor; simpl; lia.
Defined.

(** ** The Raspberry Pi receiver *)

Lemma uint32_small (x : Z) : 0 <= x < 2 ^ 32 -> CInt.uint32 x = x.
Proof. intros H. unfold CInt.uint32, CInt.to_unsigned. apply Z.mod_small, H. Qed.

(** The main loop on a socket whose peer closes after the data. *)
Lemma main_loop_passes_through :
  forall (turns : nat) (nAllocLen : Z) (c : RpiClient.Client),
    0 < nAllocLen < 2 ^ 32 ->
    Forall (fun piece => piece <> []) (RpiClient.incoming c) ->
    RpiClient.closing c = RpiClient.PeerClosed ->
    (List.length (concat (RpiClient.incoming c)) < turns)%nat ->
    exists c',
      RpiClient.main_loop turns nAllocLen c = RpiClient.Exits 1 c'
      /\ concat (map snd (RpiClient.emptied c'))
         = concat (map snd (RpiClient.emptied c)) ++ concat (RpiClient.incoming c)
      /\ (Forall (fun e => fst e = Z.of_nat (List.length (snd e)))
                 (RpiClient.emptied c) ->
          Forall (fun e => fst e = Z.of_nat (List.length (snd e)))
                 (RpiClient.emptied c')).
Proof.
  induction turns as [|turns IH]; intros nAllocLen c Hn Hne Hcl Ht; [lia|].
  destruct c as [inc cl em]. simpl in Hne, Hcl, Ht. subst cl.
  cbn [RpiClient.main_loop].
  unfold RpiClient.read_into_buffer_and_empty, RpiClient.recv.
  cbn [RpiClient.incoming RpiClient.closing RpiClient.emptied].
  destruct inc as [|piece rest].
  - change (CInt.uint32 0 <=? 0) with true. cbv iota.
    eexists. split; [reflexivity|]. simpl. rewrite app_nil_r. auto.
  - inversion Hne as [|? ? Hp Hrest]; subst.
    set (k := Nat.min (Z.to_nat nAllocLen) (List.length piece)).
    assert (Hk1 : (1 <= k)%nat).
    { unfold k. destruct piece; [contradiction|simpl; lia]. }
    assert (Hk2 : (k <= List.length piece)%nat) by (unfold k; lia).
    assert (Hk3 : Z.of_nat k < 2 ^ 32) by (unfold k; lia).
    rewrite uint32_small by lia.
    replace (Z.of_nat k <=? 0) with false by (symmetry; apply Z.leb_gt; lia).
    cbv iota.
    match goal with
    | |- context [RpiClient.main_loop turns nAllocLen ?c1] =>
        destruct (IH nAllocLen c1 Hn) as (c' & E & Hcat & Hall)
    end.
    { cbn [RpiClient.incoming].
      destruct (skipn k piece) eqn:Es; [assumption|].
      constructor; [discriminate|assumption]. }
    { reflexivity. }
    { cbn [RpiClient.incoming].
      assert (Hl : List.length (concat (match skipn k piece with
                                        | [] => rest
                                        | _ :: _ => skipn k piece :: rest
                                        end))
                   = (List.length (concat (piece :: rest)) - k)%nat).
      { replace (concat (match skipn k piece with
                         | [] => rest
                         | _ :: _ => skipn k piece :: rest
                         end)) with (skipn k piece ++ concat rest)
          by (destruct (skipn k piece); reflexivity).
        cbn [concat]. rewrite !length_app, length_skipn. lia. }
      rewrite Hl. cbn [concat] in *. rewrite length_app in *. lia. }
    exists c'. split; [exact E|]. split.
    + rewrite Hcat. cbn [RpiClient.emptied RpiClient.incoming].
      rewrite map_app, concat_app. cbn [map snd concat].
      rewrite app_nil_r, <- app_assoc. f_equal.
      replace (concat (match skipn k piece with
                       | [] => rest
                       | _ :: _ => skipn k piece :: rest
                       end)) with (skipn k piece ++ concat rest)
        by (destruct (skipn k piece); reflexivity).
      rewrite app_assoc, firstn_skipn. reflexivity.
    + intros Hem. apply Hall. cbn [RpiClient.emptied].
      apply Forall_app. split; [exact Hem|].
      constructor; [|constructor]. cbn [fst snd].
      rewrite length_firstn. f_equal. lia.
Qed.

(** X19.  The Raspberry Pi receiver hands the decoder the stream as it
    comes: when the peer closes after sending its data, the program ends
    with exit code 1, and the buffers it has emptied into the decoder
    hold, in order and with nothing lost or added, exactly the bytes
    received, each buffer with its true length. *)
Theorem rpi_client_passes_the_stream :
  forall (turns : nat) (nAllocLen : Z) (pieces : list (list byte)),
    0 < nAllocLen < 2 ^ 32 ->
    Forall (fun piece => piece <> []) pieces ->
    (List.length (concat pieces) < turns)%nat ->
    exists c',
      RpiClient.main_loop turns nAllocLen
        (RpiClient.mkClient pieces RpiClient.PeerClosed [])
      = RpiClient.Exits 1 c'
      /\ concat (map snd (RpiClient.emptied c')) = concat pieces
      /\ Forall (fun e => fst e = Z.of_nat (List.length (snd e)))
                (RpiClient.emptied c').
Proof.
  intros turns nAllocLen pieces Hn Hne Ht.
  destruct (main_loop_passes_through turns nAllocLen
              (RpiClient.mkClient pieces RpiClient.PeerClosed []) Hn Hne eq_refl Ht)
    as (c' & E & Hcat & Hall).
  exists c'. split; [exact E|]. split; [exact Hcat|]. apply Hall. constructor.
Qed.

Lemma rpi_client_passes_the_stream_witness :
  exists c',
    RpiClient.main_loop 10 2
      (RpiClient.mkClient [[x01; x02; x03]; [x04]] RpiClient.PeerClosed [])
    = RpiClient.Exits 1 c'
    /\ concat (map snd (RpiClient.emptied c')) = concat [[x01; x02; x03]; [x04]]
    /\ Forall (fun e => fst e = Z.of_nat (List.length (snd e)))
              (RpiClient.emptied c').
Proof.
  apply (rpi_client_passes_the_stream 10 2 [[x01; x02; x03]; [x04]]).
  - lia.
  - repeat constructor; discriminate.
  - simpl. lia.
Defined.

(** X20.  An error of recv does not end the Raspberry Pi receiver: the -1
    is stored in the unsigned nFilledLen, where it reads 4294967295 and
    passes the test for a closed connection, so every turn of the main
    loop hands the decoder one more buffer of that length. *)
Theorem rpi_client_misses_recv_errors :
  forall (turns : nat) (nAllocLen : Z) (c : RpiClient.Client),
    RpiClient.incoming c = [] ->
    RpiClient.closing c = RpiClient.RecvError ->
    RpiClient.main_loop turns nAllocLen c
    = RpiClient.Goes
        (RpiClient.mkClient [] RpiClient.RecvError
           (RpiClient.emptied c ++ repeat (4294967295, []) turns)).
Proof.
  induction turns as [|turns IH]; intros nAllocLen c Hi Hc.
  - destruct c as [inc cl em]. simpl in *. subst. rewrite app_nil_r. reflexivity.
  - destruct c as [inc cl em]. simpl in Hi, Hc. subst.
    cbn [RpiClient.main_loop].
    unfold RpiClient.read_into_buffer_and_empty, RpiClient.recv.
    cbn [RpiClient.incoming RpiClient.closing RpiClient.emptied].
    change (CInt.uint32 (-1)) with 4294967295.
    change (4294967295 <=? 0) with false. cbv iota.
    rewrite IH by reflexivity.
    cbn [RpiClient.emptied repeat]. rewrite <- app_assoc. reflexivity.
Qed.

Lemma rpi_client_misses_recv_errors_witness :
  RpiClient.main_loop 2 65536 (RpiClient.mkClient [] RpiClient.RecvError [])
  = RpiClient.Goes
      (RpiClient.mkClient [] RpiClient.RecvError
         ([] ++ repeat (4294967295, []) 2)).
Proof.
  apply (rpi_client_misses_recv_errors 2 65536
           (RpiClient.mkClient [] RpiClient.RecvError [])); reflexivity.
Defined.

(** ** The callbacks that do no framing *)

Lemma count_cons {A : Type} (f : A -> bool) (a : A) (l : list A) :
  count f (a :: l) = (if f a then 1 else 0) + count f l.
Proof.
  unfold count. cbn [filter]. destruct (f a); cbn [List.length]; lia.
Qed.

Section PlainCallbacks.
Context {F : BufferFlags}.

Lemma empty_one (b : MMAL_BUFFER_HEADER_T) (p : Process) :
  exists p', encoder_buffer_callback_empty b p = Running p'
    /\ wire p' = wire p /\ sock p' = sock p
    /\ i64FramesCnt p' = i64FramesCnt p + (if ends_frame b then 1 else 0).
Proof.
  unfold encoder_buffer_callback_empty, ends_frame.
  destruct (buffer_length b =? 0); cbn [negb andb].
  { exists p. repeat split; lia. }
  destruct (has_flag b MMAL_BUFFER_HEADER_FLAG_CODECSIDEINFO); cbn [negb andb].
  { exists p. repeat split; lia. }
  destruct (has_flag b MMAL_BUFFER_HEADER_FLAG_FRAME_END).
  - destruct (handle_frame_end_runs p) as (p' & E & Hw & Hs & _ & Hi & _).
    exists p'. auto.
  - exists p. repeat split; lia.
Qed.

Lemma empty_mode_only_counts_aux (buffers : list MMAL_BUFFER_HEADER_T)
  (p : Process) :
  exists p',
    feed encoder_buffer_callback_empty buffers p = Running p'
    /\ wire p' = wire p /\ sock p' = sock p
    /\ i64FramesCnt p' = i64FramesCnt p + count ends_frame buffers.
Proof.
  revert p. induction buffers as [|b rest IH]; intros p.
  - exists p. unfold count. cbn. repeat split; lia.
  - cbn [feed]. unfold and_then.
    destruct (empty_one b p) as (p1 & E1 & Hw1 & Hs1 & Hi1). rewrite E1.
    destruct (IH p1) as (p' & E & Hw & Hs & Hi).
    exists p'. rewrite count_cons. repeat split; try congruence. lia.
Qed.

(** X21.  The empty callback only counts: whatever buffers the encoder
    delivers and whatever the state of the socket, nothing is sent, the
    process keeps running, and the frame counter goes up by the number of
    buffers that are not empty, carry no side information and end a
    frame. *)
Theorem empty_mode_only_counts :
  forall (buffers : list MMAL_BUFFER_HEADER_T) (p : Process),
    exists p',
      feed encoder_buffer_callback_empty buffers p = Running p'
      /\ wire p' = wire p /\ sock p' = sock p
      /\ i64FramesCnt p' = i64FramesCnt p + count ends_frame buffers.
Proof. exact empty_mode_only_counts_aux. Qed.

Lemma raw_tcp_step (b : MMAL_BUFFER_HEADER_T) (p : Process) :
  healthy p ->
  exists p', encoder_buffer_callback_raw_tcp b p = Running p'
    /\ wire p' = wire p ++ raw_payload b /\ healthy p'
    /\ i64FramesCnt p' = i64FramesCnt p + (if ends_frame b then 1 else 0).
Proof.
  intros Hh. unfold encoder_buffer_callback_raw_tcp, raw_payload, ends_frame.
  destruct (buffer_length b =? 0) eqn:E0; cbn [negb andb].
  - apply buffer_length_zero in E0. exists p. rewrite E0.
    destruct (has_flag b _); rewrite app_nil_r; repeat split; auto; lia.
  - destruct (has_flag b MMAL_BUFFER_HEADER_FLAG_CODECSIDEINFO); cbn [negb andb].
    + exists p. rewrite app_nil_r. repeat split; auto; lia.
    + unfold and_then. send_step.
      destruct (has_flag b MMAL_BUFFER_HEADER_FLAG_FRAME_END).
      * destruct (handle_frame_end_runs (sent (data b) p))
          as (p' & E & Hw & Hk & _ & Hi & _).
        exists p'. rewrite E, Hw. repeat split; auto.
        unfold healthy. rewrite Hk. apply sent_healthy, Hh.
      * exists (sent (data b) p). unfold skip.
        repeat split; auto with sender.
        change (i64FramesCnt (sent (data b) p)) with (i64FramesCnt p). lia.
Qed.

Lemma raw_tcp_feed (buffers : list MMAL_BUFFER_HEADER_T) (p : Process) :
  healthy p ->
  exists p', feed encoder_buffer_callback_raw_tcp buffers p = Running p'
    /\ wire p' = wire p ++ concat (map raw_payload buffers)
    /\ healthy p'
    /\ i64FramesCnt p' = i64FramesCnt p + count ends_frame buffers.
Proof.
  revert p. induction buffers as [|b rest IH]; intros p Hh.
  - exists p. unfold count. cbn. rewrite app_nil_r. repeat split; auto; lia.
  - cbn [feed]. unfold and_then.
    destruct (raw_tcp_step b p Hh) as (p1 & E1 & Hw1 & Hh1 & Hi1). rewrite E1.
    destruct (IH p1 Hh1) as (p' & E & Hw & Hh' & Hi).
    exists p'. rewrite count_cons. cbn [map concat].
    rewrite E, Hw, Hw1, <- app_assoc. repeat split; auto. lia.
Qed.

(** X22.  The frame counter does not depend on whether the stream is
    sent: on a socket that takes every send whole, the raw_tcp callback
    and the empty callback leave the same frame counter after the same
    buffers. *)
Theorem raw_tcp_counts_like_empty :
  forall (buffers : list MMAL_BUFFER_HEADER_T) (p : Process),
    healthy p ->
    i64FramesCnt (final (feed encoder_buffer_callback_raw_tcp buffers p))
    = i64FramesCnt (final (feed encoder_buffer_callback_empty buffers p)).
Proof.
  intros buffers p Hh.
  destruct (raw_tcp_feed buffers p Hh) as (p1 & E1 & _ & _ & Hi1).
  destruct (empty_mode_only_counts_aux buffers p) as (p2 & E2 & _ & _ & Hi2).
  rewrite E1, E2. cbn [final]. lia.
Qed.

(** X23.  From the sender to the Raspberry Pi receiver, in raw_tcp mode.
    On a socket that takes every send whole the sender puts the data of
    the buffers on the wire; and the receiver that gets these bytes, in
    whatever pieces the network delivers them and whatever the size of
    the decoder's input buffers, hands the decoder exactly the data of
    the buffers that are not side information, in order, until the
    sender closes the connection and the receiver exits with code 1. *)
Theorem raw_tcp_stream_end_to_end :
  forall (buffers : list MMAL_BUFFER_HEADER_T) (p : Process),
    healthy p ->
    exists bytes p',
      feed encoder_buffer_callback_raw_tcp buffers p = Running p'
      /\ wire p' = wire p ++ bytes
      /\ forall (pieces : list (list byte)) (turns : nat) (nAllocLen : Z),
           concat pieces = bytes ->
           Forall (fun piece => piece <> []) pieces ->
           0 < nAllocLen < 2 ^ 32 ->
           (List.length bytes < turns)%nat ->
           exists c',
             RpiClient.main_loop turns nAllocLen
               (RpiClient.mkClient pieces RpiClient.PeerClosed [])
             = RpiClient.Exits 1 c'
             /\ concat (map snd (RpiClient.emptied c'))
                = concat (map raw_payload buffers).
Proof.
  intros buffers p Hh.
  destruct (raw_tcp_feed buffers p Hh) as (p' & E & Hw & _ & _).
  exists (concat (map raw_payload buffers)), p'.
  split; [exact E|]. split; [exact Hw|].
  intros pieces turns nAllocLen Hcat Hne Hn Ht.
  destruct (main_loop_passes_through turns nAllocLen
              (RpiClient.mkClient pieces RpiClient.PeerClosed []) Hn Hne eq_refl)
    as (c' & Ec & Hc & _).
  { cbn [RpiClient.incoming]. rewrite Hcat. exact Ht. }
  exists c'. split; [exact Ec|].
  rewrite Hc. cbn [RpiClient.emptied RpiClient.incoming map concat].
  rewrite Hcat. reflexivity.
Qed.

End PlainCallbacks.

Lemma raw_tcp_counts_like_empty_witness :
  i64FramesCnt
    (final (feed (encoder_buffer_callback_raw_tcp (F := mmal_flags))
              [mkBuffer [x01; x02] 0; mkBuffer [x03] 4] (start 1920 1080)))
  = i64FramesCnt
      (final (feed (encoder_buffer_callback_empty (F := mmal_flags))
                [mkBuffer [x01; x02] 0; mkBuffer [x03] 4] (start 1920 1080))).
Proof.
  apply (raw_tcp_counts_like_empty (F := mmal_flags)). apply start_healthy.
Defined.

Lemma raw_tcp_stream_end_to_end_witness :
  exists bytes p',
    feed (encoder_buffer_callback_raw_tcp (F := mmal_flags))
      [mkBuffer [x01; x02] 0; mkBuffer [x09] 128; mkBuffer [x03] 4]
      (start 1920 1080) = Running p'
    /\ wire p' = wire (start 1920 1080) ++ bytes
    /\ forall (pieces : list (list byte)) (turns : nat) (nAllocLen : Z),
         concat pieces = bytes ->
         Forall (fun piece => piece <> []) pieces ->
         0 < nAllocLen < 2 ^ 32 ->
         (List.length bytes < turns)%nat ->
         exists c',
           RpiClient.main_loop turns nAllocLen
             (RpiClient.mkClient pieces RpiClient.PeerClosed [])
           = RpiClient.Exits 1 c'
           /\ concat (map snd (RpiClient.emptied c'))
              = concat (map (raw_payload (F := mmal_flags))
                          [mkBuffer [x01; x02] 0; mkBuffer [x09] 128;
                           mkBuffer [x03] 4]).
Proof.
  apply (raw_tcp_stream_end_to_end (F := mmal_flags)). apply start_healthy.
Defined.

(** ** More of the control channel *)

Lemma command_mot_alarm (n : Z) (p : Process) :
  CInt.INT_MIN <= n <= CInt.INT_MAX ->
  command ("mot_alarm=" ++ decimal n ++ newline) p
  = SwitchMotionVectorsOnFly (if n =? 0 then 0 else 1) (set_alarm n p).
Proof.
  intros Hn. unfold command, strncmp_eq, sscanf_d.
  change (prefix "iso=" ("mot_alarm=" ++ decimal n ++ newline)) with false.
  change (prefix "ss=" ("mot_alarm=" ++ decimal n ++ newline)) with false.
  change (prefix "stat=" ("mot_alarm=" ++ decimal n ++ newline)) with false.
  change (prefix "motion=" ("mot_alarm=" ++ decimal n ++ newline)) with false.
  change (prefix "move=" ("mot_alarm=" ++ decimal n ++ newline)) with false.
  cbv iota.
  rewrite prefix_append, drop_prefix_append.
  rewrite scan_d_decimal by (auto; reflexivity). reflexivity.
Qed.

Lemma command_stat (n : Z) (p : Process) :
  CInt.INT_MIN <= n <= CInt.INT_MAX ->
  command ("stat=" ++ decimal n ++ newline) p
  = if n =? 0 then call_camera (annotate EmptyString) (set_stat n p)
    else set_stat n p.
Proof.
  intros Hn. unfold command, strncmp_eq, sscanf_d.
  change (prefix "iso=" ("stat=" ++ decimal n ++ newline)) with false.
  change (prefix "ss=" ("stat=" ++ decimal n ++ newline)) with false.
  cbv iota.
  rewrite prefix_append, drop_prefix_append.
  rewrite scan_d_decimal by (auto; reflexivity). reflexivity.
Qed.

(** X24.  Setting the alarm threshold again does not restart the encoder
    again: after the lines "mot_alarm=n" and "mot_alarm=m" with n and m
    not 0, the threshold is m, the encoder delivers motion vectors, and it
    has been restarted once if it delivered none before and not at all if
    it did. *)
Theorem alarm_restarts_encoder_once :
  forall (n m : Z) (p : Process),
    CInt.INT_MIN <= n <= CInt.INT_MAX -> n <> 0 ->
    CInt.INT_MIN <= m <= CInt.INT_MAX -> m <> 0 ->
    let p' := run_commands ["mot_alarm=" ++ decimal n ++ newline;
                            "mot_alarm=" ++ decimal m ++ newline]%string p in
    gMotionAlarm p' = m
    /\ inline_vectors p' = 1
    /\ camera p' = camera p ++ (if inline_vectors p =? 1 then []
                                else [encode_inline_vectors 1]).
Proof.
  intros n m p Hn Hn0 Hm Hm0. unfold run_commands. cbn [fold_left].
  rewrite (command_mot_alarm n) by exact Hn.
  rewrite (command_mot_alarm m) by exact Hm.
  apply Z.eqb_neq in Hn0, Hm0. rewrite Hn0, Hm0.
  destruct p as [w s pb c g r i x y v cam cr].
  unfold SwitchMotionVectorsOnFly, set_alarm, call_camera, set_vectors.
  cbn [inline_vectors gMotionAlarm camera wire sock p_buf_partial_begin
       b1_config_sent runTimeShowStat i64FramesCnt mbx mby crop].
  destruct (v =? 1) eqn:Ev.
  - cbn [inline_vectors gMotionAlarm camera]. rewrite Ev.
    cbn [inline_vectors gMotionAlarm camera]. rewrite app_nil_r.
    apply Z.eqb_eq in Ev. auto.
  - change (1 =? 0) with false. cbv iota.
    cbn [inline_vectors gMotionAlarm camera wire sock p_buf_partial_begin
         b1_config_sent runTimeShowStat i64FramesCnt mbx mby crop].
    change (1 =? 1) with true. cbv iota.
    cbn [inline_vectors gMotionAlarm camera]. auto.
Qed.

Lemma alarm_restarts_encoder_once_witness :
  let p' := run_commands ["mot_alarm=" ++ decimal 30 ++ newline;
                          "mot_alarm=" ++ decimal 50 ++ newline]%string
              (start 1920 1080) in
  gMotionAlarm p' = 50
  /\ inline_vectors p' = 1
  /\ camera p' = camera (start 1920 1080)
                 ++ (if inline_vectors (start 1920 1080) =? 1 then []
                     else [encode_inline_vectors 1]).
Proof.
  apply (alarm_restarts_encoder_once 30 50 (start 1920 1080));
    unfold CInt.INT_MIN, CInt.INT_MAX; lia.
Defined.

(** X25.  The statistics overlay follows the "stat=" line.  After
    "stat=0" the overlay text has been cleared once and the end of a frame
    touches the camera no more; after "stat=n" with n not 0 every end of a
    frame sets the overlay text once.  The frame is counted in both
    cases. *)
Theorem stat_command_switches_overlay :
  forall (n : Z) (p : Process),
    CInt.INT_MIN <= n <= CInt.INT_MAX ->
    let p1 := command ("stat=" ++ decimal n ++ newline) p in
    exists p2,
      handle_frame_end p1 = Running p2
      /\ i64FramesCnt p2 = i64FramesCnt p + 1
      /\ camera p1 = camera p ++ (if n =? 0 then [annotate EmptyString] else [])
      /\ camera p2 = camera p1 ++ (if n =? 0 then [] else [annotate EmptyString]).
Proof.
  intros n p Hn. cbv zeta. rewrite command_stat by exact Hn.
  destruct p as [w s pb c g r i x y v cam cr].
  unfold handle_frame_end, set_stat, set_frames, call_camera.
  destruct (n =? 0) eqn:E;
    cbn [inline_vectors gMotionAlarm camera wire sock p_buf_partial_begin
         b1_config_sent runTimeShowStat i64FramesCnt mbx mby crop];
    rewrite E; eexists; (split; [reflexivity|]);
    cbn [inline_vectors gMotionAlarm camera wire sock p_buf_partial_begin
         b1_config_sent runTimeShowStat i64FramesCnt mbx mby crop];
    rewrite ?app_nil_r; auto.
Qed.

Lemma stat_command_switches_overlay_witness :
  let p1 := command ("stat=" ++ decimal 1 ++ newline) (start 1920 1080) in
  exists p2,
    handle_frame_end p1 = Running p2
    /\ i64FramesCnt p2 = i64FramesCnt (start 1920 1080) + 1
    /\ camera p1 = camera (start 1920 1080)
                   ++ (if 1 =? 0 then [annotate EmptyString] else [])
    /\ camera p2 = camera p1
                   ++ (if 1 =? 0 then [] else [annotate EmptyString]).
Proof.
  apply (stat_command_switches_overlay 1 (start 1920 1080));
    unfold CInt.INT_MIN, CInt.INT_MAX; lia.
Defined.

(** ** A stream that breaks off *)

Lemma uint32_bytes_length (n : Z) : List.length (uint32_bytes n) = 4%nat.
Proof. reflexivity. Qed.

(** X26.  No part of a frame reaches the codec.  When the stream breaks
    off, by its end or by an error, somewhere inside a frame (in its four
    length bytes or in its payload), the turn of the frame loop ends the
    loop, by the exception "read_exact" or by the return after a refused
    dequeueInputBuffer, and nothing is queued. *)
Theorem truncated_frame_is_not_queued :
  forall (d : DecoderThread.Decoder) (s : InputStream)
         (payload cut missing : list byte),
    DecoderThread.inputStream d = Some s ->
    arrives s cut ->
    cut ++ missing = encode_frame payload -> missing <> [] ->
    Z.of_nat (List.length payload) <= DecoderThread.TCPIP_BUFFER_SIZE ->
    jlength (DecoderThread.buffer d) = DecoderThread.TCPIP_BUFFER_SIZE ->
    exists d',
      (DecoderThread.read_frame d
         = DecoderThread.Caught (Exception "read_exact") d'
       \/ DecoderThread.read_frame d = DecoderThread.ReturnsEarly d')
      /\ DecoderThread.queued d' = DecoderThread.queued d.
Proof.
  intros d s payload cut missing Hs Ha Hcut Hmiss Hmax Hlen.
  destruct d as [ist buf ids cap q pts cnt msg].
  cbn [DecoderThread.inputStream DecoderThread.buffer DecoderThread.queued] in *.
  subst ist. unfold DecoderThread.TCPIP_BUFFER_SIZE in *.
  set (L := Z.of_nat (List.length payload)) in *.
  assert (Hsum : (List.length cut + List.length missing
                  = 4 + List.length payload)%nat).
  { rewrite <- length_app, Hcut. unfold encode_frame.
    rewrite length_app, uint32_bytes_length. reflexivity. }
  assert (Hm1 : (1 <= List.length missing)%nat).
  { destruct missing; [contradiction|simpl; lia]. }
  unfold DecoderThread.read_frame. decoder_fields.
  destruct (Nat.ltb (List.length cut) 4) eqn:Hshort.
  - apply Nat.ltb_lt in Hshort.
    destruct (read_exact_short buf 4 s cut Ha) as (b1 & s1 & E1);
      [lia|lia|unfold CInt.INT_MAX; lia|].
    rewrite E1. eexists. split; [left; reflexivity|]. reflexivity.
  - apply Nat.ltb_ge in Hshort.
    destruct (read_exact_arrives buf 4 s cut Ha)
      as (b1 & s1 & E1 & Hl1 & Hc1 & Ha1 & _);
      [lia|lia|unfold CInt.INT_MAX; lia|].
    assert (Hfirst : firstn (Z.to_nat 4) cut = uint32_bytes L).
    { change (Z.to_nat 4) with 4%nat.
      assert (H4 : firstn 4 (cut ++ missing) = firstn 4 cut).
      { rewrite firstn_app.
        replace (4 - List.length cut)%nat with 0%nat by lia.
        cbn [firstn]. apply app_nil_r. }
      rewrite <- H4, Hcut. unfold encode_frame.
      change 4%nat with (List.length (uint32_bytes L)) at 1.
      apply firstn_length_app. }
    rewrite Hfirst in Hc1.
    rewrite E1. decoder_fields.
    rewrite (byteArrayToInt_uint32_bytes b1 L Hc1).
    rewrite Z.mod_small by (unfold L; lia).
    rewrite int32_small by (unfold CInt.INT_MAX, L; lia).
    unfold DecoderThread.TCPIP_BUFFER_SIZE.
    replace (L >? 2000000) with false
      by (symmetry; rewrite Z.gtb_ltb; apply Z.ltb_ge; lia).
    assert (Hread : exists b3 s3,
               DecoderThread.read_exact b1 L (Some s1) = (Returns false, b3, s3)).
    { apply (read_exact_short b1 L s1 _ Ha1).
      - rewrite length_skipn. change (Z.to_nat 4) with 4%nat. unfold L. lia.
      - lia.
      - unfold CInt.INT_MAX. lia. }
    destruct Hread as (b3 & s3 & E3).
    destruct ids as [|i ids]; decoder_fields.
    + change (0 >=? 0) with true. cbv iota. rewrite E3.
      eexists. split; [left; reflexivity|]. reflexivity.
    + destruct (i >=? 0).
      * rewrite E3. eexists. split; [left; reflexivity|]. reflexivity.
      * eexists. split; [right; reflexivity|]. reflexivity.
Qed.

Lemma truncated_frame_is_not_queued_witness :
  exists d',
    (DecoderThread.read_frame
       (DecoderThread.with_io (new_bytes DecoderThread.TCPIP_BUFFER_SIZE)
          (Some (stream_of [[x03; x00]; [x00; x00; x0a]]))
          (connected (stream_of []) 2000000))
     = DecoderThread.Caught (Exception "read_exact") d'
     \/ DecoderThread.read_frame
          (DecoderThread.with_io (new_bytes DecoderThread.TCPIP_BUFFER_SIZE)
             (Some (stream_of [[x03; x00]; [x00; x00; x0a]]))
             (connected (stream_of []) 2000000))
        = DecoderThread.ReturnsEarly d')
    /\ DecoderThread.queued d'
       = DecoderThread.queued
           (DecoderThread.with_io (new_bytes DecoderThread.TCPIP_BUFFER_SIZE)
              (Some (stream_of [[x03; x00]; [x00; x00; x0a]]))
              (connected (stream_of []) 2000000)).
Proof.
  apply (truncated_frame_is_not_queued _
           (stream_of [[x03; x00]; [x00; x00; x0a]])
           [x0a; x0b; x0c] [x03; x00; x00; x00; x0a] [x0b; x0c]).
  - reflexivity.
  - unfold arrives, stream_of. cbn [chunks eof_seen concat app].
    split; [reflexivity|]. split; [|reflexivity].
    repeat constructor; discriminate.
  - reflexivity.
  - discriminate.
  - unfold DecoderThread.TCPIP_BUFFER_SIZE. simpl. lia.
  - reflexivity.
Defined.

(** ** From the viewer to the camera *)

Lemma append_assoc (a b c : string) :
  ((a ++ b) ++ c)%string = (a ++ b ++ c)%string.
Proof.
  induction a as [|x a IH]; [reflexivity|]. cbn [append]. rewrite IH. reflexivity.
Qed.

Lemma append_empty (a : string) : (a ++ EmptyString)%string = a.
Proof.
  induction a as [|x a IH]; [reflexivity|]. cbn [append]. rewrite IH. reflexivity.
Qed.

Lemma getlines_line (body rest : string) :
  no_newline body = true ->
  getlines (body ++ newline ++ rest) = (body ++ newline)%string :: getlines rest.
Proof.
  induction body as [|c body IH]; intros Hb.
  - reflexivity.
  - cbn [no_newline] in Hb. apply andb_prop in Hb. destruct Hb as (Hc & Hb).
    apply negb_true_iff in Hc.
    change ((String c body ++ newline ++ rest)%string)
      with (String c (body ++ newline ++ rest)).
    cbn [getlines]. rewrite Hc, (IH Hb). reflexivity.
Qed.

Lemma no_newline_uint (d : Decimal.uint) :
  no_newline (NilZero.string_of_uint d) = true.
Proof.
  unfold NilZero.string_of_uint. destruct d; try reflexivity;
    cbn [NilEmpty.string_of_uint no_newline];
    match goal with
    | |- (_ && no_newline (NilEmpty.string_of_uint ?d))%bool = true =>
        induction d; cbn [NilEmpty.string_of_uint no_newline];
        try reflexivity; assumption
    end.
Qed.

Lemma no_newline_decimal (n : Z) : no_newline (decimal n) = true.
Proof.
  unfold decimal, NilZero.string_of_int.
  destruct (Z.to_int n); cbn [no_newline]; apply no_newline_uint.
Qed.

Lemma no_newline_append (a b : string) :
  no_newline a = true -> no_newline b = true -> no_newline (a ++ b) = true.
Proof.
  induction a as [|c a IH]; intros Ha Hb; [exact Hb|].
  cbn [no_newline append] in *. apply andb_prop in Ha. destruct Ha as (Hc & Ha).
  rewrite Hc, (IH Ha Hb). reflexivity.
Qed.

Lemma command_ss (n : Z) (p : Process) :
  CInt.INT_MIN <= n <= CInt.INT_MAX ->
  command ("ss=" ++ decimal n ++ newline) p = call_camera (set_shutter_speed n) p.
Proof.
  intros Hn. unfold command, strncmp_eq, sscanf_d.
  change (prefix "iso=" ("ss=" ++ decimal n ++ newline)) with false.
  cbv iota.
  rewrite prefix_append, drop_prefix_append.
  rewrite scan_d_decimal by (auto; reflexivity). reflexivity.
Qed.

Lemma command_motion (n : Z) (p : Process) :
  CInt.INT_MIN <= n <= CInt.INT_MAX ->
  command ("motion=" ++ decimal n ++ newline) p
  = if gMotionAlarm p =? 0 then SwitchMotionVectorsOnFly n p else p.
Proof.
  intros Hn. unfold command, strncmp_eq, sscanf_d.
  change (prefix "iso=" ("motion=" ++ decimal n ++ newline)) with false.
  change (prefix "ss=" ("motion=" ++ decimal n ++ newline)) with false.
  change (prefix "stat=" ("motion=" ++ decimal n ++ newline)) with false.
  cbv iota.
  rewrite prefix_append, drop_prefix_append.
  rewrite scan_d_decimal by (auto; reflexivity). reflexivity.
Qed.

Lemma command_move (ch : ascii) (rest : string) (p : Process) :
  command ("move=" ++ String ch rest) p
  = my_raspicamcontrol_zoom_in_zoom_out ch p.
Proof. reflexivity. Qed.

Lemma command_newline (p : Process) : command newline p = p.
Proof. reflexivity. Qed.

(** What a call appends to the text of the link, and what that text does
    when receive_commands reads it. *)
Lemma perform_appends (c : ViewerCall) (l : Viewer.Link) :
  Viewer.isConnected l = true -> java_int c ->
  exists text,
    perform c l = Viewer.mkLink true (Viewer.sockPrintWriter l ++ text)
    /\ forall (rest : string) (p : Process),
         run_commands (getlines (text ++ rest)) p
         = run_commands (getlines rest) (effect c p).
Proof.
  intros Hl Hc. destruct l as [con printed]. cbn [Viewer.isConnected] in Hl.
  subst con.
  destruct c as [i|i| | |i|ch]; cbn [perform java_int effect] in *.
  - exists ("iso=" ++ decimal i ++ newline)%string. split.
    + unfold Viewer.SetISO, Viewer.println. cbn [Viewer.isConnected Viewer.sockPrintWriter].
      rewrite !append_assoc. reflexivity.
    + intros rest p.
      change (("iso=" ++ decimal i ++ newline) ++ rest)%string
        with ("iso=" ++ ((decimal i ++ newline) ++ rest))%string.
      rewrite (append_assoc (decimal i)).
      change ("iso=" ++ decimal i ++ newline ++ rest)%string
        with (("iso=" ++ decimal i) ++ newline ++ rest)%string.
      rewrite getlines_line
        by (apply no_newline_append; [reflexivity|apply no_newline_decimal]).
      unfold run_commands. cbn [fold_left].
      change (("iso=" ++ decimal i) ++ newline)%string
        with ("iso=" ++ decimal i ++ newline)%string.
      rewrite command_iso by exact Hc. reflexivity.
  - exists ("ss=" ++ decimal i ++ newline)%string. split.
    + unfold Viewer.SetSS, Viewer.println. cbn [Viewer.isConnected Viewer.sockPrintWriter].
      rewrite !append_assoc. reflexivity.
    + intros rest p.
      change (("ss=" ++ decimal i ++ newline) ++ rest)%string
        with ("ss=" ++ ((decimal i ++ newline) ++ rest))%string.
      rewrite (append_assoc (decimal i)).
      change ("ss=" ++ decimal i ++ newline ++ rest)%string
        with (("ss=" ++ decimal i) ++ newline ++ rest)%string.
      rewrite getlines_line
        by (apply no_newline_append; [reflexivity|apply no_newline_decimal]).
      unfold run_commands. cbn [fold_left].
      change (("ss=" ++ decimal i) ++ newline)%string
        with ("ss=" ++ decimal i ++ newline)%string.
      rewrite command_ss by exact Hc. reflexivity.
  - exists ("move=i" ++ newline)%string. split; [reflexivity|].
    intros rest p. reflexivity.
  - exists ("move=o" ++ newline)%string. split; [reflexivity|].
    intros rest p. reflexivity.
  - exists ("motion=" ++ decimal i ++ newline)%string. split.
    + unfold Viewer.SetMotion, Viewer.println.
      cbn [Viewer.isConnected Viewer.sockPrintWriter].
      rewrite !append_assoc. reflexivity.
    + intros rest p.
      change (("motion=" ++ decimal i ++ newline) ++ rest)%string
        with ("motion=" ++ ((decimal i ++ newline) ++ rest))%string.
      rewrite (append_assoc (decimal i)).
      change ("motion=" ++ decimal i ++ newline ++ rest)%string
        with (("motion=" ++ decimal i) ++ newline ++ rest)%string.
      rewrite getlines_line
        by (apply no_newline_append; [reflexivity|apply no_newline_decimal]).
      unfold run_commands. cbn [fold_left].
      change (("motion=" ++ decimal i) ++ newline)%string
        with ("motion=" ++ decimal i ++ newline)%string.
      rewrite command_motion by exact Hc. reflexivity.
  - exists ("move=" ++ String ch newline)%string. split; [reflexivity|].
    intros rest p.
    destruct (Ascii.eqb ch "010") eqn:Ech.
    + apply Ascii.eqb_eq in Ech. subst ch.
      change (("move=" ++ String "010" newline) ++ rest)%string
        with ("move=" ++ newline ++ (EmptyString ++ newline ++ rest))%string.
      rewrite getlines_line by reflexivity.
      rewrite getlines_line by reflexivity.
      unfold run_commands. cbn [fold_left].
      change (EmptyString ++ newline)%string with newline.
      rewrite command_newline. reflexivity.
    + change (("move=" ++ String ch newline) ++ rest)%string
        with (("move=" ++ String ch EmptyString) ++ newline ++ rest)%string.
      rewrite getlines_line.
      * unfold run_commands. cbn [fold_left].
        change (("move=" ++ String ch EmptyString) ++ newline)%string
          with ("move=" ++ String ch newline)%string.
        rewrite command_move. reflexivity.
      * cbn [append no_newline]. rewrite Ech. reflexivity.
Qed.

(** X27.  From the buttons of the viewer to the camera.  Whatever row of
    command methods the viewer calls on its connected socket, with
    whatever ints, receive_commands on the Raspberry Pi, reading the text
    they printed, does for every call what the call stands for, in the
    order of the calls and nothing else: it sets the ISO or the shutter
    speed, moves or zooms the view, or switches the motion vectors (the
    last only while the motion alarm is off). *)
Theorem viewer_commands_reach_the_camera :
  forall (calls : list ViewerCall) (l : Viewer.Link) (p : Process),
    Viewer.isConnected l = true ->
    Viewer.sockPrintWriter l = EmptyString ->
    Forall java_int calls ->
    receive_commands
      (Viewer.sockPrintWriter (fold_left (fun k c => perform c k) calls l)) p
    = fold_left (fun q c => effect c q) calls p.
Proof.
  intros calls l p Hl Hp Hints.
  assert (H : forall calls l, Viewer.isConnected l = true ->
            Forall java_int calls ->
            exists text,
              fold_left (fun k c => perform c k) calls l
              = Viewer.mkLink true (Viewer.sockPrintWriter l ++ text)
              /\ forall (rest : string) (p : Process),
                   run_commands (getlines (text ++ rest)) p
                   = run_commands (getlines rest)
                       (fold_left (fun q c => effect c q) calls p)).
  { clear. induction calls as [|c calls IH]; intros l Hl Hints.
    - exists EmptyString. destruct l as [con printed].
      cbn [Viewer.isConnected] in Hl. subst con. cbn [fold_left].
      split; [|reflexivity].
      cbn [Viewer.sockPrintWriter]. rewrite append_empty. reflexivity.
    - inversion Hints as [|? ? Hc Hrest]; subst.
      destruct (perform_appends c l Hl Hc) as (t1 & E1 & R1).
      destruct (IH (perform c l)) as (t2 & E2 & R2).
      { rewrite E1. reflexivity. }
      { exact Hrest. }
      exists (t1 ++ t2)%string. cbn [fold_left]. split.
      + rewrite E2, E1. cbn [Viewer.sockPrintWriter].
        rewrite append_assoc. reflexivity.
      + intros rest p. rewrite append_assoc, R1, R2. reflexivity. }
  destruct (H calls l Hl Hints) as (text & E & R).
  rewrite E, Hp. cbn [Viewer.sockPrintWriter append].
  unfold receive_commands.
  specialize (R EmptyString p). rewrite append_empty in R.
  rewrite R. reflexivity.
Qed.

Lemma viewer_commands_reach_the_camera_witness :
  receive_commands
    (Viewer.sockPrintWriter
       (fold_left (fun k c => perform c k)
          [CallSetISO 800; CallZoomIN; CallMove "l"; CallSetMotion 1;
           CallSetSS (-5)]
          (Viewer.mkLink true EmptyString)))
    (start 1920 1080)
  = fold_left (fun q c => effect c q)
      [CallSetISO 800; CallZoomIN; CallMove "l"; CallSetMotion 1;
       CallSetSS (-5)]
      (start 1920 1080).
Proof.
  apply (viewer_commands_reach_the_camera
           [CallSetISO 800; CallZoomIN; CallMove "l"; CallSetMotion 1;
            CallSetSS (-5)]
           (Viewer.mkLink true EmptyString) (start 1920 1080)).
  - reflexivity.
  - reflexivity.
  - repeat constructor; unfold CInt.INT_MIN, CInt.INT_MAX; cbn; lia.
Defined.

(** ** Recording to a file *)

Section Recording.
Context {F : BufferFlags}.
Variable KEYFRAME : Z.

Ltac recorder_fields :=
  unfold Recorder.fwrite, Recorder.set_saved, Recorder.set_motion,
         Recorder.set_key, Recorder.set_buf, Recorder.set_skip,
         Recorder.set_pstate, Recorder.buf_len;
  cbn [Recorder.pstate Recorder.file_handle Recorder.bHeaderSaved
       Recorder.lastFrameMotion Recorder.lastFrameKeyFr
       Recorder.buf_prev Recorder.i64FramesSkip].

Lemma not_key (b : MMAL_BUFFER_HEADER_T) :
  has_flag b KEYFRAME = false ->
  CInt.uint8 (Z.land (flags b) KEYFRAME) = 0.
Proof.
  unfold has_flag. intros H. apply negb_false_iff, Z.eqb_eq in H.
  rewrite H. reflexivity.
Qed.

Lemma frame_end_keeps (s : Recorder.State) :
  Recorder.file_handle (Recorder.frame_end s) = Recorder.file_handle s
  /\ Recorder.buf_prev (Recorder.frame_end s) = Recorder.buf_prev s
  /\ Recorder.lastFrameMotion (Recorder.frame_end s) = Recorder.lastFrameMotion s
  /\ Recorder.lastFrameKeyFr (Recorder.frame_end s) = Recorder.lastFrameKeyFr s
  /\ mbx (Recorder.pstate (Recorder.frame_end s)) = mbx (Recorder.pstate s)
  /\ mby (Recorder.pstate (Recorder.frame_end s)) = mby (Recorder.pstate s).
Proof.
  destruct s as [p f h m k b sk]. unfold Recorder.frame_end, handle_frame_end.
  destruct p as [w so pb c g r i x y v cam cr].
  cbn [Recorder.pstate runTimeShowStat set_frames i64FramesCnt wire sock
       p_buf_partial_begin b1_config_sent gMotionAlarm mbx mby inline_vectors
       camera crop].
  destruct (r =? 0); repeat split.
Qed.

(** A part of a plain frame that is not its end is put behind what
    buf_prev holds; with its end, the frame before goes to the file or is
    dropped first. *)
Lemma plain_data_step (b : MMAL_BUFFER_HEADER_T) (s : Recorder.State) :
  plain_data KEYFRAME b ->
  let motion := negb (Recorder.lastFrameMotion s =? 0) in
  let ends := has_flag b MMAL_BUFFER_HEADER_FLAG_FRAME_END in
  let kept := if motion then [] else if ends then [] else Recorder.buf_prev s in
  Z.of_nat (List.length kept) + buffer_length b <= 256000 ->
  Z.of_nat (List.length kept) < 256000 ->
  exists s',
    Recorder.encoder_buffer_callback KEYFRAME b s = Recorder.Goes s'
    /\ Recorder.file_handle s'
       = Recorder.file_handle s ++ (if motion then Recorder.buf_prev s else [])
    /\ Recorder.buf_prev s' = kept ++ data b
    /\ Recorder.lastFrameMotion s' = Recorder.lastFrameMotion s
    /\ Recorder.lastFrameKeyFr s' = 0
    /\ mbx (Recorder.pstate s') = mbx (Recorder.pstate s)
    /\ mby (Recorder.pstate s') = mby (Recorder.pstate s).
Proof.
  intros (Hne & Hlen & Hc & Hs & Hk). cbv zeta.
  destruct s as [p f h m k bp sk].
  cbn [Recorder.lastFrameMotion Recorder.buf_prev Recorder.file_handle
       Recorder.pstate].
  intros Hroom Hroom'.
  unfold Recorder.encoder_buffer_callback.
  replace (buffer_length b =? 0) with false
    by (symmetry; apply not_true_iff_false; rewrite buffer_length_zero; exact Hne).
  rewrite Hc. cbn [andb]. cbv iota. rewrite Hs.
  unfold Recorder.h264_data. rewrite Hk, (not_key b Hk).
  assert (Hstore : forall p' f' sk' kept',
    Z.of_nat (List.length kept') + buffer_length b <= 256000 ->
    Z.of_nat (List.length kept') < 256000 ->
    exists s',
      match
        (if Recorder.buf_len (Recorder.mkState p' f' h m 0 kept' sk') >=? 256000
         then Recorder.Exits 123 (Recorder.mkState p' f' h m 0 kept' sk')
         else if Recorder.buf_len (Recorder.mkState p' f' h m 0 kept' sk')
                 + buffer_length b >? 256000
              then Recorder.OutOfBounds (Recorder.mkState p' f' h m 0 kept' sk')
              else Recorder.Goes
                     (Recorder.set_buf
                        (Recorder.buf_prev (Recorder.mkState p' f' h m 0 kept' sk')
                         ++ data b)
                        (Recorder.mkState p' f' h m 0 kept' sk')))
      with
      | Recorder.Goes s' =>
          if has_flag b MMAL_BUFFER_HEADER_FLAG_FRAME_END
          then Recorder.Goes (Recorder.frame_end s') else Recorder.Goes s'
      | Recorder.Exits code s' => Recorder.Exits code s'
      | Recorder.OutOfBounds s' => Recorder.OutOfBounds s'
      end = Recorder.Goes s'
      /\ Recorder.file_handle s' = f'
      /\ Recorder.buf_prev s' = kept' ++ data b
      /\ Recorder.lastFrameMotion s' = m
      /\ Recorder.lastFrameKeyFr s' = 0
      /\ mbx (Recorder.pstate s') = mbx p'
      /\ mby (Recorder.pstate s') = mby p').
  { intros p' f' sk' kept' H1 H2. recorder_fields.
    replace (Z.of_nat (List.length kept') >=? 256000) with false
      by (symmetry; rewrite Z.geb_leb; apply Z.leb_gt; lia).
    replace (Z.of_nat (List.length kept') + buffer_length b >? 256000) with false
      by (symmetry; rewrite Z.gtb_ltb; apply Z.ltb_ge; lia).
    destruct (has_flag b MMAL_BUFFER_HEADER_FLAG_FRAME_END).
    - eexists. split; [reflexivity|].
      destruct (frame_end_keeps
                  (Recorder.mkState p' f' h m 0 (kept' ++ data b) sk'))
        as (E1 & E2 & E3 & E4 & E5 & E6).
      rewrite E1, E2, E3, E4, E5, E6. repeat split.
    - eexists. split; [reflexivity|]. repeat split. }
  recorder_fields. change (CInt.uint8 0) with 0 in *.
  destruct (m =? 0) eqn:Em; cbn [negb andb].
  - destruct (has_flag b MMAL_BUFFER_HEADER_FLAG_FRAME_END) eqn:Ee;
      recorder_fields; rewrite Em; cbn [negb andb]; recorder_fields;
      rewrite app_nil_r.
    + exact (Hstore p f (sk + 1) [] Hroom Hroom').
    + exact (Hstore p f (sk + 1) bp Hroom Hroom').
  - recorder_fields. rewrite Em. cbn [negb andb]. recorder_fields.
    destruct bp as [|x bp'].
    + change (negb (Z.of_nat (List.length (@nil byte)) =? 0)) with false.
      cbv iota. recorder_fields. rewrite app_nil_r.
      exact (Hstore p f (sk + 1) [] Hroom Hroom').
    + replace (negb (Z.of_nat (List.length (x :: bp')) =? 0)) with true
        by (symmetry; apply negb_true_iff, Z.eqb_neq; cbn [List.length]; lia).
      cbv iota. recorder_fields.
      exact (Hstore p (f ++ x :: bp') sk [] Hroom Hroom').
Qed.

Lemma side_info_step (v : MMAL_BUFFER_HEADER_T) (s : Recorder.State) (m : Z) :
  data v <> [] ->
  has_flag v MMAL_BUFFER_HEADER_FLAG_CONFIG = false ->
  has_flag v MMAL_BUFFER_HEADER_FLAG_CODECSIDEINFO = true ->
  Recorder.lastFrameKeyFr s = 0 ->
  DetectMotion (data v) (mbx (Recorder.pstate s)) (mby (Recorder.pstate s))
  = Some m ->
  Recorder.encoder_buffer_callback KEYFRAME v s
  = Recorder.Goes (Recorder.set_motion m s).
Proof.
  intros Hne Hc Hs Hk Hm. unfold Recorder.encoder_buffer_callback.
  replace (buffer_length v =? 0) with false
    by (symmetry; apply not_true_iff_false; rewrite buffer_length_zero; exact Hne).
  rewrite Hc. cbn [andb]. cbv iota. rewrite Hs, Hk.
  change (0 =? 0) with true. cbv iota. rewrite Hm. reflexivity.
Qed.

(** X28.  What the recording callback keeps.  A frame that is no key
    frame waits in buf_prev for its motion vectors: when they show motion
    the frame is written to the file as the next frame arrives, and when
    they show none it is dropped; the next frame then waits in its
    place. *)
Theorem frame_is_recorded_iff_motion :
  forall (b1 v b2 : MMAL_BUFFER_HEADER_T) (m : Z) (s : Recorder.State),
    plain_data KEYFRAME b1 ->
    has_flag b1 MMAL_BUFFER_HEADER_FLAG_FRAME_END = true ->
    plain_data KEYFRAME b2 ->
    has_flag b2 MMAL_BUFFER_HEADER_FLAG_FRAME_END = true ->
    data v <> [] ->
    has_flag v MMAL_BUFFER_HEADER_FLAG_CONFIG = false ->
    has_flag v MMAL_BUFFER_HEADER_FLAG_CODECSIDEINFO = true ->
    DetectMotion (data v) (mbx (Recorder.pstate s)) (mby (Recorder.pstate s))
    = Some m ->
    Recorder.lastFrameMotion s = 0 ->
    exists s',
      Recorder.record KEYFRAME [b1; v; b2] s = Recorder.Goes s'
      /\ Recorder.file_handle s'
         = Recorder.file_handle s ++ (if m =? 0 then [] else data b1)
      /\ Recorder.buf_prev s' = data b2
      /\ Recorder.lastFrameMotion s' = m.
Proof.
  intros b1 v b2 m s Hb1 He1 Hb2 He2 Hv Hvc Hvs Hm H0.
  pose proof Hb1 as (_ & Hl1 & _). pose proof Hb2 as (_ & Hl2 & _).
  destruct (plain_data_step b1 s Hb1) as (s1 & E1 & F1 & B1 & M1 & K1 & X1 & Y1).
  { rewrite H0, He1. cbn. lia. }
  { rewrite H0, He1. cbn. lia. }
  rewrite H0 in F1, B1. rewrite He1 in B1. cbn [Z.eqb negb app] in F1, B1.
  rewrite app_nil_r in F1.
  pose proof (side_info_step v s1 m Hv Hvc Hvs K1) as E2.
  rewrite X1, Y1 in E2. specialize (E2 Hm).
  destruct (plain_data_step b2 (Recorder.set_motion m s1) Hb2)
    as (s3 & E3 & F3 & B3 & M3 & _).
  { cbn [Recorder.set_motion Recorder.lastFrameMotion Recorder.buf_prev].
    rewrite He2. destruct (negb (m =? 0)); cbn; lia. }
  { cbn [Recorder.set_motion Recorder.lastFrameMotion Recorder.buf_prev].
    rewrite He2. destruct (negb (m =? 0)); cbn; lia. }
  cbn [Recorder.set_motion Recorder.lastFrameMotion Recorder.buf_prev
       Recorder.file_handle] in F3, B3, M3.
  rewrite He2 in B3.
  exists s3. cbn [Recorder.record]. rewrite E1, E2, E3.
  split; [reflexivity|]. rewrite F3, B3, F1, B1, M3.
  destruct (m =? 0); cbn [negb app]; auto.
Qed.

(** X29.  The test that guards buf_prev comes too late.  It ends the
    process when buf_prev is full already, but a buffer that is no larger
    than buf_prev and does not fit behind what buf_prev holds is copied
    all the same, past the end of the array. *)
Theorem buf_prev_guard_is_late :
  forall (b : MMAL_BUFFER_HEADER_T) (s : Recorder.State),
    plain_data KEYFRAME b ->
    has_flag b MMAL_BUFFER_HEADER_FLAG_FRAME_END = false ->
    Recorder.lastFrameMotion s = 0 ->
    Recorder.buf_len s < 256000 ->
    256000 < Recorder.buf_len s + buffer_length b ->
    exists s',
      Recorder.encoder_buffer_callback KEYFRAME b s = Recorder.OutOfBounds s'
      /\ Recorder.buf_prev s' = Recorder.buf_prev s
      /\ Recorder.file_handle s' = Recorder.file_handle s.
Proof.
  intros b s (Hne & Hlen & Hc & Hs & Hk) He H0 Hlt Hgt.
  unfold Recorder.encoder_buffer_callback.
  replace (buffer_length b =? 0) with false
    by (symmetry; apply not_true_iff_false; rewrite buffer_length_zero; exact Hne).
  rewrite Hc. cbn [andb]. cbv iota. rewrite Hs.
  unfold Recorder.h264_data. rewrite Hk, (not_key b Hk), He.
  destruct s as [p f h m k bp sk].
  cbn [Recorder.lastFrameMotion] in H0. subst m.
  unfold Recorder.buf_len in Hlt, Hgt. cbn [Recorder.buf_prev] in Hlt, Hgt.
  do 3 (recorder_fields; change (0 =? 0) with true; cbn [negb andb]; cbv iota).
  replace (Z.of_nat (List.length bp) >=? 256000) with false
    by (symmetry; rewrite Z.geb_leb; apply Z.leb_gt; lia).
  replace (Z.of_nat (List.length bp) + buffer_length b >? 256000) with true
    by (symmetry; rewrite Z.gtb_ltb; apply Z.ltb_lt; lia).
  eexists. split; [reflexivity|]. split; reflexivity.
Qed.

(** X30.  A frame that comes in two buffers after a frame without motion
    loses its first part: the end of the frame empties buf_prev, the part
    stored before included, so that, when the motion vectors then show
    motion, only the second part is written to the file. *)
Theorem first_part_of_frame_is_lost :
  forall (part1 part2 v next : MMAL_BUFFER_HEADER_T) (m : Z)
         (s : Recorder.State),
    plain_data KEYFRAME part1 ->
    has_flag part1 MMAL_BUFFER_HEADER_FLAG_FRAME_END = false ->
    plain_data KEYFRAME part2 ->
    has_flag part2 MMAL_BUFFER_HEADER_FLAG_FRAME_END = true ->
    data v <> [] ->
    has_flag v MMAL_BUFFER_HEADER_FLAG_CONFIG = false ->
    has_flag v MMAL_BUFFER_HEADER_FLAG_CODECSIDEINFO = true ->
    DetectMotion (data v) (mbx (Recorder.pstate s)) (mby (Recorder.pstate s))
    = Some m ->
    m <> 0 ->
    plain_data KEYFRAME next ->
    Recorder.lastFrameMotion s = 0 ->
    Recorder.buf_len s + buffer_length part1 <= 256000 ->
    exists s',
      Recorder.record KEYFRAME [part1; part2; v; next] s = Recorder.Goes s'
      /\ Recorder.file_handle s' = Recorder.file_handle s ++ data part2.
Proof.
  intros part1 part2 v next m s Hp1 He1 Hp2 He2 Hv Hvc Hvs Hm Hm0 Hn H0 Hroom.
  pose proof Hp1 as (Hne1 & Hl1 & _). pose proof Hp2 as (_ & Hl2 & _).
  pose proof Hn as (_ & Hl3 & _).
  assert (Hpos : 0 < buffer_length part1).
  { unfold buffer_length. destruct (data part1); [contradiction|].
    cbn [List.length]. lia. }
  unfold Recorder.buf_len in Hroom.
  destruct (plain_data_step part1 s Hp1)
    as (s1 & E1 & F1 & B1 & M1 & K1 & X1 & Y1).
  { rewrite H0, He1. cbn [Z.eqb negb]. lia. }
  { rewrite H0, He1. cbn [Z.eqb negb]. lia. }
  rewrite H0 in F1, M1. cbn [Z.eqb negb] in F1. rewrite app_nil_r in F1.
  destruct (plain_data_step part2 s1 Hp2)
    as (s2 & E2 & F2 & B2 & M2 & K2 & X2 & Y2).
  { rewrite M1, He2. cbn. lia. }
  { rewrite M1, He2. cbn. lia. }
  rewrite M1 in F2, B2. rewrite He2 in B2. cbn [Z.eqb negb app] in F2, B2.
  rewrite app_nil_r in F2.
  pose proof (side_info_step v s2 m Hv Hvc Hvs K2) as E3.
  rewrite X2, Y2, X1, Y1 in E3. specialize (E3 Hm).
  apply Z.eqb_neq in Hm0.
  destruct (plain_data_step next (Recorder.set_motion m s2) Hn)
    as (s4 & E4 & F4 & _).
  { cbn [Recorder.set_motion Recorder.lastFrameMotion Recorder.buf_prev].
    rewrite Hm0. cbn. lia. }
  { cbn [Recorder.set_motion Recorder.lastFrameMotion Recorder.buf_prev].
    rewrite Hm0. cbn. lia. }
  cbn [Recorder.set_motion Recorder.lastFrameMotion Recorder.buf_prev
       Recorder.file_handle] in F4.
  rewrite Hm0 in F4. cbn [negb] in F4.
  exists s4. cbn [Recorder.record]. rewrite E1, E2, E3, E4.
  split; [reflexivity|]. rewrite F4, F2, F1, B2. reflexivity.
Qed.

End Recording.

Ltac plain_data_here :=
  unfold plain_data, has_flag, buffer_length;
  cbn [data flags List.length mmal_flags KEYFRAME_bit
       MMAL_BUFFER_HEADER_FLAG_CONFIG MMAL_BUFFER_HEADER_FLAG_CODECSIDEINFO
       MMAL_BUFFER_HEADER_FLAG_FRAME_END];
  repeat split; try discriminate; try reflexivity; try lia.

Lemma frame_is_recorded_iff_motion_witness :
  exists s',
    Recorder.record (F := mmal_flags) KEYFRAME_bit
      [mkBuffer [x01] 4; mkBuffer [x05; x00; x00; x00] 128; mkBuffer [x02] 4]
      (Recorder.mkState (start 16 16) [] false 0 0 [] 0) = Recorder.Goes s'
    /\ Recorder.file_handle s' = [] ++ (if 5 =? 0 then [] else [x01])
    /\ Recorder.buf_prev s' = [x02]
    /\ Recorder.lastFrameMotion s' = 5.
Proof.
  apply (frame_is_recorded_iff_motion (F := mmal_flags) KEYFRAME_bit
           (mkBuffer [x01] 4) (mkBuffer [x05; x00; x00; x00] 128)
           (mkBuffer [x02] 4) 5
           (Recorder.mkState (start 16 16) [] false 0 0 [] 0));
    try plain_data_here.
Defined.

Lemma buf_prev_guard_is_late_witness :
  exists s',
    Recorder.encoder_buffer_callback (F := mmal_flags) KEYFRAME_bit
      (mkBuffer [x01; x02] 0)
      (Recorder.mkState (start 16 16) [] false 0 0
         (repeat x00 (Z.to_nat 255999)) 0)
    = Recorder.OutOfBounds s'
    /\ Recorder.buf_prev s' = repeat x00 (Z.to_nat 255999)
    /\ Recorder.file_handle s' = [].
Proof.
  apply (buf_prev_guard_is_late (F := mmal_flags) KEYFRAME_bit
           (mkBuffer [x01; x02] 0)
           (Recorder.mkState (start 16 16) [] false 0 0
              (repeat x00 (Z.to_nat 255999)) 0)).
  - plain_data_here.
  - reflexivity.
  - reflexivity.
  - unfold Recorder.buf_len. cbn [Recorder.buf_prev].
    rewrite repeat_length, Z2Nat.id; lia.
  - unfold Recorder.buf_len, buffer_length. cbn [Recorder.buf_prev data].
    rewrite repeat_length, Z2Nat.id by lia. cbn [List.length]. lia.
Defined.

Lemma first_part_of_frame_is_lost_witness :
  exists s',
    Recorder.record (F := mmal_flags) KEYFRAME_bit
      [mkBuffer [x01] 0; mkBuffer [x02] 4;
       mkBuffer [x05; x00; x00; x00] 128; mkBuffer [x03] 4]
      (Recorder.mkState (start 16 16) [] false 0 0 [] 0) = Recorder.Goes s'
    /\ Recorder.file_handle s' = [] ++ [x02].
Proof.
  apply (first_part_of_frame_is_lost (F := mmal_flags) KEYFRAME_bit
           (mkBuffer [x01] 0) (mkBuffer [x02] 4)
           (mkBuffer [x05; x00; x00; x00] 128) (mkBuffer [x03] 4) 5
           (Recorder.mkState (start 16 16) [] false 0 0 [] 0));
    try plain_data_here.
Defined.
